(** * StatementSync: a shallow embedding of [StatementSync.py]

    The script reads PDF bank statements attached to the pages of a Notion
    database, asks a chat-completion model for the transactions as CSV, and
    writes them into one Notion database per respondent.

    Every function of the script is embedded below under its own name.  The
    three remote collaborators (HTTP, the completion model, Notion) and the
    library parsers the script calls (PyMuPDF, [csv], [dateutil]) are not part
    of the script: they appear as the fields of an environment record [Env]
    whose answers may depend on everything that happened before.  Python
    exceptions are values of [result]; a computation of the script is a
    function from a [World] to a result and a new [World].

    Strings are sequences of 8-bit characters; Python's handling of characters
    outside ASCII in [strip], [splitlines] and [float] (which also reads the
    decimal digits of other scripts) is therefore not represented.
    [KeyboardInterrupt] and [SystemExit], which [except Exception] does not
    catch, are not represented either. *)

From Stdlib Require Import ZArith QArith Ascii.
From stdpp Require Import gmap strings list fin_maps pretty.

Local Close Scope Q_scope.
Local Open Scope string_scope.
Local Open Scope list_scope.

(** ** Exceptions and results *)

Inductive exn_kind :=
| ValueError
| ParserError        (* dateutil.parser.ParserError, a subclass of ValueError *)
| OverflowError
| KeyError
| IndexError
| AttributeError
| HTTPError          (* requests: raise_for_status *)
| RequestException   (* requests: transport failure *)
| FileDataError      (* PyMuPDF *)
| OpenAIError
| CsvError
| APIResponseError.  (* notion_client *)

(** [Exn k msg]: an exception of class [k] with [str(e) = msg]. *)
Record exn := Exn { exn_class : exn_kind; exn_str : string }.

(** [except ValueError] catches the class and its subclasses. *)
Definition isinstance_ValueError (e : exn) : bool :=
  match exn_class e with
  | ValueError | ParserError => true
  | _ => false
  end.

Inductive result (A : Type) :=
| Ok (a : A)
| Raise (e : exn).
Arguments Ok {A} a.
Arguments Raise {A} e.

(** ** Python values the script handles *)

(** A Python float, by the exact decimal value of the literal it was read
    from: [Finite q] stands for the binary64 number CPython rounds [q] to (an
    infinity when [q] is out of range).  The rounding itself is left out. *)
Inductive pyfloat :=
| Finite (q : Q)
| Infinite (negative : bool)
| NaN.

(** A row produced by [csv.DictReader]: a dict from column name to a string,
    or to [None] when the line was shorter than the header.  (Surplus fields,
    stored under the key [None], are never read by the script.) *)
Abbreviation csv_row := (gmap string (option string)).

(** ** The Notion service *)

Inductive prop_schema :=
| SchemaDate
| SchemaTitle
| SchemaNumber (format : string)
| SchemaRichText
| SchemaCheckbox
| SchemaFiles
| SchemaCreatedBy
| SchemaOther (type_name : string).

(** A file object of a files property.  [file_url = None]: the object has no
    ["file"] key (an external file). *)
Record file_obj := { file_name : option string; file_url : option string }.

(** The [created_by] value of a property: a user object whose [name] is a
    string, or that has no ["name"] key ([user_name = None]).  A user object
    whose [name] is null, for which [created_by.get("name", ...)] answers
    [None] and not the default, is not represented. *)
Record user_obj := { user_name : option string }.

Inductive prop_value :=
| PFiles (files : list file_obj)
| PCheckbox (checkbox : bool)
| PCreatedBy (created_by : option user_obj)   (* None: not a dict *)
| PDate (start : string)
| PTitle (content : string)
| PNumber (number : pyfloat)
| PRichText (content : string).

Inductive parent :=
| ParentPage (page_id : string)
| ParentWorkspace
| ParentBlock (block_id : string).

Record Database := {
  db_id : string;
  db_parent : parent;
  db_title : list string;                 (* text content of each title segment *)
  db_properties : gmap string prop_schema
}.

Record Page := {
  pg_id : string;
  pg_database : string;                   (* parent database id *)
  pg_properties : gmap string prop_value
}.

Record Store := { databases : list Database; pages : list Page }.

(** ** What the script does to the outside: calls and printed lines *)

Inductive api_call :=
| HttpGet (url : string)
| ChatCompletionsCreate (prompt : string)
| DatabasesRetrieve (database_id : string)
| DatabasesUpdate (database_id : string) (properties : gmap string prop_schema)
| NotionSearch (query : string)
| DatabasesCreate (parent_page_id : string) (title : string)
                  (properties : gmap string prop_schema)
| DatabasesQuery (database_id : string)
| PagesUpdate (page_id : string) (properties : gmap string prop_value)
| PagesCreate (database_id : string) (properties : gmap string prop_value).

Inductive log_msg :=
| LogText (line : string)
| LogAttemptFailed (attempt : Z) (err : string)
| LogRetrying
| LogMaxRetries
| LogPropertyMissing (prop_name : string)
| LogPropertiesAdded
| LogPropertiesComplete
| LogFoundNew (name : option string) (respondent : string)
| LogSkipProcessed (name : option string)
| LogRowSkipped (why : string)
| LogUploaded (uploaded_count : nat)
| LogSkipped (skipped_count : nat)
| LogProcessingPdf (pdf_name page_id : string)
| LogExtracted (rows : list csv_row)
| LogError (context err : string).

Inductive event :=
| Call (c : api_call)
| Print (m : log_msg).

(** The world: the Notion store and the history, most recent event first. *)
Record World := { notion_store : Store; history : list event }.

Record http_response := { status_code : Z; content : string }.

(** ** The environment *)

Record Env := {
  (* module constants; the script ships placeholders for both *)
  MAIN_DATABASE_ID : string;
  TARGET_PAGE_ID : string;
  (* requests.get *)
  http_get : list event -> string -> result http_response;
  (* fitz.open followed by get_text on each page *)
  fitz_pages : string -> result (list string);
  (* client.chat.completions.create: the message content of each choice *)
  chat_completion : list event -> string -> result (list (option string));
  (* csv.DictReader over the given lines: fieldnames and rows *)
  csv_DictReader : list string -> result (option (list string) * list csv_row);
  (* dateutil.parser.parse(s).strftime("%Y-%m-%d") *)
  dateutil_parse : string -> result string;
  (* a Notion call rejected by the service or lost on the way *)
  notion_fault : list event -> api_call -> option exn;
  (* whether the search index returns a database for a query *)
  search_hit : string -> Database -> bool;
  (* the id the service gives to the next created object *)
  new_id : list event -> string
}.

(** ** The computation monad: state and exceptions *)

Definition M (A : Type) : Type := World -> result A * World.

Definition ret {A} (a : A) : M A := fun w => (Ok a, w).

Definition raise {A} (e : exn) : M A := fun w => (Raise e, w).

Definition bind {A B} (m : M A) (k : A -> M B) : M B :=
  fun w =>
    match m w with
    | (Ok a, w') => k a w'
    | (Raise e, w') => (Raise e, w')
    end.

Notation "x <- m ;; k" := (bind m (fun x => k))
  (at level 100, m at next level, right associativity).
Notation "m ;;; k" := (bind m (fun _ => k))
  (at level 100, right associativity).

(** [try: m  except Exception as e: h e] *)
Definition try_except {A} (m : M A) (h : exn -> M A) : M A :=
  fun w =>
    match m w with
    | (Ok a, w') => (Ok a, w')
    | (Raise e, w') => h e w'
    end.

Definition lift {A} (r : result A) : M A :=
  match r with
  | Ok a => ret a
  | Raise e => raise e
  end.

Definition emit (ev : event) : M unit :=
  fun w => (Ok tt, {| notion_store := notion_store w; history := ev :: history w |}).

Definition print (m : log_msg) : M unit := emit (Print m).

Definition get_history : M (list event) := fun w => (Ok (history w), w).
Definition get_store : M Store := fun w => (Ok (notion_store w), w).
Definition put_store (s : Store) : M unit :=
  fun w => (Ok tt, {| notion_store := s; history := history w |}).

(** ** Python string methods used by the script *)

Definition nl : string := String (ascii_of_nat 10) EmptyString.

Definition is_space (c : ascii) : bool :=
  let n := nat_of_ascii c in
  ((9 <=? n) && (n <=? 13) || (28 <=? n) && (n <=? 32))%nat.

Fixpoint lstrip (s : string) : string :=
  match s with
  | String c s' => if is_space c then lstrip s' else s
  | EmptyString => EmptyString
  end.

Fixpoint rstrip (s : string) : string :=
  match s with
  | String c s' =>
      match rstrip s' with
      | EmptyString => if is_space c then EmptyString else String c EmptyString
      | t => String c t
      end
  | EmptyString => EmptyString
  end.

(** [s.strip()] *)
Definition strip (s : string) : string := rstrip (lstrip s).

(** [s.startswith(p)] *)
Definition startswith (p s : string) : bool := String.prefix p s.

(** [s.find(sub, start)] for [start >= 0] *)
Definition find (sub : string) (start : Z) (s : string) : Z :=
  match String.index (Z.to_nat start) sub s with
  | Some i => Z.of_nat i
  | None => (-1)%Z
  end.

(** [s[a:b]] for [0 <= a] and [0 <= b] *)
Definition slice (a b : Z) (s : string) : string :=
  String.substring (Z.to_nat a) (Z.to_nat (b - a)) s.

(** [s.replace(c, "")] for a one-character [c] *)
Fixpoint remove_char (c : ascii) (s : string) : string :=
  match s with
  | String d s' => if Ascii.eqb c d then remove_char c s' else String d (remove_char c s')
  | EmptyString => EmptyString
  end.

Definition is_linebreak (c : ascii) : bool :=
  let n := nat_of_ascii c in
  ((10 <=? n) && (n <=? 13) || (28 <=? n) && (n <=? 30))%nat.

(** [s.splitlines()]: a carriage return followed by a line feed is one break. *)
Fixpoint splitlines_aux (cur : string) (s : string) : list string :=
  match s with
  | EmptyString => if decide (cur = EmptyString) then [] else [cur]
  | String c s' =>
      if is_linebreak c then
        match c, s' with
        | "013"%char, String "010"%char s'' => cur :: splitlines_aux EmptyString s''
        | _, _ => cur :: splitlines_aux EmptyString s'
        end
      else splitlines_aux (cur +:+ String c EmptyString) s'
  end.

Definition splitlines (s : string) : list string := splitlines_aux EmptyString s.

(** ** [float(s)] *)

(** The white space [float] skips at both ends: C's [isspace] (blank, tab,
    line feed, vertical tab, form feed, carriage return).  The separators 28
    to 31, which [str.strip] removes, are not skipped: [float] refuses them. *)
Definition is_c_space (c : ascii) : bool :=
  let n := nat_of_ascii c in
  ((9 <=? n) && (n <=? 13) || (n =? 32))%nat.

Fixpoint float_lstrip (s : string) : string :=
  match s with
  | String c s' => if is_c_space c then float_lstrip s' else s
  | EmptyString => EmptyString
  end.

Fixpoint float_rstrip (s : string) : string :=
  match s with
  | String c s' =>
      match float_rstrip s' with
      | EmptyString => if is_c_space c then EmptyString else String c EmptyString
      | t => String c t
      end
  | EmptyString => EmptyString
  end.

(** Every character is ASCII. *)
Fixpoint ascii_only (s : string) : bool :=
  match s with
  | String c s' => (nat_of_ascii c <? 128)%nat && ascii_only s'
  | EmptyString => true
  end.

Definition digit_val (c : ascii) : option N :=
  let n := N_of_ascii c in
  if ((48 <=? n) && (n <=? 57))%N then Some (n - 48)%N else None.

(** A run of digits, single underscores allowed between two digits:
    the value read, the number of digits, and what is left. *)
Fixpoint read_digits (acc : N) (cnt : nat) (s : string) : N * nat * string :=
  match s with
  | String c s' =>
      match digit_val c with
      | Some d => read_digits (10 * acc + d)%N (S cnt) s'
      | None =>
          match cnt, s' with
          | S _, String c' _ =>
              if Ascii.eqb c "_" && bool_decide (is_Some (digit_val c'))
              then read_digits acc cnt s'
              else (acc, cnt, s)
          | _, _ => (acc, cnt, s)
          end
      end
  | EmptyString => (acc, cnt, s)
  end.

Definition read_sign (s : string) : bool * string :=
  match s with
  | String "-" s' => (true, s')
  | String "+" s' => (false, s')
  | _ => (false, s)
  end.

Definition lower_char (c : ascii) : ascii :=
  let n := nat_of_ascii c in
  if ((65 <=? n) && (n <=? 90))%nat then ascii_of_nat (n + 32) else c.

Fixpoint lower (s : string) : string :=
  match s with
  | String c s' => String (lower_char c) (lower s')
  | EmptyString => EmptyString
  end.

(** The exponent part: [None] when it is malformed. *)
Definition read_exponent (s : string) : option (Z * string) :=
  match s with
  | String c s' =>
      if Ascii.eqb (lower_char c) "e" then
        let '(neg, s1) := read_sign s' in
        let '(v, cnt, s2) := read_digits 0 0 s1 in
        match cnt with
        | O => None
        | S _ => Some (if neg then (- Z.of_N v)%Z else Z.of_N v, s2)
        end
      else Some (0%Z, s)
  | EmptyString => Some (0%Z, s)
  end.

Definition float_error (s : string) : exn :=
  Exn ValueError ("could not convert string to float: '" +:+ s +:+ "'").

(** [float(s)] for an ASCII [s]: white space skipped at both ends, then a
    sign, then [inf], [infinity] or [nan] in any case, or a decimal literal
    with an optional exponent. *)
Definition float (s : string) : result pyfloat :=
  let '(neg, s1) := read_sign (float_rstrip (float_lstrip s)) in
  let word := lower s1 in
  if bool_decide (word = "inf" \/ word = "infinity") then Ok (Infinite neg)
  else if bool_decide (word = "nan") then Ok NaN
  else
    let '(ip, ni, s2) := read_digits 0 0 s1 in
    let '(fp, nf, s3) :=
      match s2 with
      | String "." s2' => read_digits 0 0 s2'
      | _ => (0%N, O, s2)
      end in
    match ni, nf with
    | O, O => Raise (float_error s)
    | _, _ =>
        match read_exponent s3 with
        | Some (e, EmptyString) =>
            let mant := Z.of_N (ip * 10 ^ N.of_nat nf + fp) in
            let q := (inject_Z (if neg then - mant else mant)
                      * Qpower (inject_Z 10) (e - Z.of_nat nf))%Q in
            Ok (Finite q)
        | _ => Raise (float_error s)
        end
    end.

(** ** Truthiness and dict access *)

(** [bool(v)] for a value that is a string or [None]. *)
Definition truthy (v : option string) : bool :=
  match v with
  | Some s => negb (bool_decide (s = ""))
  | None => false
  end.

(** [row.get(key, default)]; the stored value may itself be [None]. *)
Definition dict_get (key default : string) (row : csv_row) : option string :=
  match row !! key with
  | Some v => v
  | None => Some default
  end.

(** A method call on a value that may be [None]. *)
Definition method_strip (v : option string) : M string :=
  match v with
  | Some s => ret (strip s)
  | None => raise (Exn AttributeError "'NoneType' object has no attribute 'strip'")
  end.

(** ** The script *)

Section Script.

Variable E : Env.

(** *** Calls to the outside *)

Definition not_found (what id : string) : exn :=
  Exn APIResponseError ("Could not find " +:+ what +:+ " with ID: " +:+ id).

(** A Notion call: it is recorded, then either fails on the way
    ([notion_fault]) or is served from the store. *)
Definition notion_call {A} (c : api_call) (serve : list event -> Store -> result A * Store)
  : M A :=
  h <- get_history ;;
  emit (Call c) ;;;
  match notion_fault E h c with
  | Some e => raise e
  | None =>
      s <- get_store ;;
      let '(r, s') := serve h s in
      put_store s' ;;; lift r
  end.

Definition find_database (database_id : string) (s : Store) : option Database :=
  List.find (fun db => bool_decide (db_id db = database_id)) (databases s).

Definition find_page (page_id : string) (s : Store) : option Page :=
  List.find (fun p => bool_decide (pg_id p = page_id)) (pages s).

(** [notion.databases.retrieve(database_id)] *)
Definition notion_databases_retrieve (database_id : string) : M Database :=
  notion_call (DatabasesRetrieve database_id) (fun _ s =>
    match find_database database_id s with
    | Some db => (Ok db, s)
    | None => (Raise (not_found "database" database_id), s)
    end).

Definition with_properties (props : gmap string prop_schema) (db : Database) : Database :=
  {| db_id := db_id db; db_parent := db_parent db; db_title := db_title db;
     db_properties := props ∪ db_properties db |}.

(** [notion.databases.update(database_id=.., properties=..)]: the named
    properties are set, every other property of the database is kept. *)
Definition notion_databases_update (database_id : string)
    (properties : gmap string prop_schema) : M unit :=
  notion_call (DatabasesUpdate database_id properties) (fun _ s =>
    match find_database database_id s with
    | Some _ =>
        (Ok tt,
         {| databases :=
              map (fun db => if bool_decide (db_id db = database_id)
                             then with_properties properties db else db)
                  (databases s);
            pages := pages s |})
    | None => (Raise (not_found "database" database_id), s)
    end).

(** [notion.search(query=.., filter=databases).get("results", [])] *)
Definition notion_search (query : string) : M (list Database) :=
  notion_call (NotionSearch query) (fun _ s =>
    (Ok (List.filter (search_hit E query) (databases s)), s)).

(** [notion.databases.create(parent=page, title=[text], properties=..)] *)
Definition notion_databases_create (parent_page_id title : string)
    (properties : gmap string prop_schema) : M Database :=
  notion_call (DatabasesCreate parent_page_id title properties) (fun h s =>
    let db := {| db_id := new_id E h; db_parent := ParentPage parent_page_id;
                 db_title := [title]; db_properties := properties |} in
    (Ok db, {| databases := databases s ++ [db]; pages := pages s |})).

(** One page of results, at most [page_size] of them. *)
Definition page_size : nat := 100.

(** [notion.databases.query(database_id=..).get("results", [])] *)
Definition notion_databases_query (database_id : string) : M (list Page) :=
  notion_call (DatabasesQuery database_id) (fun _ s =>
    match find_database database_id s with
    | Some _ =>
        (Ok (take page_size
               (List.filter (fun p => bool_decide (pg_database p = database_id)) (pages s))),
         s)
    | None => (Raise (not_found "database" database_id), s)
    end).

(** [notion.pages.update(page_id=.., properties=..)] *)
Definition notion_pages_update (page_id : string)
    (properties : gmap string prop_value) : M unit :=
  notion_call (PagesUpdate page_id properties) (fun _ s =>
    match find_page page_id s with
    | Some _ =>
        (Ok tt,
         {| databases := databases s;
            pages :=
              map (fun p => if bool_decide (pg_id p = page_id)
                            then {| pg_id := pg_id p; pg_database := pg_database p;
                                    pg_properties := properties ∪ pg_properties p |}
                            else p)
                  (pages s) |})
    | None => (Raise (not_found "page" page_id), s)
    end).

(** [notion.pages.create(parent={"database_id": ..}, properties=..)] *)
Definition notion_pages_create (database_id : string)
    (properties : gmap string prop_value) : M unit :=
  notion_call (PagesCreate database_id properties) (fun h s =>
    match find_database database_id s with
    | Some _ =>
        (Ok tt,
         {| databases := databases s;
            pages := pages s ++ [{| pg_id := new_id E h; pg_database := database_id;
                                    pg_properties := properties |}] |})
    | None => (Raise (not_found "database" database_id), s)
    end).

(** [requests.get(url)] *)
Definition requests_get (url : string) : M http_response :=
  h <- get_history ;;
  emit (Call (HttpGet url)) ;;;
  lift (http_get E h url).

(** [response.raise_for_status()] *)
Definition raise_for_status (response : http_response) : M unit :=
  if bool_decide (400 <= status_code response < 600)%Z
  then raise (Exn HTTPError "Client or Server Error")
  else ret tt.

(** [client.chat.completions.create(.., messages=[user: prompt], ..)] *)
Definition chat_completions_create (prompt : string) : M (list (option string)) :=
  h <- get_history ;;
  emit (Call (ChatCompletionsCreate prompt)) ;;;
  lift (chat_completion E h prompt).

(** *** [read_pdf] *)

(** The body of the [try]: download, open, concatenate the page texts. *)
Definition fetch_text (pdf_url : string) : M string :=
  response <- requests_get pdf_url ;;
  raise_for_status response ;;;
  pages <- lift (fitz_pages E (content response)) ;;
  ret (fold_left String.append pages "").

Definition read_pdf (pdf_url : string) : M string :=
  try_except
    (fetch_text pdf_url)
    (fun e => ret ("Error reading PDF: " +:+ exn_str e)).

(** *** [analyze_pdf_content] *)

Definition prompt_template (pdf_content : string) : string :=
  "Analyze the following PDF content and extract the following information for each transaction:" +:+ nl +:+
  "- Price" +:+ nl +:+
  "- Product Name" +:+ nl +:+
  "- Transaction Date" +:+ nl +:+
  "- Category (e.g., Groceries, Utilities, Entertainment, etc.)" +:+ nl +:+ nl +:+
  "Provide **only** the extracted data in a structured CSV format with headers: Transaction Date, Product Name, Price, Category." +:+ nl +:+
  "Do **not** include any additional text, explanations, or messages." +:+ nl +:+ nl +:+
  "Here is an example of the desired CSV format:" +:+ nl +:+
  "```" +:+ nl +:+
  "Transaction Date,Product Name,Price,Category" +:+ nl +:+
  "2022-09-08,Example Product,100.00,Groceries" +:+ nl +:+
  "2022-09-09,Another Product,200.50,Utilities" +:+ nl +:+
  "```" +:+ nl +:+ nl +:+
  "Now, based on the PDF content below, provide the CSV data accordingly." +:+ nl +:+ nl +:+
  "PDF Content:" +:+ nl +:+ pdf_content.

Definition expected_headers : list string :=
  ["Transaction Date"; "Product Name"; "Price"; "Category"].

(** The fenced block of the answer, or the whole answer. *)
Definition csv_block (assistant_message : string) : string :=
  let csv_start := find ("```" +:+ nl) 0 assistant_message in
  let csv_end := find "```" (csv_start + 4) assistant_message in
  if bool_decide (csv_start <> -1 /\ csv_end <> -1)%Z
  then strip (slice (csv_start + 4) csv_end assistant_message)
  else strip assistant_message.

(** The body of the [try] of one attempt; its value is what [return data]
    hands back. *)
Definition attempt_once (prompt : string) : M (list csv_row) :=
  choices <- chat_completions_create prompt ;;
  match choices with
  | [] => raise (Exn IndexError "list index out of range")
  | None :: _ => raise (Exn AttributeError "'NoneType' object has no attribute 'strip'")
  | Some content :: _ =>
      let assistant_message := strip content in
      let csv_content := csv_block assistant_message in
      reader <- lift (csv_DictReader E (splitlines csv_content)) ;;
      let '(fieldnames, data) := reader in
      if bool_decide (fieldnames <> Some expected_headers)
      then raise (Exn ValueError "CSV headers do not match expected format.")
      else ret data
  end.

(** [for attempt in range(attempt, retries + 1)], [todo] iterations left. *)
Fixpoint attempts (prompt : string) (retries attempt : Z) (todo : nat) : M (list csv_row) :=
  match todo with
  | O => ret []
  | S todo' =>
      r <- try_except
             (data <- attempt_once prompt ;; ret (Some data))
             (fun e =>
                print (LogAttemptFailed attempt (exn_str e)) ;;;
                (if bool_decide (attempt < retries)%Z
                 then print LogRetrying else print LogMaxRetries) ;;;
                ret None) ;;
      match r with
      | Some data => ret data
      | None => attempts prompt retries (attempt + 1)%Z todo'
      end
  end.

Definition analyze_pdf_content (pdf_content : string) (retries : Z) : M (list csv_row) :=
  attempts (prompt_template pdf_content) retries 1%Z (Z.to_nat retries).

(** *** [ensure_database_properties] *)

(** The dict literal [required_properties], in the order it is written. *)
Definition required_properties : list (string * prop_schema) :=
  [ ("Transaction Date", SchemaDate);
    ("Product Name", SchemaTitle);
    ("Price", SchemaNumber "dollar");
    ("Category", SchemaRichText);
    ("Processed", SchemaCheckbox) ].

(** [for prop_name, prop_schema in required_properties.items()] *)
Fixpoint collect_missing (required : list (string * prop_schema))
    (existing_properties properties_to_add : gmap string prop_schema)
  : M (gmap string prop_schema) :=
  match required with
  | [] => ret properties_to_add
  | (prop_name, schema) :: rest =>
      match existing_properties !! prop_name with
      | None =>
          print (LogPropertyMissing prop_name) ;;;
          collect_missing rest existing_properties (<[prop_name := schema]> properties_to_add)
      | Some _ => collect_missing rest existing_properties properties_to_add
      end
  end.

Definition ensure_database_properties (database_id : string) : M unit :=
  try_except
    (database <- notion_databases_retrieve database_id ;;
     let existing_properties := db_properties database in
     properties_to_add <- collect_missing required_properties existing_properties ∅ ;;
     if bool_decide (properties_to_add <> ∅)
     then notion_databases_update database_id properties_to_add ;;;
          print LogPropertiesAdded
     else print LogPropertiesComplete)
    (fun e => print (LogError "Error ensuring database properties" (exn_str e))).

(** *** [check_existing_database] and [create_new_database] *)

(** [for db in response]: the first database under the target page whose
    first title segment is the expected title. *)
Fixpoint first_match (respondent_name target_page_id expected_title : string)
    (response : list Database) : M (option string) :=
  match response with
  | [] => ret None
  | db :: rest =>
      match db_parent db with
      | ParentPage p =>
          if bool_decide (p = target_page_id) then
            match db_title db with
            | [] => raise (Exn IndexError "list index out of range")
            | t :: _ =>
                if bool_decide (t = expected_title)
                then print (LogText ("Found existing database for " +:+ respondent_name)) ;;;
                     ret (Some (db_id db))
                else first_match respondent_name target_page_id expected_title rest
            end
          else first_match respondent_name target_page_id expected_title rest
      | _ => first_match respondent_name target_page_id expected_title rest
      end
  end.

Definition check_existing_database (respondent_name target_page_id : string)
  : M (option string) :=
  try_except
    (let expected_title := respondent_name in
     response <- notion_search expected_title ;;
     first_match respondent_name target_page_id expected_title response)
    (fun e =>
       print (LogError "Error checking existing database" (exn_str e)) ;;;
       ret None).

Definition create_new_database (respondent_name : string) : M (option string) :=
  try_except
    (let database_title := respondent_name in
     new_database <- notion_databases_create (TARGET_PAGE_ID E) database_title
                       (list_to_map required_properties) ;;
     print (LogText ("Created new database for " +:+ respondent_name +:+
                     " with ID: " +:+ db_id new_database)) ;;;
     ret (Some (db_id new_database)))
    (fun e =>
       print (LogError ("Error creating database for " +:+ respondent_name) (exn_str e)) ;;;
       ret None).

(** *** [get_pdf_entries] *)

Record pdf_entry := {
  page_id : string;
  pdf_file : file_obj;
  pdf_url : string;
  respondent_name : string
}.

(** [properties.get("Processed", {}).get("checkbox", False)] *)
Definition processed_of (properties : gmap string prop_value) : bool :=
  match properties !! "Processed" with
  | Some (PCheckbox b) => b
  | _ => false
  end.

(** The respondent named by [properties]. *)
Definition respondent_of (properties : gmap string prop_value) : string :=
  match properties !! "Respondent" with
  | Some (PCreatedBy None) => "Unknown Respondent"
  | Some (PCreatedBy (Some u)) => default "Unknown Respondent" (user_name u)
  | _ => "Unknown Respondent"
  end.

(** [for pdf_file in pdf_files]: the entries collected so far, and the
    exception that ended the loop, if any.  Entries appended before an
    exception stay in [pdf_entries]. *)
Fixpoint scan_files (page : Page) (pdf_files : list file_obj) (pdf_entries : list pdf_entry)
  : M (list pdf_entry * option exn) :=
  match pdf_files with
  | [] => ret (pdf_entries, None)
  | pdf_file :: rest =>
      let properties := pg_properties page in
      let processed := processed_of properties in
      if negb processed then
        let respondent_name := respondent_of properties in
        match file_url pdf_file with
        | None => ret (pdf_entries, Some (Exn KeyError "'file'"))
        | Some url =>
            let entry := {| page_id := pg_id page; pdf_file := pdf_file;
                            pdf_url := url; respondent_name := respondent_name |} in
            print (LogFoundNew (file_name pdf_file) respondent_name) ;;;
            scan_files page rest (pdf_entries ++ [entry])
        end
      else
        print (LogSkipProcessed (file_name pdf_file)) ;;;
        scan_files page rest pdf_entries
  end.

(** The body of [for page in results], with its own [try]. *)
Definition scan_page (page : Page) (pdf_entries : list pdf_entry) : M (list pdf_entry) :=
  match pg_properties page !! "upload your bank statement" with
  | None => ret pdf_entries
  | Some (PFiles pdf_files) =>
      r <- scan_files page pdf_files pdf_entries ;;
      match r with
      | (entries, None) => ret entries
      | (entries, Some e) =>
          print (LogError "Error processing page" (exn_str e)) ;;; ret entries
      end
  | Some _ =>
      print (LogError "Error processing page" "'files'") ;;; ret pdf_entries
  end.

Fixpoint scan_pages (results : list Page) (pdf_entries : list pdf_entry)
  : M (list pdf_entry) :=
  match results with
  | [] => ret pdf_entries
  | page :: rest =>
      entries <- scan_page page pdf_entries ;;
      scan_pages rest entries
  end.

Definition get_pdf_entries (database_id : string) : M (list pdf_entry) :=
  try_except
    (results <- notion_databases_query database_id ;;
     scan_pages results [])
    (fun e => print (LogError "Error querying database" (exn_str e)) ;;; ret []).

(** *** [mark_pdf_as_processed] *)

Definition mark_pdf_as_processed (page_id : string) : M unit :=
  try_except
    (notion_pages_update page_id {[ "Processed" := PCheckbox true ]} ;;;
     print (LogText ("Marked page " +:+ page_id +:+ " as processed.")))
    (fun e =>
       print (LogError ("Error marking page " +:+ page_id +:+ " as processed") (exn_str e))).

(** *** [upload_transactions_to_notion] *)

(** [try: m  except ValueError: h]: other exceptions pass through. *)
Definition try_except_ValueError {A} (m : M A) (h : M A) : M A :=
  try_except m (fun e => if isinstance_ValueError e then h else raise e).

(** How the body of the loop left a row: [uploaded_count += 1] or
    [skipped_count += 1]. *)
Inductive row_outcome := RowUploaded | RowSkipped.

Definition row_properties (formatted_date product_name : string) (price : pyfloat)
    (category : string) : gmap string prop_value :=
  {[ "Transaction Date" := PDate formatted_date;
     "Product Name" := PTitle product_name;
     "Price" := PNumber price;
     "Category" := PRichText category ]}.

(** The body of [for row in data]. *)
Definition upload_row (row : csv_row) (database_id : string) : M row_outcome :=
  try_except
    (let date_str := dict_get "Transaction Date" "" row in
     if negb (truthy date_str) then
       print (LogRowSkipped "Missing 'Transaction Date'") ;;; ret RowSkipped
     else
       parsed <- try_except_ValueError
                   (d <- lift (dateutil_parse E (default "" date_str)) ;; ret (Some d))
                   (print (LogRowSkipped "Invalid date format") ;;; ret None) ;;
       match parsed with
       | None => ret RowSkipped
       | Some formatted_date =>
           product_name <- method_strip (dict_get "Product Name" "" row) ;;
           price_str <- method_strip (dict_get "Price" "" row) ;;
           category <- method_strip (dict_get "Category" "" row) ;;
           if bool_decide (product_name = "" \/ price_str = "" \/ category = "") then
             print (LogRowSkipped "Missing 'Product Name', 'Price', or 'Category'") ;;;
             ret RowSkipped
           else
             converted <- try_except_ValueError
                            (p <- lift (float (remove_char "$" (remove_char "," price_str))) ;;
                             ret (Some p))
                            (print (LogRowSkipped "Invalid price format") ;;; ret None) ;;
             match converted with
             | None => ret RowSkipped
             | Some price =>
                 notion_pages_create database_id
                   (row_properties formatted_date product_name price category) ;;;
                 ret RowUploaded
             end
       end)
    (fun e =>
       print (LogError "Error uploading row to Notion" (exn_str e)) ;;;
       ret RowSkipped).

Fixpoint upload_rows (data : list csv_row) (database_id : string)
    (uploaded_count skipped_count : nat) : M (nat * nat) :=
  match data with
  | [] => ret (uploaded_count, skipped_count)
  | row :: rest =>
      outcome <- upload_row row database_id ;;
      match outcome with
      | RowUploaded => upload_rows rest database_id (S uploaded_count) skipped_count
      | RowSkipped => upload_rows rest database_id uploaded_count (S skipped_count)
      end
  end.

(** The function has no [return] statement: its value is Python's [None],
    written [None] here; [Some (u, s)] would be a returned pair of counts. *)
Definition upload_transactions_to_notion (data : list csv_row) (database_id : string)
  : M (option (nat * nat)) :=
  counts <- upload_rows data database_id 0 0 ;;
  let '(uploaded_count, skipped_count) := counts in
  print (LogUploaded uploaded_count) ;;;
  print (LogSkipped skipped_count) ;;;
  ret None.

(** *** [process_pdfs] *)

(** [respondent_pdfs]: a dict in insertion order. *)
Fixpoint group_append (respondent : string) (entry : pdf_entry)
    (respondent_pdfs : list (string * list pdf_entry)) : list (string * list pdf_entry) :=
  match respondent_pdfs with
  | [] => [(respondent, [entry])]
  | (r, pdfs) :: rest =>
      if bool_decide (r = respondent)
      then (r, pdfs ++ [entry]) :: rest
      else (r, pdfs) :: group_append respondent entry rest
  end.

Definition group_by_respondent (pdf_entries : list pdf_entry)
  : list (string * list pdf_entry) :=
  fold_left (fun groups entry => group_append (respondent_name entry) entry groups)
            pdf_entries [].

Definition cleaned_item_of (item : csv_row) : csv_row :=
  {[ "Transaction Date" := dict_get "Transaction Date" "" item;
     "Product Name" := dict_get "Product Name" "" item;
     "Price" := dict_get "Price" "" item;
     "Category" := dict_get "Category" "" item ]}.

(** [all(cleaned_item.values())] *)
Definition all_values_truthy (cleaned_item : csv_row) : bool :=
  forallb (fun kv => truthy kv.2) (map_to_list cleaned_item).

(** [for item in extracted_data] *)
Fixpoint clean_data (extracted_data cleaned_data : list csv_row) : M (list csv_row) :=
  match extracted_data with
  | [] => ret cleaned_data
  | item :: rest =>
      let cleaned_item := cleaned_item_of item in
      if all_values_truthy cleaned_item
      then clean_data rest (cleaned_data ++ [cleaned_item])
      else print (LogText "Skipping incomplete data") ;;; clean_data rest cleaned_data
  end.

(** The body of [for pdf_entry in pdfs]. *)
Definition process_pdf_entry (existing_db_id : string) (pdf_entry : pdf_entry) : M unit :=
  try_except
    (let page_id := page_id pdf_entry in
     let pdf_file := pdf_file pdf_entry in
     let pdf_url := pdf_url pdf_entry in
     let pdf_name := default "Extracted Transactions" (file_name pdf_file) in
     print (LogProcessingPdf pdf_name page_id) ;;;
     pdf_content <- read_pdf pdf_url ;;
     if startswith "Error" pdf_content then
       print (LogText pdf_content)
     else
       extracted_data <- analyze_pdf_content pdf_content 3 ;;
       print (LogExtracted extracted_data) ;;;
       match extracted_data with
       | [] => print (LogText ("No valid data extracted from PDF in page ID " +:+ page_id))
       | _ :: _ =>
           cleaned_data <- clean_data extracted_data [] ;;
           match cleaned_data with
           | _ :: _ => upload_transactions_to_notion cleaned_data existing_db_id ;;; ret tt
           | [] => print (LogText "No valid data to upload.")
           end ;;;
           mark_pdf_as_processed page_id
       end)
    (fun e =>
       print (LogError ("Error processing PDF from page ID " +:+ page_id pdf_entry)
                       (exn_str e))).

Fixpoint process_pdf_entries (existing_db_id : string) (pdfs : list pdf_entry) : M unit :=
  match pdfs with
  | [] => ret tt
  | pdf_entry :: rest =>
      process_pdf_entry existing_db_id pdf_entry ;;;
      process_pdf_entries existing_db_id rest
  end.

(** [not existing_db_id]: [None] and the empty string are falsy. *)
Definition falsy_id (id : option string) : bool := negb (truthy id).

(** Lines 428 to 436: the database of a respondent, found or created. *)
Definition resolve_database (respondent : string) : M (option string) :=
  existing_db_id <- check_existing_database respondent (TARGET_PAGE_ID E) ;;
  if falsy_id existing_db_id then
    existing_db_id <- create_new_database respondent ;;
    if falsy_id existing_db_id then
      print (LogText ("Failed to create database for " +:+ respondent +:+ ". Skipping.")) ;;;
      ret None
    else ret existing_db_id
  else
    print (LogText ("Using existing database for " +:+ respondent)) ;;;
    ret existing_db_id.

(** [for respondent, pdfs in respondent_pdfs.items()] *)
Fixpoint process_respondents (respondent_pdfs : list (string * list pdf_entry)) : M unit :=
  match respondent_pdfs with
  | [] => ret tt
  | (respondent, pdfs) :: rest =>
      print (LogText ("Processing Respondent: " +:+ respondent)) ;;;
      existing_db_id <- resolve_database respondent ;;
      match existing_db_id with
      | None => ret tt
      | Some id => process_pdf_entries id pdfs
      end ;;;
      process_respondents rest
  end.

Definition process_pdfs : M unit :=
  print (LogText "Fetching PDF entries from Notion database...") ;;;
  pdf_entries <- get_pdf_entries (MAIN_DATABASE_ID E) ;;
  match pdf_entries with
  | [] => print (LogText "No PDF entries found in the database.")
  | _ :: _ => process_respondents (group_by_respondent pdf_entries)
  end.

Definition main : M unit :=
  ensure_database_properties (MAIN_DATABASE_ID E) ;;;
  process_pdfs.

End Script.

(** ** A concrete environment, to run the script on *)

Module Demo.

Fixpoint split_on (sep : ascii) (cur : string) (s : string) : list string :=
  match s with
  | EmptyString => [cur]
  | String c s' =>
      if Ascii.eqb c sep then cur :: split_on sep EmptyString s'
      else split_on sep (cur +:+ String c EmptyString) s'
  end.

(** Pairs each header with its field; a header without field gets [None]. *)
Fixpoint zip_row (headers fields : list string) : list (string * option string) :=
  match headers, fields with
  | [], _ => []
  | h :: hs, [] => (h, None) :: zip_row hs []
  | h :: hs, f :: fs => (h, Some f) :: zip_row hs fs
  end.

(** Comma-separated values without quoting. *)
Definition plain_csv (lines : list string) : result (option (list string) * list csv_row) :=
  match lines with
  | [] => Ok (None, [])
  | header :: rows =>
      let fieldnames := split_on "," EmptyString header in
      Ok (Some fieldnames,
          map (fun line => list_to_map (zip_row fieldnames (split_on "," EmptyString line))) rows)
  end.

(** Accepts dates already written as [YYYY-MM-DD]. *)
Definition iso_dates (s : string) : result string :=
  match String.get 4 s, String.get 7 s, String.length s with
  | Some "-"%char, Some "-"%char, 10 => Ok s
  | _, _, _ => Raise (Exn ParserError ("Unknown string format: " +:+ s))
  end.

Definition serve_pdf (url : string) : result http_response :=
  if bool_decide (url = "https://files.example/missing.pdf")
  then Ok {| status_code := 404; content := "" |}
  else if bool_decide (url = "https://files.example/errors.pdf")
  then Ok {| status_code := 200; content := "Error codes and fees, 2022" |}
  else Ok {| status_code := 200; content := "08 Sep 2022 Coffee 3.50" |}.

Definition no_fault : list event -> api_call -> option exn := fun _ _ => None.

(** The environment: the model always answers [answer]; Notion calls fail
    as [fault] says. *)
Definition env (answer : string) (fault : list event -> api_call -> option exn) : Env :=
  {| MAIN_DATABASE_ID := "main database ID";
     TARGET_PAGE_ID := " target page ID";
     http_get := fun _ url => serve_pdf url;
     fitz_pages := fun bytes => Ok [bytes];
     chat_completion := fun _ _ => Ok [Some answer];
     csv_DictReader := plain_csv;
     dateutil_parse := iso_dates;
     notion_fault := fault;
     search_hit := fun query db => bool_decide (query ∈ db_title db);
     new_id := fun h => "obj-" +:+ pretty (length h) |}.

Definition good_answer : string :=
  "Here you are:" +:+ nl +:+
  "```" +:+ nl +:+
  "Transaction Date,Product Name,Price,Category" +:+ nl +:+
  "2022-09-08,Coffee,$3.50,Groceries" +:+ nl +:+
  "2022-09-09,Power bill,200.50,Utilities" +:+ nl +:+
  "```".

Definition file_of (url : string) : file_obj :=
  {| file_name := Some "statement.pdf"; file_url := Some url |}.

Definition jane : prop_value := PCreatedBy (Some {| user_name := Some "Jane Doe" |}).

Definition main_db : Database :=
  {| db_id := "main database ID"; db_parent := ParentWorkspace;
     db_title := ["Statements"];
     db_properties := {[ "upload your bank statement" := SchemaFiles;
                         "Respondent" := SchemaCreatedBy;
                         "Processed" := SchemaCheckbox ]} |}.

Definition source_page (id url : string) : Page :=
  {| pg_id := id; pg_database := "main database ID";
     pg_properties := {[ "upload your bank statement" := PFiles [file_of url];
                         "Respondent" := jane ]} |}.

Definition world_of (url : string) : World :=
  {| notion_store := {| databases := [main_db]; pages := [source_page "page-1" url] |};
     history := [] |}.

End Demo.

(** * Vocabulary of the properties *)

(** [total m]: [m] never raises. *)
Definition total {A} (m : M A) : Prop :=
  forall w, exists a w', m w = (Ok a, w').

(** [emits P m]: [m] only adds events to the history, all of them in [P]. *)
Definition emits {A} (P : event -> Prop) (m : M A) : Prop :=
  forall w r w', m w = (r, w') ->
    exists new, history w' = new ++ history w /\ Forall P new.

(** [keeps_store m]: [m] leaves the Notion store as it is. *)
Definition keeps_store {A} (m : M A) : Prop :=
  forall w r w', m w = (r, w') -> notion_store w' = notion_store w.

(** Events that do not reach Notion. *)
Definition offline (ev : event) : Prop :=
  match ev with
  | Call (HttpGet _) | Call (ChatCompletionsCreate _) | Print _ => True
  | Call _ => False
  end.

Definition any_event (ev : event) : Prop := True.

(** Number of completion requests among some events. *)
Definition is_completion (ev : event) : bool :=
  match ev with
  | Call (ChatCompletionsCreate _) => true
  | _ => false
  end.

Definition completions (evs : list event) : nat := length (List.filter is_completion evs).

(** The world after some lines were printed, the first line first. *)
Definition printed (lines : list log_msg) (w : World) : World :=
  {| notion_store := notion_store w;
     history := rev (map Print lines) ++ history w |}.

(** The first line [process_pdf_entry] prints for an entry. *)
Definition announcement (entry : pdf_entry) : event :=
  Print (LogProcessingPdf (default "Extracted Transactions" (file_name (pdf_file entry)))
                          (page_id entry)).

(** The world in which [read_pdf] runs for an entry: that line is printed. *)
Definition announced (entry : pdf_entry) (w : World) : World :=
  {| notion_store := notion_store w; history := announcement entry :: history w |}.

(** What the validation of a row comes to: the properties handed to
    [notion.pages.create], or the lines printed when the row is given up. *)
Inductive verdict :=
| Write (properties : gmap string prop_value)
| Reject (lines : list log_msg).

Definition strip_error : log_msg :=
  LogError "Error uploading row to Notion" "'NoneType' object has no attribute 'strip'".

(** [price_str.replace(',', '').replace('$', '')] on the stripped price. *)
Definition sanitized (price : string) : string :=
  remove_char "$" (remove_char "," (strip price)).

(** [entry] was made from an attachment of [page], and [page] is not marked. *)
Definition from_page (page : Page) (entry : pdf_entry) : Prop :=
  page_id entry = pg_id page /\
  processed_of (pg_properties page) = false /\
  exists files,
    pg_properties page !! "upload your bank statement" = Some (PFiles files) /\
    pdf_file entry ∈ files.

(** The databases after an update of [database_id] with [properties]. *)
Definition updated (database_id : string) (properties : gmap string prop_schema)
    (s : Store) : Store :=
  {| databases :=
       map (fun db => if bool_decide (db_id db = database_id)
                      then with_properties properties db else db) (databases s);
     pages := pages s |}.

(** The test of [check_existing_database] on one search result. *)
Definition matches (target_page_id expected_title : string) (db : Database) : bool :=
  match db_parent db, db_title db with
  | ParentPage p, t :: _ => bool_decide (p = target_page_id) && bool_decide (t = expected_title)
  | _, _ => false
  end.


(** ** Stores that only grow *)

(** [p'] is [p], except that its [Processed] box may have been ticked. *)
Definition page_kept (p p' : Page) : Prop :=
  pg_id p' = pg_id p /\
  pg_database p' = pg_database p /\
  (forall k, k <> "Processed" -> pg_properties p' !! k = pg_properties p !! k) /\
  (pg_properties p' !! "Processed" = pg_properties p !! "Processed" \/
   pg_properties p' !! "Processed" = Some (PCheckbox true)).

(** The pages after [notion.pages.update] ticked the box of [page_id]. *)
Definition ticked (page_id : string) (p : Page) : Page :=
  if bool_decide (pg_id p = page_id)
  then {| pg_id := pg_id p; pg_database := pg_database p;
          pg_properties := {[ "Processed" := PCheckbox true ]} ∪ pg_properties p |}
  else p.

(** Calls that reach Notion. *)
Definition is_notion_call (ev : event) : bool :=
  match ev with
  | Call (HttpGet _) | Call (ChatCompletionsCreate _) | Print _ => false
  | Call _ => true
  end.

(** The Notion calls among some events, the oldest first. *)
Definition notion_calls (evs : list event) : list event :=
  rev (List.filter is_notion_call evs).

(** ** What a scan should return *)

(** The attachments up to the first one without a ["file"] url. *)
Fixpoint with_urls (files : list file_obj) : list file_obj :=
  match files with
  | [] => []
  | f :: rest =>
      match file_url f with
      | Some _ => f :: with_urls rest
      | None => []
      end
  end.

Definition entry_of (page : Page) (f : file_obj) : pdf_entry :=
  {| page_id := pg_id page; pdf_file := f; pdf_url := default "" (file_url f);
     respondent_name := respondent_of (pg_properties page) |}.

(** The entries one page gives. *)
Definition attachments (page : Page) : list pdf_entry :=
  match pg_properties page !! "upload your bank statement" with
  | Some (PFiles files) =>
      if processed_of (pg_properties page) then []
      else map (entry_of page) (with_urls files)
  | _ => []
  end.

(** Printed lines. *)
Definition printing (ev : event) : Prop :=
  match ev with
  | Print _ => True
  | Call _ => False
  end.

(** A row with the four fields present and not empty. *)
Definition complete (item : csv_row) : bool :=
  forallb (fun k => truthy (dict_get k "" item)) expected_headers.

(** ** Strings *)

(** [c in s] *)
Fixpoint has_char (c : ascii) (s : string) : bool :=
  match s with
  | EmptyString => false
  | String d s' => Ascii.eqb c d || has_char c s'
  end.

(** [s'] has everything [s] had: the same databases followed by new ones, and
    the same pages, possibly ticked, followed by new ones. *)
Definition grows (s s' : Store) : Prop :=
  (exists dbs, databases s' = databases s ++ dbs) /\
  exists kept added, pages s' = kept ++ added /\ Forall2 page_kept (pages s) kept.

(** [store_grows m]: whatever [m] does, the store only grows. *)
Definition store_grows {A} (m : M A) : Prop :=
  forall w r w', m w = (r, w') -> grows (notion_store w) (notion_store w').

(** Events of a run that updates no schema and touches pages only to tick
    the box of a page in [allowed]. *)
Definition ticks_only (allowed : list string) (ev : event) : Prop :=
  match ev with
  | Call (PagesUpdate id properties) =>
      id ∈ allowed /\ properties = {[ "Processed" := PCheckbox true ]}
  | Call (DatabasesUpdate _ _) | Call (DatabasesRetrieve _) => False
  | _ => True
  end.

(** What an entry says of its attachment: the page, the file object and the
    url. *)
Definition attachment_of (entry : pdf_entry) : string * file_obj * string :=
  (page_id entry, pdf_file entry, pdf_url entry).

(** The attachments an unmarked page gives, up to the first one without a
    url; a marked page gives none. *)
Definition file_refs (page : Page) : list (string * file_obj * string) :=
  match pg_properties page !! "upload your bank statement" with
  | Some (PFiles files) =>
      if processed_of (pg_properties page) then []
      else map (fun f => (pg_id page, f, default "" (file_url f))) (with_urls files)
  | _ => []
  end.

Section Vocabulary.

Variable E : Env.

(** The verdict on a row: the checks of [upload_row], in its order. *)
Definition verdict_of (row : csv_row) : verdict :=
  let date_str := dict_get "Transaction Date" "" row in
  if negb (truthy date_str) then Reject [LogRowSkipped "Missing 'Transaction Date'"]
  else
    match dateutil_parse E (default "" date_str) with
    | Raise e =>
        if isinstance_ValueError e then Reject [LogRowSkipped "Invalid date format"]
        else Reject [LogError "Error uploading row to Notion" (exn_str e)]
    | Ok formatted_date =>
        match dict_get "Product Name" "" row, dict_get "Price" "" row,
              dict_get "Category" "" row with
        | Some product, Some price, Some category =>
            if bool_decide (strip product = "" \/ strip price = "" \/ strip category = "")
            then Reject [LogRowSkipped "Missing 'Product Name', 'Price', or 'Category'"]
            else
              match float (remove_char "$" (remove_char "," (strip price))) with
              | Ok number =>
                  Write (row_properties formatted_date (strip product) number (strip category))
              | Raise _ => Reject [LogRowSkipped "Invalid price format"]
              end
        | _, _, _ => Reject [strip_error]
        end
    end.

(** The database that [create_new_database] asks for. *)
Definition new_database (id title : string) : Database :=
  {| db_id := id; db_parent := ParentPage (TARGET_PAGE_ID E); db_title := [title];
     db_properties := list_to_map required_properties |}.



End Vocabulary.

(** ** Worlds to run the properties on *)

Module UploadDemo.

Definition coffee : csv_row :=
  {[ "Transaction Date" := Some "2022-09-08"; "Product Name" := Some "Coffee";
     "Price" := Some "$1,234.50"; "Category" := Some "Groceries" ]}.

Definition junk : csv_row :=
  {[ "Transaction Date" := Some "2022-09-08"; "Product Name" := Some "Coffee";
     "Price" := Some "abc"; "Category" := Some "Groceries" ]}.

Definition jane_db : Database :=
  {| db_id := "db-1"; db_parent := ParentPage " target page ID"; db_title := ["Jane Doe"];
     db_properties := list_to_map required_properties |}.

Definition world : World :=
  {| notion_store := {| databases := [jane_db]; pages := [] |}; history := [] |}.

Definition E : Env := Demo.env Demo.good_answer Demo.no_fault.

End UploadDemo.

Module ResolverDemo.

Definition is_search (ev : event) : bool :=
  match ev with
  | Call (NotionSearch _) => true
  | _ => false
  end.

(** The first search goes through; every later search times out. *)
Definition later_searches_fail (h : list event) (c : api_call) : option exn :=
  match c with
  | NotionSearch _ =>
      if existsb is_search h then Some (Exn APIResponseError "Request timed out") else None
  | _ => None
  end.

Definition E : Env := Demo.env Demo.good_answer later_searches_fail.

Definition healthy : Env := Demo.env Demo.good_answer Demo.no_fault.

Definition empty_world : World :=
  {| notion_store := {| databases := []; pages := [] |}; history := [] |}.

End ResolverDemo.

Module ScannerDemo.

Definition marked_page : Page :=
  {| pg_id := "page-0"; pg_database := "main database ID";
     pg_properties := {[ "upload your bank statement" :=
                           PFiles [Demo.file_of "https://files.example/old.pdf"];
                         "Respondent" := Demo.jane;
                         "Processed" := PCheckbox true ]} |}.

Definition new_page : Page := Demo.source_page "page-1" "https://files.example/a.pdf".

Definition world : World :=
  {| notion_store := {| databases := [Demo.main_db]; pages := [marked_page; new_page] |};
     history := [] |}.

Definition new_entry : pdf_entry :=
  {| page_id := "page-1"; pdf_file := Demo.file_of "https://files.example/a.pdf";
     pdf_url := "https://files.example/a.pdf"; respondent_name := "Jane Doe" |}.

Definition E : Env := Demo.env Demo.good_answer Demo.no_fault.

End ScannerDemo.

(** * Properties *)

(** ** Reasoning about computations *)

Section Combinators.

Context {A B : Type}.

Lemma total_ret (a : A) : total (ret a).
Proof. intros w. by exists a, w. Qed.

Lemma total_bind (m : M A) (k : A -> M B) :
  total m -> (forall a, total (k a)) -> total (bind m k).
Proof.
  intros Hm Hk w. destruct (Hm w) as (a & w1 & Ha).
  destruct (Hk a w1) as (b & w2 & Hb).
  exists b, w2. unfold bind. by rewrite Ha.
Qed.

Lemma total_try_except (m : M A) (h : exn -> M A) :
  (forall e, total (h e)) -> total (try_except m h).
Proof.
  intros Hh w. unfold try_except.
  destruct (m w) as [[a|e] w1]; [by exists a, w1 | apply Hh].
Qed.

Lemma emits_ret P (a : A) : emits P (ret a).
Proof. intros w r w' [= <- <-]. by exists []. Qed.

Lemma emits_raise P e : emits P (@raise A e).
Proof. intros w r w' [= <- <-]. by exists []. Qed.

Lemma emits_lift P (r : result A) : emits P (lift r).
Proof. destruct r; [apply emits_ret | apply emits_raise]. Qed.

Lemma emits_bind P (m : M A) (k : A -> M B) :
  emits P m -> (forall a, emits P (k a)) -> emits P (bind m k).
Proof.
  intros Hm Hk w r w'. unfold bind.
  destruct (m w) as [[a|e] w1] eqn:Ha; intros Hr.
  - destruct (Hm _ _ _ Ha) as (n1 & H1 & F1).
    destruct (Hk a _ _ _ Hr) as (n2 & H2 & F2).
    exists (n2 ++ n1). rewrite H2, H1, app_assoc. split; [done | by apply Forall_app].
  - injection Hr as <- <-. by apply (Hm _ _ _ Ha).
Qed.

Lemma emits_try_except P (m : M A) (h : exn -> M A) :
  emits P m -> (forall e, emits P (h e)) -> emits P (try_except m h).
Proof.
  intros Hm Hh w r w'. unfold try_except.
  destruct (m w) as [[a|e] w1] eqn:Ha; intros Hr.
  - injection Hr as <- <-. by apply (Hm _ _ _ Ha).
  - destruct (Hm _ _ _ Ha) as (n1 & H1 & F1).
    destruct (Hh e _ _ _ Hr) as (n2 & H2 & F2).
    exists (n2 ++ n1). rewrite H2, H1, app_assoc. split; [done | by apply Forall_app].
Qed.

Lemma keeps_store_ret (a : A) : keeps_store (ret a).
Proof. by intros w r w' [= <- <-]. Qed.

Lemma keeps_store_raise e : keeps_store (@raise A e).
Proof. by intros w r w' [= <- <-]. Qed.

Lemma keeps_store_lift (r : result A) : keeps_store (lift r).
Proof. destruct r; [apply keeps_store_ret | apply keeps_store_raise]. Qed.

Lemma keeps_store_bind (m : M A) (k : A -> M B) :
  keeps_store m -> (forall a, keeps_store (k a)) -> keeps_store (bind m k).
Proof.
  intros Hm Hk w r w'. unfold bind.
  destruct (m w) as [[a|e] w1] eqn:Ha; intros Hr.
  - rewrite (Hk a _ _ _ Hr). by apply (Hm _ _ _ Ha).
  - injection Hr as <- <-. by apply (Hm _ _ _ Ha).
Qed.

Lemma keeps_store_try_except (m : M A) (h : exn -> M A) :
  keeps_store m -> (forall e, keeps_store (h e)) -> keeps_store (try_except m h).
Proof.
  intros Hm Hh w r w'. unfold try_except.
  destruct (m w) as [[a|e] w1] eqn:Ha; intros Hr.
  - injection Hr as <- <-. by apply (Hm _ _ _ Ha).
  - rewrite (Hh e _ _ _ Hr). by apply (Hm _ _ _ Ha).
Qed.

End Combinators.

Lemma total_emit ev : total (emit ev).
Proof. intros w. by eexists _, _. Qed.

Lemma total_print m : total (print m).
Proof. apply total_emit. Qed.

Lemma emits_emit (P : event -> Prop) ev : P ev -> emits P (emit ev).
Proof. intros HP w r w' [= <- <-]. exists [ev]. split; [done | by constructor]. Qed.

Lemma emits_print (P : event -> Prop) m : P (Print m) -> emits P (print m).
Proof. apply emits_emit. Qed.

Lemma emits_get_history P : emits P get_history.
Proof. intros w r w' [= <- <-]. by exists []. Qed.

Lemma keeps_store_emit ev : keeps_store (emit ev).
Proof. by intros w r w' [= <- <-]. Qed.

Lemma keeps_store_print m : keeps_store (print m).
Proof. apply keeps_store_emit. Qed.

Lemma keeps_store_get_history : keeps_store get_history.
Proof. by intros w r w' [= <- <-]. Qed.

Lemma emits_get_store P : emits P get_store.
Proof. intros w r w' [= <- <-]. by exists []. Qed.

Lemma emits_put_store P s : emits P (put_store s).
Proof. intros w r w' [= <- <-]. by exists []. Qed.

Lemma emits_weaken {A} (P Q : event -> Prop) (m : M A) :
  (forall ev, P ev -> Q ev) -> emits P m -> emits Q m.
Proof.
  intros HPQ Hm w r w' Hr. destruct (Hm _ _ _ Hr) as (new & H1 & F1).
  exists new. split; [done |]. eapply Forall_impl; eauto.
Qed.

Create HintDb script discriminated.

#[export] Hint Resolve total_ret total_bind total_try_except total_emit total_print : script.
#[export] Hint Resolve emits_ret emits_raise emits_lift emits_bind emits_try_except
  emits_emit emits_print emits_get_history : script.
#[export] Hint Resolve keeps_store_ret keeps_store_raise keeps_store_lift keeps_store_bind
  keeps_store_try_except keeps_store_emit keeps_store_print keeps_store_get_history : script.

(** One step of a proof that a computation is [total], [emits] or
    [keeps_store]: follow the shape of the computation. *)
Ltac script_step :=
  match goal with
  | |- _ (bind _ _) => first [apply total_bind | apply emits_bind | apply keeps_store_bind]; [| intros ?]
  | |- _ (try_except _ _) =>
      first [apply total_try_except; intros ? | apply emits_try_except; [| intros ?]
            | apply keeps_store_try_except; [| intros ?]]
  | |- _ (ret _) => first [apply total_ret | apply emits_ret | apply keeps_store_ret]
  | |- _ (raise _) => first [apply emits_raise | apply keeps_store_raise]
  | |- _ (lift _) => first [apply emits_lift | apply keeps_store_lift]
  | |- _ (print _) => first [apply total_print | apply emits_print; exact I | apply keeps_store_print]
  | |- _ get_history => first [apply emits_get_history | apply keeps_store_get_history]
  | |- emits _ get_store => apply emits_get_store
  | |- emits _ (put_store _) => apply emits_put_store
  | |- _ (emit _) => first [apply total_emit | apply emits_emit; exact I | apply keeps_store_emit]
  | |- _ (match ?x with _ => _ end) => destruct x
  end.

Ltac script := repeat script_step; eauto with script.

Section Extraction.

Variable E : Env.

Lemma read_pdf_total url : total (read_pdf E url).
Proof. unfold read_pdf. script. Qed.

Lemma fetch_text_offline url : emits offline (fetch_text E url).
Proof. unfold fetch_text, requests_get, raise_for_status. script. Qed.

Lemma fetch_text_keeps_store url : keeps_store (fetch_text E url).
Proof. unfold fetch_text, requests_get, raise_for_status. script. Qed.

Lemma read_pdf_offline url : emits offline (read_pdf E url).
Proof. unfold read_pdf. pose proof (fetch_text_offline url). script. Qed.

Lemma read_pdf_keeps_store url : keeps_store (read_pdf E url).
Proof. unfold read_pdf. pose proof (fetch_text_keeps_store url). script. Qed.

(** An attempt adds exactly one event: its completion request. *)
Lemma attempt_once_history prompt w r w' :
  attempt_once E prompt w = (r, w') ->
  notion_store w' = notion_store w /\
  history w' = Call (ChatCompletionsCreate prompt) :: history w.
Proof.
  unfold attempt_once, chat_completions_create, bind, get_history, emit, lift, ret, raise.
  cbn. destruct (chat_completion E (history w) prompt) as [[|[c|] cs]|e]; cbn;
    try (intros [= <- <-]; done).
  destruct (csv_DictReader E _) as [[f d]|e]; cbn; try (intros [= <- <-]; done).
  case_bool_decide; intros [= <- <-]; done.
Qed.

(** The loop of [analyze_pdf_content]: it returns, it leaves the store
    alone, each turn asks the model once, and it gives up with the empty
    list when every turn fails. *)
Lemma attempts_spec prompt retries todo : forall attempt w,
  exists data w' new,
    attempts E prompt retries attempt todo w = (Ok data, w') /\
    notion_store w' = notion_store w /\
    history w' = new ++ history w /\
    Forall offline new /\
    completions new <= todo /\
    (todo <> 0 -> Call (ChatCompletionsCreate prompt) ∈ new) /\
    ((forall w0, exists e w1, attempt_once E prompt w0 = (Raise e, w1)) ->
     data = [] /\ completions new = todo).
Proof.
  induction todo as [|todo IH]; intros attempt w.
  - exists [], w, []. cbn. repeat split; auto; done.
  - cbn [attempts]. unfold bind at 1. unfold try_except.
    unfold bind at 1.
    destruct (attempt_once E prompt w) as [[data|e] w1] eqn:Hat;
      destruct (attempt_once_history _ _ _ _ Hat) as [Hs Hh].
    + exists data, w1, [Call (ChatCompletionsCreate prompt)]. cbn.
      rewrite Hh. split_and!; auto.
      * repeat constructor.
      * unfold completions. cbn. lia.
      * intros _. repeat constructor.
      * intros Hall. destruct (Hall w) as (e' & w1' & Heq). congruence.
    + set (w2 := ((print (LogAttemptFailed attempt (exn_str e)) ;;;
                   (if bool_decide (attempt < retries)%Z
                    then print LogRetrying else print LogMaxRetries) ;;;
                   ret None) w1)).
      assert (Hw2 : exists m, w2 = (Ok (@None (list csv_row)),
                 {| notion_store := notion_store w1;
                    history := Print m :: Print (LogAttemptFailed attempt (exn_str e))
                               :: history w1 |})).
      { subst w2. unfold bind, print, emit, ret. cbn.
        case_bool_decide; cbn; eauto. }
      destruct Hw2 as (m & ->).
      destruct (IH (attempt + 1)%Z
                  {| notion_store := notion_store w1;
                     history := Print m :: Print (LogAttemptFailed attempt (exn_str e))
                                :: history w1 |})
        as (data & w' & new & Hrun & Hst & Hhist & Hoff & Hcnt & _ & Hall).
      exists data, w', (new ++ [Print m; Print (LogAttemptFailed attempt (exn_str e));
                                Call (ChatCompletionsCreate prompt)]).
      rewrite Hrun. cbn in Hst, Hhist. rewrite Hst, Hs, Hhist, Hh.
      split_and!; auto.
      * by rewrite <- app_assoc.
      * apply Forall_app. split; [done | repeat constructor].
      * unfold completions in *. rewrite List.filter_app, length_app. cbn. lia.
      * intros _. apply elem_of_app. right. repeat constructor.
      * intros Hfail. destruct (Hall Hfail) as [Hd Hn]. split; [done |].
        unfold completions in *. rewrite List.filter_app, length_app. cbn. lia.
Qed.

Lemma analyze_pdf_content_offline pdf_content retries :
  emits offline (analyze_pdf_content E pdf_content retries).
Proof.
  intros w r w' Hr. unfold analyze_pdf_content in Hr.
  destruct (attempts_spec (prompt_template pdf_content) retries (Z.to_nat retries) 1%Z w)
    as (data & w1 & new & Hrun & _ & Hh & Hoff & _).
  rewrite Hrun in Hr. injection Hr as <- <-. eauto.
Qed.

Lemma analyze_pdf_content_keeps_store pdf_content retries :
  keeps_store (analyze_pdf_content E pdf_content retries).
Proof.
  intros w r w' Hr. unfold analyze_pdf_content in Hr.
  destruct (attempts_spec (prompt_template pdf_content) retries (Z.to_nat retries) 1%Z w)
    as (data & w1 & new & Hrun & Hs & _).
  rewrite Hrun in Hr. by injection Hr as <- <-.
Qed.

(** Any exception in a turn of the loop, whatever its class, leads to the
    next turn. *)
Lemma attempts_retry prompt retries attempt todo w e w1 :
  attempt_once E prompt w = (Raise e, w1) ->
  exists m,
    attempts E prompt retries attempt (S todo) w =
    attempts E prompt retries (attempt + 1)%Z todo
      {| notion_store := notion_store w1;
         history := Print m :: Print (LogAttemptFailed attempt (exn_str e)) :: history w1 |}.
Proof.
  intros Hat. cbn [attempts]. unfold bind at 1. unfold try_except. unfold bind at 1.
  rewrite Hat. unfold bind, print, emit, ret. cbn.
  case_bool_decide; cbn; eauto.
Qed.

End Extraction.

(** ** The pipeline never raises *)

Section Totality.

Variable E : Env.

Lemma ensure_database_properties_total database_id :
  total (ensure_database_properties E database_id).
Proof. unfold ensure_database_properties. script. Qed.

Lemma check_existing_database_total respondent target :
  total (check_existing_database E respondent target).
Proof. unfold check_existing_database. script. Qed.

Lemma create_new_database_total respondent : total (create_new_database E respondent).
Proof. unfold create_new_database. script. Qed.

Lemma get_pdf_entries_total database_id : total (get_pdf_entries E database_id).
Proof. unfold get_pdf_entries. script. Qed.

Lemma mark_pdf_as_processed_total page_id : total (mark_pdf_as_processed E page_id).
Proof. unfold mark_pdf_as_processed. script. Qed.

Lemma upload_row_total row database_id : total (upload_row E row database_id).
Proof. unfold upload_row. script. Qed.

Lemma upload_rows_total data database_id : forall u s,
  total (upload_rows E data database_id u s).
Proof.
  induction data as [|row rest IH]; intros u s; cbn [upload_rows]; [script |].
  apply total_bind; [apply upload_row_total |]. intros []; apply IH.
Qed.

Lemma process_pdf_entry_total db entry : total (process_pdf_entry E db entry).
Proof. unfold process_pdf_entry. script. Qed.

Lemma process_pdf_entries_total db pdfs : total (process_pdf_entries E db pdfs).
Proof.
  induction pdfs as [|entry rest IH]; cbn [process_pdf_entries]; [script |].
  apply total_bind; [apply process_pdf_entry_total | done].
Qed.

Lemma resolve_database_total respondent : total (resolve_database E respondent).
Proof.
  unfold resolve_database.
  apply total_bind; [apply check_existing_database_total | intros id1].
  destruct (falsy_id id1); [| script].
  apply total_bind; [apply create_new_database_total | intros id2].
  destruct (falsy_id id2); script.
Qed.

Lemma process_respondents_total groups : total (process_respondents E groups).
Proof.
  induction groups as [|[respondent pdfs] rest IH]; cbn [process_respondents]; [script |].
  apply total_bind; [script |]. intros _.
  apply total_bind; [apply resolve_database_total | intros id].
  apply total_bind; [| done].
  destruct id; [apply process_pdf_entries_total | script].
Qed.

Lemma process_pdfs_total : total (process_pdfs E).
Proof.
  unfold process_pdfs. apply total_bind; [script | intros _].
  apply total_bind; [apply get_pdf_entries_total | intros entries].
  destruct entries; [script | apply process_respondents_total].
Qed.

Lemma main_total : total (main E).
Proof.
  unfold main. apply total_bind; [apply ensure_database_properties_total | intros _].
  apply process_pdfs_total.
Qed.

(** The value of a total computation of type [unit] is [tt]. *)
Lemma total_unit (m : M unit) w : total m -> exists w', m w = (Ok tt, w').
Proof. intros Hm. destruct (Hm w) as ([] & w' & Hr). eauto. Qed.

(** *** One PDF *)



Lemma notion_call_monotone {A} c (serve : list event -> Store -> result A * Store) :
  emits any_event (notion_call E c serve).
Proof. unfold notion_call. script. Qed.

Lemma upload_row_monotone row database_id : emits any_event (upload_row E row database_id).
Proof.
  unfold upload_row, try_except_ValueError, method_strip, notion_pages_create.
  pose proof (@notion_call_monotone unit). script.
Qed.

Lemma upload_rows_monotone data database_id : forall u s,
  emits any_event (upload_rows E data database_id u s).
Proof.
  induction data as [|row rest IH]; intros u s; cbn [upload_rows]; [script |].
  apply emits_bind; [apply upload_row_monotone |]. intros []; apply IH.
Qed.

Lemma upload_transactions_to_notion_monotone data database_id :
  emits any_event (upload_transactions_to_notion E data database_id).
Proof.
  unfold upload_transactions_to_notion. pose proof (upload_rows_monotone data database_id).
  script.
Qed.




End Totality.

(** C3.  For every text and every bound [retries] ([process_pdf_entry] passes
    3), [analyze_pdf_content] returns a list and never raises; it asks the
    model at most [retries] times; a turn that raises, whatever the
    exception, is followed by the next turn; and when every turn raises, the
    list is empty after exactly [retries] requests. *)
Theorem analyze_pdf_content_bounded_retry (E : Env) (pdf_content : string) (retries : Z)
    (w : World) :
  exists data w' new,
    analyze_pdf_content E pdf_content retries w = (Ok data, w') /\
    history w' = new ++ history w /\
    completions new <= Z.to_nat retries /\
    (forall attempt todo w0 e w1,
        attempt_once E (prompt_template pdf_content) w0 = (Raise e, w1) ->
        exists m,
          attempts E (prompt_template pdf_content) retries attempt (S todo) w0 =
          attempts E (prompt_template pdf_content) retries (attempt + 1)%Z todo
            {| notion_store := notion_store w1;
               history := Print m :: Print (LogAttemptFailed attempt (exn_str e))
                          :: history w1 |}) /\
    ((forall w0, exists e w1,
         attempt_once E (prompt_template pdf_content) w0 = (Raise e, w1)) ->
     data = [] /\ completions new = Z.to_nat retries).
Proof.
  unfold analyze_pdf_content.
  destruct (attempts_spec E (prompt_template pdf_content) retries (Z.to_nat retries) 1%Z w)
    as (data & w' & new & Hrun & _ & Hh & _ & Hcnt & _ & Hall).
  exists data, w', new. split_and!; auto.
  intros attempt todo w0 e w1. apply attempts_retry.
Qed.

(** With an answer that is no CSV, every turn fails on the header check. *)
Lemma sorry_always_fails pdf_content w0 :
  exists e w1,
    attempt_once (Demo.env "sorry, no data" Demo.no_fault) (prompt_template pdf_content) w0
    = (Raise e, w1).
Proof. eexists _, _. reflexivity. Qed.

Lemma analyze_pdf_content_bounded_retry_witness :
  exists data w' new,
    analyze_pdf_content (Demo.env "sorry, no data" Demo.no_fault) "08 Sep 2022 Coffee 3.50" 3
      (Demo.world_of "https://files.example/a.pdf") = (Ok data, w') /\
    history w' = new ++ [] /\
    data = [] /\ completions new = 3.
Proof.
  destruct (analyze_pdf_content_bounded_retry
              (Demo.env "sorry, no data" Demo.no_fault) "08 Sep 2022 Coffee 3.50" 3
              (Demo.world_of "https://files.example/a.pdf"))
    as (data & w' & new & Hrun & Hh & _ & _ & Hall).
  exists data, w', new. split; [exact Hrun |]. split; [exact Hh |].
  apply Hall. intros w0. apply sorry_always_fails.
Defined.

(** ** Fetch failures and the ["Error"] marker *)





(** ** Extraction that yields nothing *)




(** ** The uploader *)

Section Uploader.

Variable E : Env.

(** What a Notion call does, case by case. *)
Lemma notion_pages_create_run database_id properties w :
  notion_pages_create E database_id properties w =
  let w0 := {| notion_store := notion_store w;
               history := Call (PagesCreate database_id properties) :: history w |} in
  match notion_fault E (history w) (PagesCreate database_id properties) with
  | Some e => (Raise e, w0)
  | None =>
      match find_database database_id (notion_store w) with
      | Some _ =>
          (Ok tt,
           {| notion_store :=
                {| databases := databases (notion_store w);
                   pages := pages (notion_store w) ++
                            [{| pg_id := new_id E (history w); pg_database := database_id;
                                pg_properties := properties |}] |};
              history := history w0 |})
      | None =>
          (Raise (not_found "database" database_id),
           {| notion_store := notion_store w; history := history w0 |})
      end
  end.
Proof.
  unfold notion_pages_create, notion_call, bind, get_history, emit, get_store, put_store.
  cbn. destruct (notion_fault E _ _); [done |]. cbn.
  destruct (find_database _ _); cbn; [done |]. by destruct w.
Qed.

(** [float] raises nothing but [ValueError]. *)
Lemma float_raises_ValueError s e : float s = Raise e -> isinstance_ValueError e = true.
Proof.
  unfold float. repeat case_match; intros [=]; subst; reflexivity.
Qed.

Ltac run_script :=
  cbv [try_except try_except_ValueError bind lift ret raise print emit method_strip];
  cbv beta iota.

(** [upload_row] in terms of [verdict_of]. *)
Lemma upload_row_verdict row database_id w :
  upload_row E row database_id w =
  match verdict_of E row with
  | Reject lines => (Ok RowSkipped, printed lines w)
  | Write properties =>
      match notion_pages_create E database_id properties w with
      | (Ok _, w1) => (Ok RowUploaded, w1)
      | (Raise e, w1) =>
          (Ok RowSkipped, printed [LogError "Error uploading row to Notion" (exn_str e)] w1)
      end
  end.
Proof.
  unfold upload_row, verdict_of.
  destruct (truthy (dict_get "Transaction Date" "" row)); cbv [negb]; [| by run_script].
  destruct (dateutil_parse E _) as [formatted_date|e].
  2: { run_script. by destruct (isinstance_ValueError e). }
  destruct (dict_get "Product Name" "" row) as [product|]; [| by run_script].
  destruct (dict_get "Price" "" row) as [price|]; [| by run_script].
  destruct (dict_get "Category" "" row) as [category|]; [| by run_script].
  run_script. case_bool_decide; [done |].
  destruct (float _) as [number|e] eqn:Hfloat.
  - by destruct (notion_pages_create E _ _ w) as [[[]|e] w1].
  - by rewrite (float_raises_ValueError _ _ Hfloat).
Qed.

(** A row is either written, adding one page, or skipped, adding none. *)
Lemma upload_row_effect row database_id w :
  exists o w1,
    upload_row E row database_id w = (Ok o, w1) /\
    databases (notion_store w1) = databases (notion_store w) /\
    length (pages (notion_store w1)) =
    length (pages (notion_store w)) + (if o is RowUploaded then 1 else 0).
Proof.
  rewrite upload_row_verdict. destruct (verdict_of E row) as [properties|lines].
  - rewrite notion_pages_create_run. cbv zeta.
    destruct (notion_fault E _ _);
      [eexists _, _; split_and!; [reflexivity | done | cbn; lia] |].
    destruct (find_database _ _); eexists _, _;
      (split_and!; [reflexivity | done | cbn; rewrite ?length_app; cbn; lia]).
  - eexists _, _. split_and!; [reflexivity | done | cbn; lia].
Qed.

Lemma upload_rows_spec data database_id : forall u s w,
  exists u' s' w',
    upload_rows E data database_id u s w = (Ok (u', s'), w') /\
    u' + s' = u + s + length data /\
    databases (notion_store w') = databases (notion_store w) /\
    length (pages (notion_store w')) + u = length (pages (notion_store w)) + u'.
Proof.
  induction data as [|row rest IH]; intros u s w.
  - exists u, s, w. cbn. split_and!; auto; lia.
  - destruct (upload_row_effect row database_id w) as (o & w1 & Hrow & Hdb & Hpg).
    cbn [upload_rows]. unfold bind at 1. rewrite Hrow. destruct o.
    + destruct (IH (S u) s w1) as (u' & s' & w' & Hrun & Hsum & Hdb' & Hpg').
      exists u', s', w'. rewrite Hrun. cbn [length]. split_and!; [done | lia | congruence | lia].
    + destruct (IH u (S s) w1) as (u' & s' & w' & Hrun & Hsum & Hdb' & Hpg').
      exists u', s', w'. rewrite Hrun. cbn [length]. split_and!; [done | lia | congruence | lia].
Qed.

End Uploader.

(** C4.  For every list of rows, [upload_transactions_to_notion] never
    raises; each row ends either uploaded or skipped and the loop goes on
    with the next row; the two counts it prints add up to the number of rows;
    and the rows counted as uploaded are the pages added to the store. *)
Theorem upload_counts_every_row_once (E : Env) (data : list csv_row) (database_id : string)
    (w : World) :
  exists uploaded_count skipped_count w' earlier,
    upload_transactions_to_notion E data database_id w = (Ok None, w') /\
    history w' = Print (LogSkipped skipped_count) :: Print (LogUploaded uploaded_count)
                 :: earlier /\
    uploaded_count + skipped_count = length data /\
    length (pages (notion_store w')) = length (pages (notion_store w)) + uploaded_count /\
    (forall row rest u s w0, exists o w1,
        upload_row E row database_id w0 = (Ok o, w1) /\
        upload_rows E (row :: rest) database_id u s w0 =
        match o with
        | RowUploaded => upload_rows E rest database_id (S u) s w1
        | RowSkipped => upload_rows E rest database_id u (S s) w1
        end).
Proof.
  destruct (upload_rows_spec E data database_id 0 0 w) as (u & s & w1 & Hrun & Hsum & _ & Hpg).
  exists u, s. eexists _, (history w1). unfold upload_transactions_to_notion.
  unfold bind at 1. rewrite Hrun. split; [reflexivity |]. cbn. split_and!; [done | lia | lia |].
  intros row rest u0 s0 w0.
  destruct (upload_row_effect E row database_id w0) as (o & w2 & Hrow & _).
  exists o, w2. split; [done |]. cbn [upload_rows]. unfold bind at 1. rewrite Hrow.
  by destruct o.
Qed.

(** C2, as the script has it.  [upload_transactions_to_notion] has no
    [return] statement: for every list of rows and every database id it
    returns [None]; the two counts reach the caller only as printed lines. *)
Theorem upload_returns_none_and_prints_counts (E : Env) (data : list csv_row)
    (database_id : string) (w : World) :
  exists uploaded_count skipped_count w1,
    upload_rows E data database_id 0 0 w = (Ok (uploaded_count, skipped_count), w1) /\
    upload_transactions_to_notion E data database_id w =
    (Ok None, printed [LogUploaded uploaded_count; LogSkipped skipped_count] w1).
Proof.
  destruct (upload_rows_spec E data database_id 0 0 w) as (u & s & w1 & Hrun & _).
  exists u, s, w1. split; [done |]. unfold upload_transactions_to_notion.
  unfold bind at 1. by rewrite Hrun.
Qed.

(** C2, as stated, fails.  One valid row is uploaded to an existing
    database; the counts 1 and 0 are printed, and the value returned is
    [None], not the pair. *)
Lemma upload_does_not_return_counts :
  let run := upload_transactions_to_notion UploadDemo.E [UploadDemo.coffee] "db-1"
               UploadDemo.world in
  upload_rows UploadDemo.E [UploadDemo.coffee] "db-1" 0 0 UploadDemo.world
  = (Ok (1, 0), (upload_row UploadDemo.E UploadDemo.coffee "db-1" UploadDemo.world).2) /\
  (exists earlier, history run.2 = Print (LogSkipped 0) :: Print (LogUploaded 1) :: earlier) /\
  run.1 = Ok None /\
  run.1 <> Ok (Some (1, 0)).
Proof.
  intros run. split_and!.
  - reflexivity.
  - eexists. reflexivity.
  - reflexivity.
  - discriminate.
Qed.

(** ** Price sanitisation *)

Lemma upload_row_sanitized_price (E : Env) (row : csv_row) (date formatted_date product
    price category : string) :
  dict_get "Transaction Date" "" row = Some date -> date <> "" ->
  dateutil_parse E date = Ok formatted_date ->
  dict_get "Product Name" "" row = Some product -> strip product <> "" ->
  dict_get "Price" "" row = Some price -> strip price <> "" ->
  dict_get "Category" "" row = Some category -> strip category <> "" ->
  verdict_of E row =
  match float (sanitized price) with
  | Ok number => Write (row_properties formatted_date (strip product) number (strip category))
  | Raise _ => Reject [LogRowSkipped "Invalid price format"]
  end.
Proof.
  intros Hd Hd' Hp Hn Hn' Hpr Hpr' Hc Hc'. unfold verdict_of.
  rewrite Hd, Hn, Hpr, Hc. change (default "" (Some date)) with date. cbn [truthy].
  rewrite (bool_decide_eq_false_2 _ Hd'). cbn [negb]. rewrite Hp.
  rewrite bool_decide_eq_false_2 by tauto. reflexivity.
Qed.

Lemma verdict_of_bad_price (E : Env) (row : csv_row) (price : string) (e : exn) :
  dict_get "Price" "" row = Some price ->
  float (sanitized price) = Raise e ->
  exists lines, verdict_of E row = Reject lines.
Proof.
  intros Hpr Hfloat. unfold verdict_of. rewrite Hpr. fold (sanitized price). rewrite Hfloat.
  repeat case_match; eauto.
Qed.

(** C8.  For a Price of ASCII characters: the uploader removes every comma
    and every dollar sign from the stripped Price and reads the rest with
    [float].  When that fails, as for ["abc"], the row is skipped: only lines
    are printed, no call is made and the store is unchanged.  When it succeeds
    in a row that is otherwise valid, the number read is the [Price] of the
    properties sent to [notion.pages.create], and of the page added when the
    call goes through.  ["$1,234.50"] is read as 1234.5. *)
Theorem price_is_sanitized_then_parsed (E : Env) (row : csv_row) (database_id : string)
    (w : World) (price : string) :
  dict_get "Price" "" row = Some price ->
  ascii_only price = true ->
  (forall e, float (sanitized price) = Raise e ->
     exists lines, upload_row E row database_id w = (Ok RowSkipped, printed lines w)) /\
  (forall number date formatted_date product category,
     float (sanitized price) = Ok number ->
     dict_get "Transaction Date" "" row = Some date -> date <> "" ->
     dateutil_parse E date = Ok formatted_date ->
     dict_get "Product Name" "" row = Some product -> strip product <> "" ->
     dict_get "Category" "" row = Some category -> strip category <> "" ->
     strip price <> "" ->
     let properties :=
       row_properties formatted_date (strip product) number (strip category) in
     properties !! "Price" = Some (PNumber number) /\
     exists r w',
       upload_row E row database_id w = (r, w') /\
       (exists later,
           history w' = later ++ Call (PagesCreate database_id properties) :: history w) /\
       (notion_fault E (history w) (PagesCreate database_id properties) = None ->
        is_Some (find_database database_id (notion_store w)) ->
        r = Ok RowUploaded /\
        pages (notion_store w') =
        pages (notion_store w) ++
        [{| pg_id := new_id E (history w); pg_database := database_id;
            pg_properties := properties |}])) /\
  (exists q, float (sanitized "$1,234.50") = Ok (Finite q) /\ (q == 1234.5)%Q) /\
  (exists e, float (sanitized "abc") = Raise e).
Proof.
  intros Hpr _. split_and!.
  - intros e Hfloat. rewrite upload_row_verdict.
    destruct (verdict_of_bad_price E row price e Hpr Hfloat) as (lines & ->). eauto.
  - intros number date formatted_date product category Hfloat Hd Hd' Hp Hn Hn' Hc Hc' Hpr'
      properties.
    split; [reflexivity |].
    rewrite upload_row_verdict.
    rewrite (upload_row_sanitized_price E row date formatted_date product price category)
      by done.
    rewrite Hfloat. fold properties. rewrite notion_pages_create_run. cbv zeta.
    destruct (notion_fault E _ _) as [e|].
    { eexists _, _. split; [reflexivity |]. split; [by eexists [_] | done]. }
    destruct (find_database _ _) as [db|].
    + eexists _, _. split; [reflexivity |]. split; [by exists [] | done].
    + eexists _, _. split; [reflexivity |]. split; [by eexists [_] |].
      by intros _ [? [=]].
  - eexists. split; [reflexivity |]. reflexivity.
  - eexists. reflexivity.
Qed.

Lemma price_is_sanitized_then_parsed_witness :
  let properties :=
    row_properties "2022-09-08" "Coffee" (Finite (123450 # 100)) "Groceries" in
  (exists lines, upload_row UploadDemo.E UploadDemo.junk "db-1" UploadDemo.world
                 = (Ok RowSkipped, printed lines UploadDemo.world)) /\
  exists r w',
    upload_row UploadDemo.E UploadDemo.coffee "db-1" UploadDemo.world = (r, w') /\
    r = Ok RowUploaded /\
    pages (notion_store w') =
    [{| pg_id := "obj-0"; pg_database := "db-1"; pg_properties := properties |}].
Proof.
  intros properties. split.
  - destruct (price_is_sanitized_then_parsed UploadDemo.E UploadDemo.junk "db-1"
                UploadDemo.world "abc" eq_refl eq_refl) as (Hbad & _).
    exact (Hbad _ eq_refl).
  - destruct (price_is_sanitized_then_parsed UploadDemo.E UploadDemo.coffee "db-1"
                UploadDemo.world "$1,234.50" eq_refl eq_refl) as (_ & Hgood & _).
    destruct (Hgood (Finite (123450 # 100)) "2022-09-08" "2022-09-08" "Coffee" "Groceries"
                eq_refl eq_refl ltac:(discriminate) eq_refl eq_refl ltac:(discriminate)
                eq_refl ltac:(discriminate) ltac:(discriminate))
      as (_ & r & w' & Hrun & _ & Hserved).
    destruct (Hserved eq_refl ltac:(by eexists)) as [Hr Hpages].
    exists r, w'. split; [exact Hrun |]. split; [exact Hr | exact Hpages].
Defined.

(** ** The scanner *)

Section Scanner.

Variable E : Env.

Lemma scan_files_origin page all_files : forall pdf_files pdf_entries w,
  pg_properties page !! "upload your bank statement" = Some (PFiles all_files) ->
  pdf_files ⊆ all_files ->
  exists added failure w',
    scan_files page pdf_files pdf_entries w = (Ok (pdf_entries ++ added, failure), w') /\
    Forall (from_page page) added /\
    (processed_of (pg_properties page) = true -> added = []).
Proof.
  intros pdf_files. induction pdf_files as [|f rest IH]; intros acc w Hprop Hsub.
  - exists [], None, w. cbn. rewrite app_nil_r. split_and!; auto.
  - assert (Hrest : rest ⊆ all_files) by set_solver.
    assert (Hf : f ∈ all_files) by set_solver.
    cbn [scan_files]. destruct (processed_of (pg_properties page)) eqn:Hproc; cbn [negb].
    + unfold bind at 1. cbn [print emit].
      destruct (IH acc {| notion_store := notion_store w;
                          history := Print (LogSkipProcessed (file_name f)) :: history w |}
                  Hprop Hrest) as (added & failure & w' & Hrun & Hall & Hnone).
      exists added, failure, w'. rewrite Hrun. split_and!; auto.
    + destruct (file_url f) as [url|] eqn:Hurl.
      * unfold bind at 1. cbn [print emit].
        match goal with
        | |- context [scan_files page rest (acc ++ [?en]) ?w0] =>
            destruct (IH (acc ++ [en]) w0 Hprop Hrest)
              as (added & failure & w' & Hrun & Hall & Hnone);
            exists (en :: added), failure, w'
        end.
        rewrite Hrun, <- app_assoc. split_and!; [done | | done].
        constructor; [| done]. split_and!; [done | done |]. by exists all_files.
      * exists [], (Some (Exn KeyError "'file'")), w. rewrite app_nil_r.
        split_and!; auto.
Qed.

Lemma scan_page_origin page pdf_entries w :
  exists added w',
    scan_page page pdf_entries w = (Ok (pdf_entries ++ added), w') /\
    Forall (from_page page) added /\
    (processed_of (pg_properties page) = true -> added = []).
Proof.
  unfold scan_page.
  destruct (pg_properties page !! "upload your bank statement") as [[files| | | | | |]|] eqn:Hp;
    try (exists [], w; rewrite app_nil_r; split_and!; by auto);
    try (eexists [], _; rewrite app_nil_r; split_and!; [reflexivity | by auto | by auto]).
  destruct (scan_files_origin page files files pdf_entries w Hp ltac:(done))
    as (added & failure & w' & Hrun & Hall & Hnone).
  unfold bind at 1. rewrite Hrun.
  destruct failure; eexists added, _; (split_and!; [reflexivity | done | done]).
Qed.

Lemma scan_pages_origin results : forall pdf_entries w,
  exists added w',
    scan_pages results pdf_entries w = (Ok (pdf_entries ++ added), w') /\
    Forall (fun entry => exists page, page ∈ results /\ from_page page entry) added.
Proof.
  induction results as [|page rest IH]; intros acc w.
  - exists [], w. cbn. rewrite app_nil_r. by split.
  - destruct (scan_page_origin page acc w) as (added1 & w1 & Hrun1 & Hall1 & _).
    destruct (IH (acc ++ added1) w1) as (added2 & w2 & Hrun2 & Hall2).
    exists (added1 ++ added2), w2. cbn [scan_pages]. unfold bind at 1.
    rewrite Hrun1, Hrun2, <- app_assoc. split; [done |].
    apply Forall_app. split.
    + eapply Forall_impl; [exact Hall1 |]. intros entry Hfrom. exists page.
      split; [by left | done].
    + eapply Forall_impl; [exact Hall2 |]. intros entry (p & Hin & Hfrom). exists p.
      split; [by right | done].
Qed.

Lemma notion_databases_query_run database_id w :
  notion_databases_query E database_id w =
  let w0 := {| notion_store := notion_store w;
               history := Call (DatabasesQuery database_id) :: history w |} in
  match notion_fault E (history w) (DatabasesQuery database_id) with
  | Some e => (Raise e, w0)
  | None =>
      match find_database database_id (notion_store w) with
      | Some _ =>
          (Ok (take page_size
                 (List.filter (fun p => bool_decide (pg_database p = database_id))
                              (pages (notion_store w)))), w0)
      | None => (Raise (not_found "database" database_id), w0)
      end
  end.
Proof.
  unfold notion_databases_query, notion_call, bind, get_history, emit, get_store, put_store.
  cbn. destruct (notion_fault E _ _); [done |]. cbn.
  destruct (find_database _ _); cbn; by destruct w.
Qed.

End Scanner.

(** C6.  [get_pdf_entries] always returns a list.  Every entry of it comes
    from an attachment of a page of the queried database whose [Processed]
    checkbox is not true (false or absent); a page whose checkbox is true
    adds nothing to the entries. *)
Theorem scanner_skips_processed_records (E : Env) (database_id : string) (w : World) :
  exists pdf_entries w',
    get_pdf_entries E database_id w = (Ok pdf_entries, w') /\
    (forall entry, entry ∈ pdf_entries ->
       exists page files,
         page ∈ pages (notion_store w) /\
         pg_database page = database_id /\
         page_id entry = pg_id page /\
         pg_properties page !! "upload your bank statement" = Some (PFiles files) /\
         pdf_file entry ∈ files /\
         pg_properties page !! "Processed" <> Some (PCheckbox true)) /\
    (forall page pdf_entries0 w0,
       pg_properties page !! "Processed" = Some (PCheckbox true) ->
       exists w1, scan_page page pdf_entries0 w0 = (Ok pdf_entries0, w1)).
Proof.
  assert (Hscan : forall page pdf_entries0 w0,
             pg_properties page !! "Processed" = Some (PCheckbox true) ->
             exists w1, scan_page page pdf_entries0 w0 = (Ok pdf_entries0, w1)).
  { intros page acc w0 Hproc.
    destruct (scan_page_origin page acc w0) as (added & w1 & Hrun & _ & Hnone).
    rewrite Hnone in Hrun; [| unfold processed_of; by rewrite Hproc].
    rewrite app_nil_r in Hrun. eauto. }
  unfold get_pdf_entries, try_except. unfold bind at 1.
  rewrite notion_databases_query_run. cbv zeta.
  destruct (notion_fault E _ _) as [e|].
  { eexists [], _. split; [reflexivity |]. split; [| done].
    intros entry Hin. by apply not_elem_of_nil in Hin. }
  destruct (find_database _ _) as [db|].
  2: { eexists [], _. split; [reflexivity |]. split; [| done].
       intros entry Hin. by apply not_elem_of_nil in Hin. }
  match goal with
  | |- context [scan_pages ?results [] ?w0] =>
      destruct (scan_pages_origin results [] w0) as (added & w' & Hrun & Hall)
  end.
  rewrite Hrun. exists added, w'. split; [done |]. split; [| done].
  intros entry Hin. rewrite Forall_forall in Hall.
  destruct (Hall entry Hin) as (page & Hpage & Hid & Hproc & files & Hfiles & Hfile).
  apply elem_of_take in Hpage as (i & Hpage & _).
  apply list_elem_of_lookup_2, list_elem_of_In, List.filter_In in Hpage as [Hpage Hdb].
  exists page, files. split_and!; try done.
  - by apply list_elem_of_In.
  - by apply bool_decide_eq_true in Hdb.
  - intros Htrue. unfold processed_of in Hproc. by rewrite Htrue in Hproc.
Qed.

(** ** Schema healing *)

Section Healing.

Variable E : Env.

Lemma notion_databases_retrieve_run database_id w :
  notion_databases_retrieve E database_id w =
  let w0 := {| notion_store := notion_store w;
               history := Call (DatabasesRetrieve database_id) :: history w |} in
  match notion_fault E (history w) (DatabasesRetrieve database_id) with
  | Some e => (Raise e, w0)
  | None =>
      match find_database database_id (notion_store w) with
      | Some db => (Ok db, w0)
      | None => (Raise (not_found "database" database_id), w0)
      end
  end.
Proof.
  unfold notion_databases_retrieve, notion_call, bind, get_history, emit, get_store, put_store.
  cbn. destruct (notion_fault E _ _); [done |]. cbn.
  destruct (find_database _ _); cbn; by destruct w.
Qed.

Lemma notion_databases_update_run database_id properties w :
  notion_databases_update E database_id properties w =
  let c := Call (DatabasesUpdate database_id properties) in
  match notion_fault E (history w) (DatabasesUpdate database_id properties) with
  | Some e => (Raise e, {| notion_store := notion_store w; history := c :: history w |})
  | None =>
      match find_database database_id (notion_store w) with
      | Some _ =>
          (Ok tt, {| notion_store := updated database_id properties (notion_store w);
                     history := c :: history w |})
      | None =>
          (Raise (not_found "database" database_id),
           {| notion_store := notion_store w; history := c :: history w |})
      end
  end.
Proof.
  unfold notion_databases_update, notion_call, bind, get_history, emit, get_store, put_store.
  cbn. destruct (notion_fault E _ _); [done |]. cbn.
  destruct (find_database _ _); cbn; [done |]. by destruct w.
Qed.

Lemma find_database_updated id database_id properties s :
  find_database id (updated database_id properties s) =
  (fun db => if bool_decide (db_id db = database_id)
             then with_properties properties db else db) <$> find_database id s.
Proof.
  unfold find_database, updated. cbn [databases].
  induction (databases s) as [|db dbs IH]; [done |].
  cbn [map List.find].
  assert (Hid : db_id (if bool_decide (db_id db = database_id)
                       then with_properties properties db else db) = db_id db)
    by (by destruct (bool_decide (db_id db = database_id))).
  rewrite Hid. destruct (bool_decide (db_id db = id)); [done | exact IH].
Qed.

Lemma find_database_id id s db : find_database id s = Some db -> db_id db = id.
Proof.
  unfold find_database. intros H. apply List.find_some in H as [_ H].
  by apply bool_decide_eq_true in H.
Qed.

(** The loop over [required_properties]: it only prints, and what it
    collects are required properties the database lacks. *)
Lemma collect_missing_spec existing required : forall to_add w,
  exists result lines,
    collect_missing required existing to_add w = (Ok result, printed lines w) /\
    (forall k s, result !! k = Some s ->
       to_add !! k = Some s \/ ((k, s) ∈ required /\ existing !! k = None)) /\
    (forall k, is_Some (to_add !! k) \/ (k ∈ required.*1 /\ existing !! k = None) ->
       is_Some (result !! k)).
Proof.
  induction required as [|[name schema] rest IH]; intros to_add w.
  - exists to_add, []. split; [by destruct w |]. split; [auto |]. intros k [H|[H _]]; [done |].
    by apply not_elem_of_nil in H.
  - cbn [collect_missing]. destruct (existing !! name) eqn:Hex.
    + destruct (IH to_add w) as (result & lines & Hrun & Hsound & Hcompl).
      exists result, lines. split; [done |]. split.
      * intros k s Hk. destruct (Hsound k s Hk) as [H|[H1 H2]]; [by left |].
        right. split; [by right | done].
      * intros k [H|[H1 H2]]; apply Hcompl; [by left |]. right. split; [| done].
        rewrite fmap_cons in H1. apply elem_of_cons in H1 as [->|H1]; [| done].
        cbn in H2. congruence.
    + unfold bind at 1. cbn [print emit].
      match goal with
      | |- context [collect_missing rest existing ?acc ?w0] =>
          destruct (IH acc w0) as (result & lines & Hrun & Hsound & Hcompl)
      end.
      exists result, (LogPropertyMissing name :: lines). split.
      { rewrite Hrun. unfold printed. cbn. by rewrite <- app_assoc. }
      split.
      * intros k s Hk. destruct (Hsound k s Hk) as [H|[H1 H2]].
        -- rewrite lookup_insert in H. case_decide as Hname.
           ++ injection H as <-. subst k. right. split; [by left | done].
           ++ by left.
        -- right. split; [by right | done].
      * intros k Hk. apply Hcompl. destruct (decide (k = name)) as [->|Hne].
        -- left. rewrite lookup_insert_eq. by eexists.
        -- destruct Hk as [H|[H1 H2]].
           ++ left. by rewrite lookup_insert_ne.
           ++ right. split; [| done]. rewrite fmap_cons in H1.
              apply elem_of_cons in H1 as [H1|H1]; [done | done].
Qed.

Lemma required_properties_functional k s s' :
  (k, s) ∈ required_properties -> (k, s') ∈ required_properties -> s = s'.
Proof.
  assert (Hnd : NoDup (required_properties.*1)).
  { apply (bool_decide_unpack _). vm_compute. exact I. }
  intros H1 H2. apply (elem_of_list_to_map (M := gmap string)) in H1, H2; [| done | done].
  congruence.
Qed.

Lemma call_not_printed c lines : Call c ∉ rev (map Print lines).
Proof.
  intros Hin. apply list_elem_of_In, List.in_rev, List.in_map_iff in Hin as (m & [=] & _).
Qed.

(** What one run of [ensure_database_properties] does. *)
Lemma ensure_database_properties_spec database_id w :
  exists w' new,
    ensure_database_properties E database_id w = (Ok tt, w') /\
    history w' = new ++ history w /\
    pages (notion_store w') = pages (notion_store w) /\
    (forall id db, find_database id (notion_store w) = Some db ->
       exists db', find_database id (notion_store w') = Some db' /\
         db_properties db ⊆ db_properties db' /\
         (id <> database_id -> db' = db)) /\
    (forall id payload, Call (DatabasesUpdate id payload) ∈ new ->
       id = database_id /\
       exists db, find_database database_id (notion_store w) = Some db /\
         forall k s, payload !! k = Some s ->
           (k, s) ∈ required_properties /\ db_properties db !! k = None) /\
    (forall db,
       find_database database_id (notion_store w) = Some db ->
       notion_fault E (history w) (DatabasesRetrieve database_id) = None ->
       (forall h payload, notion_fault E h (DatabasesUpdate database_id payload) = None) ->
       exists db', find_database database_id (notion_store w') = Some db' /\
         forall k s, (k, s) ∈ required_properties ->
           is_Some (db_properties db' !! k) /\
           (db_properties db !! k = None -> db_properties db' !! k = Some s)).
Proof.
  assert (Hframe : forall id db, find_database id (notion_store w) = Some db ->
            exists db', find_database id (notion_store w) = Some db' /\
              db_properties db ⊆ db_properties db' /\ (id <> database_id -> db' = db)).
  { intros id db Hdb. by exists db. }
  unfold ensure_database_properties, try_except. unfold bind at 1.
  rewrite notion_databases_retrieve_run. cbv zeta.
  set (r := Call (DatabasesRetrieve database_id)).
  destruct (notion_fault E (history w) (DatabasesRetrieve database_id)) as [e|] eqn:Hfault.
  { eexists _, [_; r]. split; [reflexivity |]. cbn. split_and!; try done.
    intros id payload Hin.
    repeat (apply elem_of_cons in Hin as [Hin|Hin]; [discriminate Hin |]).
    by apply not_elem_of_nil in Hin. }
  destruct (find_database database_id (notion_store w)) as [db|] eqn:Hdb.
  2: { eexists _, [_; r]. split; [reflexivity |]. cbn. split_and!; try done.
       intros id payload Hin.
       repeat (apply elem_of_cons in Hin as [Hin|Hin]; [discriminate Hin |]).
       by apply not_elem_of_nil in Hin. }
  unfold bind at 1.
  match goal with
  | |- context [collect_missing required_properties ?ex ∅ ?w0] =>
      destruct (collect_missing_spec ex required_properties ∅ w0)
        as (payload & lines & Hrun & Hsound & Hcompl)
  end.
  rewrite Hrun.
  assert (Hpay : forall k s, payload !! k = Some s ->
            (k, s) ∈ required_properties /\ db_properties db !! k = None).
  { intros k s Hk. destruct (Hsound k s Hk) as [H|H]; [| done].
    by rewrite lookup_empty in H. }
  assert (Hall : forall k s, (k, s) ∈ required_properties ->
            is_Some ((payload ∪ db_properties db) !! k) /\
            (db_properties db !! k = None ->
             (payload ∪ db_properties db) !! k = Some s)).
  { intros k s Hk. destruct (db_properties db !! k) as [s0|] eqn:Hex.
    - split; [| done]. destruct (payload !! k) as [s1|] eqn:Hp.
      + destruct (Hpay k s1 Hp) as [_ Hnone]. congruence.
      + rewrite lookup_union_r by done. by eexists.
    - destruct (Hcompl k) as [s1 Hs1].
      { right. split; [| done]. apply list_elem_of_fmap. by exists (k, s). }
      destruct (Hpay k s1 Hs1) as [Hin _].
      rewrite (required_properties_functional k s s1 Hk Hin).
      rewrite (lookup_union_Some_l _ _ _ _ Hs1). split; [by eexists | done]. }
  case_bool_decide as Hne.
  - (* something is missing: one update *)
    unfold bind at 1. rewrite notion_databases_update_run. cbv zeta. cbn [printed history].
    set (u := Call (DatabasesUpdate database_id payload)).
    assert (Hu : forall id payload0,
               Call (DatabasesUpdate id payload0) ∈ u :: rev (map Print lines) ++ [r] ->
               id = database_id /\
               exists db0, Some db = Some db0 /\
                 forall k s, payload0 !! k = Some s ->
                   (k, s) ∈ required_properties /\ db_properties db0 !! k = None).
    { intros id payload0 Hin. apply elem_of_cons in Hin as [Hin|Hin].
      - injection Hin as -> ->. split; [done |]. by exists db.
      - apply elem_of_app in Hin as [Hin|Hin]; [by apply call_not_printed in Hin |].
        apply list_elem_of_singleton in Hin. discriminate Hin. }
    destruct (notion_fault E _ (DatabasesUpdate database_id payload)) as [e|] eqn:Hfault2.
    { eexists _, (_ :: u :: rev (map Print lines) ++ [r]). split; [reflexivity |].
      cbn. rewrite <- app_assoc. split_and!; try done.
      - intros id payload0 Hin. apply elem_of_cons in Hin as [[=]|Hin]. by apply Hu.
      - intros db0 _ _ Hnf. by rewrite Hnf in Hfault2. }
    cbn [printed notion_store]. rewrite Hdb.
    eexists _, (_ :: u :: rev (map Print lines) ++ [r]). split; [reflexivity |].
    cbn [history notion_store]. split_and!.
    + cbn. by rewrite <- app_assoc.
    + done.
    + intros id db0 Hdb0. rewrite find_database_updated, Hdb0. cbn.
      eexists. split; [reflexivity |].
      pose proof (find_database_id _ _ _ Hdb0) as Hid. case_bool_decide as Hsame.
      * split; [| congruence]. cbn.
        assert (db0 = db) as -> by congruence.
        apply map_union_subseteq_r, map_disjoint_spec. intros k s1 s2 H1 H2.
        destruct (Hpay k s1 H1) as [_ Hnone]. congruence.
      * done.
    + intros id payload0 Hin. apply elem_of_cons in Hin as [[=]|Hin]. by apply Hu.
    + intros db0 [= <-] _ _. rewrite find_database_updated, Hdb. cbn.
      rewrite bool_decide_eq_true_2 by by eapply find_database_id.
      eexists. split; [reflexivity |]. exact Hall.
  - (* nothing is missing: no update *)
    subst payload.
    eexists _, (_ :: rev (map Print lines) ++ [r]). split; [reflexivity |].
    cbn. rewrite <- app_assoc. split_and!; try done.
    + intros id payload0 Hin. apply elem_of_cons in Hin as [[=]|Hin].
      apply elem_of_app in Hin as [Hin|Hin]; [by apply call_not_printed in Hin |].
      apply list_elem_of_singleton in Hin. discriminate Hin.
    + intros db0 [= <-] _ _. exists db. split; [done |]. intros k s Hk.
      destruct (Hall k s Hk) as [H1 H2]. by rewrite (left_id_L ∅ (∪)) in H1, H2.
Qed.

End Healing.



(** ** The database of a respondent *)

Section Resolver.

Variable E : Env.

Lemma notion_search_run query w :
  notion_search E query w =
  let w0 := {| notion_store := notion_store w;
               history := Call (NotionSearch query) :: history w |} in
  match notion_fault E (history w) (NotionSearch query) with
  | Some e => (Raise e, w0)
  | None => (Ok (List.filter (search_hit E query) (databases (notion_store w))), w0)
  end.
Proof.
  unfold notion_search, notion_call, bind, get_history, emit, get_store, put_store.
  cbn. destruct (notion_fault E _ _); [done |]. cbn. by destruct w.
Qed.

Lemma notion_databases_create_run title w :
  notion_databases_create E (TARGET_PAGE_ID E) title (list_to_map required_properties) w =
  let c := DatabasesCreate (TARGET_PAGE_ID E) title (list_to_map required_properties) in
  match notion_fault E (history w) c with
  | Some e => (Raise e, {| notion_store := notion_store w; history := Call c :: history w |})
  | None =>
      let db := new_database E (new_id E (history w)) title in
      (Ok db,
       {| notion_store := {| databases := databases (notion_store w) ++ [db];
                             pages := pages (notion_store w) |};
          history := Call c :: history w |})
  end.
Proof.
  unfold notion_databases_create, notion_call, bind, get_history, emit, get_store, put_store.
  cbn. by destruct (notion_fault E _ _).
Qed.



End Resolver.

Lemma find_app_None {A} (f : A -> bool) (l l' : list A) :
  List.find f l = None -> List.find f (l ++ l') = List.find f l'.
Proof.
  induction l as [|x l IH]; [done |]. cbn. destruct (f x); [done | exact IH].
Qed.




(** Two pages with one attachment each, the first one marked: the scan
    returns the attachment of the second page only. *)
Lemma scanner_skips_processed_records_witness :
  (exists w', get_pdf_entries ScannerDemo.E "main database ID" ScannerDemo.world
              = (Ok [ScannerDemo.new_entry], w')) /\
  (exists page files,
      page ∈ pages (notion_store ScannerDemo.world) /\
      pg_database page = "main database ID" /\
      page_id ScannerDemo.new_entry = pg_id page /\
      pg_properties page !! "upload your bank statement" = Some (PFiles files) /\
      pdf_file ScannerDemo.new_entry ∈ files /\
      pg_properties page !! "Processed" <> Some (PCheckbox true)) /\
  (exists w1, scan_page ScannerDemo.marked_page [] ScannerDemo.world = (Ok [], w1)).
Proof.
  destruct (scanner_skips_processed_records ScannerDemo.E "main database ID" ScannerDemo.world)
    as (pdf_entries & w' & Hrun & Horigin & Hskip).
  assert (Hentries : pdf_entries = [ScannerDemo.new_entry]).
  { vm_compute in Hrun. by injection Hrun as <- _. }
  subst pdf_entries. split; [by exists w' |]. split.
  - apply Horigin. apply list_elem_of_here.
  - exact (Hskip ScannerDemo.marked_page [] ScannerDemo.world eq_refl).
Defined.

(** * Further properties of the script *)

(** ** Marking a page *)

Section Marking.

Variable E : Env.

Lemma notion_pages_update_run page_id properties w :
  notion_pages_update E page_id properties w =
  let c := Call (PagesUpdate page_id properties) in
  match notion_fault E (history w) (PagesUpdate page_id properties) with
  | Some e => (Raise e, {| notion_store := notion_store w; history := c :: history w |})
  | None =>
      match find_page page_id (notion_store w) with
      | Some _ =>
          (Ok tt,
           {| notion_store :=
                {| databases := databases (notion_store w);
                   pages :=
                     map (fun p => if bool_decide (pg_id p = page_id)
                                   then {| pg_id := pg_id p; pg_database := pg_database p;
                                           pg_properties := properties ∪ pg_properties p |}
                                   else p) (pages (notion_store w)) |};
              history := c :: history w |})
      | None =>
          (Raise (not_found "page" page_id),
           {| notion_store := notion_store w; history := c :: history w |})
      end
  end.
Proof.
  unfold notion_pages_update, notion_call, bind, get_history, emit, get_store, put_store.
  cbn. destruct (notion_fault E _ _); [done |]. cbn.
  destruct (find_page _ _); cbn; [done |]. by destruct w.
Qed.

Lemma page_kept_refl p : page_kept p p.
Proof. unfold page_kept. auto. Qed.

Lemma page_kept_trans p1 p2 p3 : page_kept p1 p2 -> page_kept p2 p3 -> page_kept p1 p3.
Proof.
  intros (Hi & Hd & Hk & Hp) (Hi' & Hd' & Hk' & Hp'). unfold page_kept.
  split_and!; [congruence | congruence | |].
  - intros k Hne. rewrite Hk', Hk; done.
  - destruct Hp' as [Hp'|Hp']; [rewrite Hp'; exact Hp | by right].
Qed.

Lemma page_kept_ticked page_id p : page_kept p (ticked page_id p).
Proof.
  unfold ticked. case_bool_decide; [| apply page_kept_refl].
  unfold page_kept. cbn. split_and!; [done | done | |].
  - intros k Hne. rewrite lookup_union_r; [done |]. by rewrite lookup_singleton_ne.
  - right. apply lookup_union_Some_l. by rewrite lookup_singleton_eq.
Qed.

Lemma ticked_processed page_id p :
  pg_id p = page_id -> pg_properties (ticked page_id p) !! "Processed" = Some (PCheckbox true).
Proof.
  intros Hid. unfold ticked. rewrite bool_decide_eq_true_2 by done. cbn.
  apply lookup_union_Some_l. by rewrite lookup_singleton_eq.
Qed.

Lemma ticked_id page_id p : pg_id (ticked page_id p) = pg_id p.
Proof. unfold ticked. by case_bool_decide. Qed.

(** What one call of [mark_pdf_as_processed] comes to. *)
Lemma mark_pdf_as_processed_run page_id w :
  exists line,
    mark_pdf_as_processed E page_id w =
    (Ok tt,
     {| notion_store :=
          match notion_fault E (history w) (PagesUpdate page_id {[ "Processed" := PCheckbox true ]}),
                find_page page_id (notion_store w) with
          | None, Some _ =>
              {| databases := databases (notion_store w);
                 pages := map (ticked page_id) (pages (notion_store w)) |}
          | _, _ => notion_store w
          end;
        history := Print line
                   :: Call (PagesUpdate page_id {[ "Processed" := PCheckbox true ]})
                   :: history w |}).
Proof.
  unfold mark_pdf_as_processed, try_except. unfold bind at 1.
  rewrite notion_pages_update_run. cbv zeta.
  destruct (notion_fault E _ _); [by eexists |].
  destruct (find_page _ _); by eexists.
Qed.

End Marking.

(** X1.  Marking never raises and changes nothing but the box: the databases
    are as before, and each page is as before except that the box of the
    pages with the given id may be ticked.  When the update call goes through
    and the page exists, every page with that id has the box ticked; when it
    does not, the store is unchanged. *)
Theorem mark_pdf_as_processed_ticks_only_the_box (E : Env) (page_id : string) (w : World) :
  exists w',
    mark_pdf_as_processed E page_id w = (Ok tt, w') /\
    databases (notion_store w') = databases (notion_store w) /\
    Forall2 page_kept (pages (notion_store w)) (pages (notion_store w')) /\
    (notion_fault E (history w) (PagesUpdate page_id {[ "Processed" := PCheckbox true ]}) = None ->
     is_Some (find_page page_id (notion_store w)) ->
     forall p, p ∈ pages (notion_store w') -> pg_id p = page_id ->
       pg_properties p !! "Processed" = Some (PCheckbox true)) /\
    ((is_Some (notion_fault E (history w)
                 (PagesUpdate page_id {[ "Processed" := PCheckbox true ]})) \/
      find_page page_id (notion_store w) = None) ->
     notion_store w' = notion_store w).
Proof.
  destruct (mark_pdf_as_processed_run E page_id w) as (line & Hrun).
  eexists. split; [exact Hrun |]. cbn [notion_store].
  destruct (notion_fault E _ _) as [e|] eqn:Hfault.
  { split_and!; try done.
    apply Forall_Forall2_diag, Forall_forall. intros p _. apply page_kept_refl. }
  destruct (find_page page_id (notion_store w)) as [p0|] eqn:Hfind.
  - cbn. split_and!.
    + done.
    + apply Forall2_fmap_r, Forall_Forall2_diag, Forall_forall. intros p _.
      apply page_kept_ticked.
    + intros _ _ p Hp Hid. apply list_elem_of_fmap in Hp as (p1 & -> & _).
      rewrite ticked_id in Hid. by apply ticked_processed.
    + intros [[e He]|He]; discriminate He.
  - split_and!.
    + done.
    + apply Forall_Forall2_diag, Forall_forall. intros p _. apply page_kept_refl.
    + intros _ [p Hp]. discriminate Hp.
    + done.
Qed.

Lemma mark_pdf_as_processed_ticks_only_the_box_witness :
  let E := Demo.env Demo.good_answer Demo.no_fault in
  let w := Demo.world_of "https://files.example/a.pdf" in
  exists w',
    mark_pdf_as_processed E "page-1" w = (Ok tt, w') /\
    (forall p, p ∈ pages (notion_store w') -> pg_id p = "page-1" ->
       pg_properties p !! "Processed" = Some (PCheckbox true)).
Proof.
  intros E w.
  destruct (mark_pdf_as_processed_ticks_only_the_box E "page-1" w)
    as (w' & Hrun & _ & _ & Hticked & _).
  exists w'. split; [exact Hrun |]. apply Hticked; [reflexivity | by eexists].
Defined.

(** ** More on the scanner *)

Section Scanning.

Variable E : Env.

Lemma scan_files_keeps_store page files : forall acc, keeps_store (scan_files page files acc).
Proof. induction files as [|f rest IH]; intros acc; cbn [scan_files]; script. Qed.

Lemma scan_files_prints page files : forall acc, emits printing (scan_files page files acc).
Proof. induction files as [|f rest IH]; intros acc; cbn [scan_files]; script. Qed.

Lemma scan_pages_keeps_store results : forall acc, keeps_store (scan_pages results acc).
Proof.
  induction results as [|page rest IH]; intros acc; cbn [scan_pages]; [script |].
  apply keeps_store_bind; [| done]. unfold scan_page.
  pose proof (scan_files_keeps_store page). script.
Qed.

Lemma scan_pages_prints results : forall acc, emits printing (scan_pages results acc).
Proof.
  induction results as [|page rest IH]; intros acc; cbn [scan_pages]; [script |].
  apply emits_bind; [| done]. unfold scan_page.
  pose proof (scan_files_prints page). script.
Qed.

Lemma notion_calls_printed new c :
  Forall printing new -> notion_calls (new ++ [Call c]) = notion_calls [Call c].
Proof.
  intros Hall. unfold notion_calls. rewrite List.filter_app. f_equal.
  induction Hall as [|ev evs Hev _ IH]; [done |]. cbn. by destruct ev.
Qed.

(** [scan_files] on an unmarked page: one entry for each attachment before
    the first without url. *)
Lemma scan_files_exact page : forall files acc w,
  processed_of (pg_properties page) = false ->
  exists failure w',
    scan_files page files acc w = (Ok (acc ++ map (entry_of page) (with_urls files), failure), w').
Proof.
  intros files. induction files as [|f rest IH]; intros acc w Hproc.
  - exists None, w. cbn. by rewrite app_nil_r.
  - cbn [scan_files with_urls]. rewrite Hproc. cbn [negb].
    destruct (file_url f) as [url|] eqn:Hurl.
    + unfold bind at 1. cbn [print emit].
      match goal with
      | |- context [scan_files page rest (acc ++ [?en]) ?w0] =>
          destruct (IH (acc ++ [en]) w0 Hproc) as (failure & w' & Hrun)
      end.
      exists failure, w'. rewrite Hrun, <- app_assoc. cbn. unfold entry_of at 2.
      by rewrite Hurl.
    + eexists _, w. cbn. by rewrite app_nil_r.
Qed.

Lemma scan_page_exact page acc w :
  exists w', scan_page page acc w = (Ok (acc ++ attachments page), w').
Proof.
  unfold scan_page, attachments.
  destruct (pg_properties page !! "upload your bank statement") as [[files| | | | | |]|] eqn:Hp;
    try (exists w; by rewrite app_nil_r);
    try (eexists; rewrite app_nil_r; reflexivity).
  destruct (processed_of (pg_properties page)) eqn:Hproc.
  - destruct (scan_files_origin page files files acc w Hp ltac:(done))
      as (added & failure & w' & Hrun & _ & Hnone).
    rewrite (Hnone Hproc) in Hrun. unfold bind at 1. rewrite Hrun.
    destruct failure; eexists; reflexivity.
  - destruct (scan_files_exact page files acc w Hproc) as (failure & w' & Hrun).
    unfold bind at 1. rewrite Hrun. destruct failure; eexists; reflexivity.
Qed.

Lemma scan_pages_exact results : forall acc w,
  exists w', scan_pages results acc w = (Ok (acc ++ concat (map attachments results)), w').
Proof.
  induction results as [|page rest IH]; intros acc w.
  - exists w. cbn. by rewrite app_nil_r.
  - destruct (scan_page_exact page acc w) as (w1 & Hrun1).
    destruct (IH (acc ++ attachments page) w1) as (w2 & Hrun2).
    exists w2. cbn [scan_pages]. unfold bind at 1. rewrite Hrun1, Hrun2.
    cbn. by rewrite <- app_assoc.
Qed.

(** What [get_pdf_entries] comes to: the query, then printed lines. *)
Lemma get_pdf_entries_run database_id w :
  exists lines,
    Forall printing lines /\
    get_pdf_entries E database_id w =
    (Ok (match notion_fault E (history w) (DatabasesQuery database_id),
               find_database database_id (notion_store w) with
         | None, Some _ =>
             concat (map attachments
                       (take page_size
                          (List.filter (fun p => bool_decide (pg_database p = database_id))
                                       (pages (notion_store w)))))
         | _, _ => []
         end),
     {| notion_store := notion_store w;
        history := lines ++ Call (DatabasesQuery database_id) :: history w |}).
Proof.
  unfold get_pdf_entries, try_except. unfold bind at 1.
  rewrite notion_databases_query_run. cbv zeta.
  destruct (notion_fault E _ _) as [e|];
    [eexists [Print _]; split; [by repeat constructor | done] |].
  destruct (find_database _ _) as [db|];
    [| eexists [Print _]; split; [by repeat constructor | done]].
  match goal with
  | |- context [scan_pages ?results [] ?w0] =>
      destruct (scan_pages_exact results [] w0) as (w' & Hrun);
      pose proof (scan_pages_keeps_store results [] _ _ _ Hrun) as Hs;
      destruct (scan_pages_prints results [] _ _ _ Hrun) as (lines & Hh & Hall)
  end.
  exists lines. split; [done |]. rewrite Hrun. cbn in Hs, Hh. destruct w' as [s' h'].
  cbn in Hs, Hh. by subst.
Qed.

End Scanning.

(** X2.  A scan reads only: it never raises, leaves the store as it is, and
    its one call to Notion is the query.  When the query fails or the
    database does not exist, the scan returns the empty list. *)
Theorem get_pdf_entries_reads_only (E : Env) (database_id : string) (w : World) :
  exists pdf_entries w' new,
    get_pdf_entries E database_id w = (Ok pdf_entries, w') /\
    notion_store w' = notion_store w /\
    history w' = new ++ history w /\
    notion_calls new = [Call (DatabasesQuery database_id)] /\
    ((is_Some (notion_fault E (history w) (DatabasesQuery database_id)) \/
      find_database database_id (notion_store w) = None) -> pdf_entries = []).
Proof.
  destruct (get_pdf_entries_run E database_id w) as (lines & Hall & Hrun).
  eexists _, _, (lines ++ [Call (DatabasesQuery database_id)]).
  split; [exact Hrun |]. cbn. split_and!.
  - done.
  - by rewrite <- app_assoc.
  - by rewrite notion_calls_printed.
  - intros [[e He]|Hnone].
    + by rewrite He.
    + rewrite Hnone. by destruct (notion_fault E _ _).
Qed.

Lemma get_pdf_entries_reads_only_witness :
  exists w',
    get_pdf_entries ScannerDemo.E "no such database" ScannerDemo.world = (Ok [], w') /\
    notion_store w' = notion_store ScannerDemo.world.
Proof.
  destruct (get_pdf_entries_reads_only ScannerDemo.E "no such database" ScannerDemo.world)
    as (pdf_entries & w' & new & Hrun & Hs & _ & _ & Hnone).
  rewrite (Hnone (or_intror eq_refl)) in Hrun. exists w'. split; [exact Hrun | exact Hs].
Defined.

Lemma attachment_of_attachments page : map attachment_of (attachments page) = file_refs page.
Proof.
  unfold attachments, file_refs.
  destruct (pg_properties page !! "upload your bank statement") as [[files| | | | | |]|];
    try done.
  destruct (processed_of (pg_properties page)); [done |].
  rewrite List.map_map. done.
Qed.

(** X3.  When the query goes through, the scan returns, page by page in the
    order of the results, one entry per attachment of each unmarked page, in
    the order of the attachments, with the id of the page, the file object
    and its url.  An attachment without a ["file"] url ends the scan of its
    page: the attachments before it are returned, those after it are not, and
    the other pages are scanned as usual.  The respondent of an entry is the
    name of the creator given by the [Respondent] property of its page when
    that name is a string, and ["Unknown Respondent"] when the page has no
    [Respondent] property. *)
Theorem get_pdf_entries_lists_attachments (E : Env) (database_id : string) (w : World) :
  notion_fault E (history w) (DatabasesQuery database_id) = None ->
  is_Some (find_database database_id (notion_store w)) ->
  (exists pdf_entries w',
      get_pdf_entries E database_id w = (Ok pdf_entries, w') /\
      map attachment_of pdf_entries =
      concat (map file_refs
                (take page_size
                   (List.filter (fun p => bool_decide (pg_database p = database_id))
                                (pages (notion_store w))))) /\
      forall entry, entry ∈ pdf_entries ->
        exists page,
          page ∈ pages (notion_store w) /\ pg_database page = database_id /\
          pg_id page = page_id entry /\
          (pg_properties page !! "Respondent" = None ->
           respondent_name entry = "Unknown Respondent") /\
          (forall name,
              pg_properties page !! "Respondent"
              = Some (PCreatedBy (Some {| user_name := Some name |})) ->
              respondent_name entry = name)) /\
  (forall page files,
      pg_properties page !! "upload your bank statement" = Some (PFiles files) ->
      processed_of (pg_properties page) = false ->
      (Forall (fun f => is_Some (file_url f)) files ->
       file_refs page = map (fun f => (pg_id page, f, default "" (file_url f))) files) /\
      (forall before f after,
          files = before ++ f :: after ->
          Forall (fun f => is_Some (file_url f)) before -> file_url f = None ->
          file_refs page = map (fun f => (pg_id page, f, default "" (file_url f))) before)).
Proof.
  intros Hfault [db Hdb].
  assert (Hurls : forall files, Forall (fun f => is_Some (file_url f)) files ->
                                forall rest, with_urls (files ++ rest) = files ++ with_urls rest).
  { intros files Hall rest. induction Hall as [|f fs [url Hurl] _ IH]; [done |].
    cbn. by rewrite Hurl, IH. }
  split.
  - destruct (get_pdf_entries_run E database_id w) as (lines & _ & Hrun).
    rewrite Hfault, Hdb in Hrun. eexists _, _. split; [exact Hrun |]. split.
    + rewrite List.concat_map, List.map_map.
      f_equal. apply List.map_ext. intros page. apply attachment_of_attachments.
    + intros entry Hin.
      apply list_elem_of_In, List.in_concat in Hin as (l & Hl & Hin).
      apply List.in_map_iff in Hl as (page & <- & Hpage).
      apply list_elem_of_In, elem_of_take in Hpage as (i & Hpage & _).
      apply list_elem_of_lookup_2, list_elem_of_In, List.filter_In in Hpage as [Hpage Hbase].
      exists page. split; [by apply list_elem_of_In |].
      split; [by apply bool_decide_eq_true in Hbase |].
      revert Hin. unfold attachments.
      destruct (pg_properties page !! "upload your bank statement") as [[files| | | | | |]|];
        try done.
      destruct (processed_of (pg_properties page)); [done |].
      intros (f & -> & _)%list_elem_of_In%list_elem_of_fmap. cbn [entry_of page_id respondent_name].
      unfold respondent_of. split; [done |]. split.
      * by intros ->.
      * by intros name ->.
  - intros page files Hfiles Hproc. unfold file_refs. rewrite Hfiles, Hproc. split.
    + intros Hall. specialize (Hurls files Hall []). rewrite app_nil_r in Hurls.
      cbn in Hurls. rewrite app_nil_r in Hurls. by rewrite Hurls.
    + intros before f after -> Hall Hnone. rewrite (Hurls before Hall). cbn.
      by rewrite Hnone, app_nil_r.
Qed.

Lemma get_pdf_entries_lists_attachments_witness :
  exists pdf_entries w',
    get_pdf_entries ScannerDemo.E "main database ID" ScannerDemo.world
    = (Ok pdf_entries, w') /\
    map attachment_of pdf_entries =
    [("page-1", Demo.file_of "https://files.example/a.pdf", "https://files.example/a.pdf")].
Proof.
  destruct (get_pdf_entries_lists_attachments ScannerDemo.E "main database ID"
              ScannerDemo.world eq_refl ltac:(by eexists))
    as [(pdf_entries & w' & Hrun & Hrefs & _) _].
  exists pdf_entries, w'. split; [exact Hrun | exact Hrefs].
Defined.

Lemma attachments_unmarked page entry :
  entry ∈ attachments page ->
  page_id entry = pg_id page /\ processed_of (pg_properties page) = false.
Proof.
  unfold attachments.
  destruct (pg_properties page !! "upload your bank statement") as [[files| | | | | |]|];
    try (by intros ?%not_elem_of_nil).
  destruct (processed_of (pg_properties page)); [by intros ?%not_elem_of_nil |].
  intros (f & -> & _)%list_elem_of_fmap. done.
Qed.

(** X4.  Once a page is marked (the update went through), no later scan of
    any database returns an attachment of that page, as long as the store is
    the one the marking left. *)
Theorem marked_page_is_not_scanned_again (E : Env) (page_id0 : string) (w w1 : World) :
  mark_pdf_as_processed E page_id0 w = (Ok tt, w1) ->
  notion_fault E (history w) (PagesUpdate page_id0 {[ "Processed" := PCheckbox true ]}) = None ->
  is_Some (find_page page_id0 (notion_store w)) ->
  forall w2 database_id,
    notion_store w2 = notion_store w1 ->
    exists pdf_entries w3,
      get_pdf_entries E database_id w2 = (Ok pdf_entries, w3) /\
      forall entry, entry ∈ pdf_entries -> page_id entry <> page_id0.
Proof.
  intros Hmark Hfault [p0 Hfind] w2 database_id Hstore.
  destruct (mark_pdf_as_processed_run E page_id0 w) as (line & Hrun).
  rewrite Hmark, Hfault, Hfind in Hrun. injection Hrun as ->.
  destruct (get_pdf_entries_run E database_id w2) as (lines & _ & Hscan).
  eexists _, _. split; [exact Hscan |].
  intros entry Hin Hid.
  destruct (notion_fault E (history w2) _); [by apply not_elem_of_nil in Hin |].
  destruct (find_database database_id (notion_store w2)); [| by apply not_elem_of_nil in Hin].
  apply list_elem_of_In, List.in_concat in Hin as (l & Hl & Hentry).
  apply List.in_map_iff in Hl as (page & <- & Hpage).
  apply list_elem_of_In, attachments_unmarked in Hentry as [Hpid Hproc].
  apply list_elem_of_In, elem_of_take in Hpage as (i & Hpage & _).
  apply list_elem_of_lookup_2, list_elem_of_In, List.filter_In in Hpage as [Hpage _].
  rewrite Hstore in Hpage. cbn in Hpage.
  apply List.in_map_iff in Hpage as (p & <- & _).
  rewrite ticked_id in Hpid. unfold processed_of in Hproc.
  rewrite ticked_processed in Hproc by congruence. done.
Qed.

Lemma marked_page_is_not_scanned_again_witness :
  let E := Demo.env Demo.good_answer Demo.no_fault in
  let w := Demo.world_of "https://files.example/a.pdf" in
  let w1 := (mark_pdf_as_processed E "page-1" w).2 in
  exists pdf_entries w3,
    get_pdf_entries E "main database ID" w1 = (Ok pdf_entries, w3) /\
    forall entry, entry ∈ pdf_entries -> page_id entry <> "page-1".
Proof.
  intros E w w1.
  exact (marked_page_is_not_scanned_again E "page-1" w w1 eq_refl eq_refl
           ltac:(by eexists) w1 "main database ID" eq_refl).
Defined.

(** ** Grouping by respondent *)

Lemma group_append_keys respondent entry groups :
  (group_append respondent entry groups).*1 =
  if bool_decide (respondent ∈ groups.*1) then groups.*1 else groups.*1 ++ [respondent].
Proof.
  induction groups as [|[r pdfs] rest IH]; [done |].
  cbn [group_append]. destruct (decide (r = respondent)) as [->|Hr].
  - rewrite (bool_decide_eq_true_2 (respondent = respondent)) by done. cbn.
    rewrite bool_decide_eq_true_2; [done | by left].
  - rewrite (bool_decide_eq_false_2 (r = respondent)) by done. cbn. rewrite IH.
    destruct (decide (respondent ∈ rest.*1)) as [Hin|Hin].
    + rewrite !bool_decide_eq_true_2; [done | by right | done].
    + rewrite !bool_decide_eq_false_2; [done | | done].
      intros [->|H]%elem_of_cons; done.
Qed.

(** The groups as a map from respondent to entries. *)
Lemma group_append_map respondent entry groups :
  list_to_map (group_append respondent entry groups) =@{gmap string (list pdf_entry)}
  <[respondent :=
      default [] ((list_to_map groups : gmap string (list pdf_entry)) !! respondent)
      ++ [entry]]>
    (list_to_map groups).
Proof.
  induction groups as [|[r pdfs] rest IH]; [done |].
  cbn [group_append]. destruct (decide (r = respondent)) as [->|Hr].
  - rewrite (bool_decide_eq_true_2 (respondent = respondent)) by done. cbn.
    by rewrite lookup_insert_eq, insert_insert_eq.
  - rewrite (bool_decide_eq_false_2 (r = respondent)) by done. cbn.
    rewrite IH, lookup_insert_ne by done. by apply insert_insert_ne.
Qed.

(** A non-empty list, or nothing. *)
Lemma group_fold_spec entries : forall groups seen,
  NoDup groups.*1 ->
  (forall r, (list_to_map groups : gmap string (list pdf_entry)) !! r =
             match List.filter (fun e => bool_decide (respondent_name e = r)) seen with
             | [] => None
             | l => Some l
             end) ->
  let result := fold_left (fun groups entry => group_append (respondent_name entry) entry groups)
                          entries groups in
  NoDup result.*1 /\
  (forall r, (list_to_map result : gmap string (list pdf_entry)) !! r =
             match List.filter (fun e => bool_decide (respondent_name e = r))
                               (seen ++ entries) with
             | [] => None
             | l => Some l
             end).
Proof.
  induction entries as [|entry rest IH]; intros groups seen Hnd Hspec.
  - cbn. rewrite app_nil_r. done.
  - cbn [fold_left].
    replace (seen ++ entry :: rest) with ((seen ++ [entry]) ++ rest)
      by by rewrite <- app_assoc.
    apply IH.
    + rewrite group_append_keys. case_bool_decide as Hin; [done |].
      apply NoDup_app. split_and!; [done | | apply NoDup_singleton].
      intros r Hr ->%list_elem_of_singleton. done.
    + intros r. rewrite group_append_map, List.filter_app. cbn [List.filter].
      destruct (decide (respondent_name entry = r)) as [<-|Hne].
      * rewrite lookup_insert_eq, Hspec, bool_decide_eq_true_2 by done.
        by destruct (List.filter _ seen).
      * rewrite lookup_insert_ne, Hspec, bool_decide_eq_false_2 by done.
        by rewrite app_nil_r.
Qed.

(** X5.  Grouping partitions the entries by respondent name: no name heads
    two groups, and the group of a name holds exactly the entries with that
    name, in the order of the scan; no group is empty. *)
Theorem group_by_respondent_partitions (pdf_entries : list pdf_entry) :
  NoDup (group_by_respondent pdf_entries).*1 /\
  (forall respondent pdfs,
      (respondent, pdfs) ∈ group_by_respondent pdf_entries <->
      pdfs <> [] /\
      pdfs = List.filter (fun entry => bool_decide (respondent_name entry = respondent))
                         pdf_entries).
Proof.
  destruct (group_fold_spec pdf_entries [] [] ltac:(constructor) ltac:(done))
    as [Hnd Hspec].
  split; [exact Hnd |]. intros respondent pdfs.
  rewrite (elem_of_list_to_map (M := gmap string)) by exact Hnd.
  unfold group_by_respondent. rewrite Hspec. cbn [app].
  destruct (List.filter _ pdf_entries) as [|e l].
  - split; [done | by intros [? ->]].
  - split; [by intros [= <-] | by intros [_ ->]].
Qed.

Lemma group_by_respondent_partitions_witness :
  let entry name page :=
    {| page_id := page; pdf_file := Demo.file_of "https://files.example/a.pdf";
       pdf_url := "https://files.example/a.pdf"; respondent_name := name |} in
  let pdf_entries := [entry "Jane Doe" "page-1"; entry "John Roe" "page-2";
                      entry "Jane Doe" "page-3"] in
  ("Jane Doe", [entry "Jane Doe" "page-1"; entry "Jane Doe" "page-3"])
    ∈ group_by_respondent pdf_entries /\
  ("Jane Doe", [entry "Jane Doe" "page-1"]) ∉ group_by_respondent pdf_entries.
Proof.
  intros entry pdf_entries.
  destruct (group_by_respondent_partitions pdf_entries) as [_ Hgroups]. split.
  - apply Hgroups. split; [done | reflexivity].
  - intros [_ Heq]%Hgroups. discriminate Heq.
Defined.

(** ** More on the resolver *)

Section Resolving.

Variable E : Env.

(** The loop of [check_existing_database] only prints; an id it returns is
    the id of a result that passes the test; a result under the target page
    without title, met before any match, makes it raise. *)
Lemma first_match_sound respondent target expected response : forall w,
  exists r lines,
    first_match respondent target expected response w = (r, printed lines w) /\
    (forall id, r = Ok (Some id) ->
       exists db, db ∈ response /\ matches target expected db = true /\ db_id db = id) /\
    (forall before db after,
       response = before ++ db :: after ->
       Forall (fun d => db_parent d <> ParentPage target) before ->
       db_parent db = ParentPage target -> db_title db = [] ->
       exists e, r = Raise e).
Proof.
  induction response as [|db rest IH]; intros w.
  - exists (Ok None), []. split; [by destruct w |]. split; [done |].
    intros [|? ?] ? ? [=].
  - destruct (IH w) as (r & lines & Hrun & Hsound & Huntitled).
    assert (Hskip : db_parent db <> ParentPage target \/
                    (exists t ts, db_title db = t :: ts /\ t <> expected) ->
              exists r lines,
                first_match respondent target expected rest w = (r, printed lines w) /\
                (forall id, r = Ok (Some id) ->
                   exists db0, db0 ∈ db :: rest /\ matches target expected db0 = true /\
                               db_id db0 = id) /\
                (forall before db0 after,
                   db :: rest = before ++ db0 :: after ->
                   Forall (fun d => db_parent d <> ParentPage target) before ->
                   db_parent db0 = ParentPage target -> db_title db0 = [] ->
                   exists e, r = Raise e)).
    { intros Hcase. exists r, lines. split; [done |]. split.
      - intros id Hid. destruct (Hsound id Hid) as (db0 & Hin & Hm & Hi).
        exists db0. split; [by right | done].
      - intros [|d before] db0 after [= <- Hrest] Hall Hp Ht.
        + destruct Hcase as [Hcase|(t & ts & Hcase & _)]; congruence.
        + apply Forall_cons in Hall as [_ Hall]. by eapply Huntitled. }
    cbn [first_match]. destruct (db_parent db) as [p| |b] eqn:Hparent;
      [| apply Hskip; by left | apply Hskip; by left].
    case_bool_decide as Hp; [subst p | apply Hskip; left; congruence].
    destruct (db_title db) as [|t ts] eqn:Ht.
    + eexists _, []. split; [by destruct w |]. split; [done |].
      intros before db0 after _ _ _ _. by eexists.
    + case_bool_decide as Hexp; [subst t | apply Hskip; right; by exists t, ts].
      eexists _, [_]. split; [reflexivity |]. split.
      * intros id [= <-]. exists db. split; [by left |]. split; [| done].
        unfold matches. rewrite Hparent, Ht. by rewrite !bool_decide_eq_true_2.
      * intros [|d before] db0 after [= <- Hrest] Hall Hp' Ht'; [congruence |].
        apply Forall_cons in Hall as [Hd _]. congruence.
Qed.

End Resolving.

(** X6.  [check_existing_database] never raises, never changes the store,
    and its one call to Notion is the search.  An id it returns is the id of
    a database of the store that the search returned, that sits under the
    target page and whose first title segment is the name.  It answers [None]
    when the search fails, and also when the first result under the target
    page has an empty title, whatever comes after it. *)
Theorem check_existing_database_reads_only (E : Env) (name target : string) (w : World) :
  exists r w' new,
    check_existing_database E name target w = (Ok r, w') /\
    notion_store w' = notion_store w /\
    history w' = new ++ history w /\
    notion_calls new = [Call (NotionSearch name)] /\
    (forall id, r = Some id ->
       exists db, db ∈ databases (notion_store w) /\
         search_hit E name db = true /\
         db_id db = id /\ db_parent db = ParentPage target /\
         head (db_title db) = Some name) /\
    (is_Some (notion_fault E (history w) (NotionSearch name)) -> r = None) /\
    (forall before db after,
       List.filter (search_hit E name) (databases (notion_store w)) = before ++ db :: after ->
       Forall (fun d => db_parent d <> ParentPage target) before ->
       db_parent db = ParentPage target -> db_title db = [] ->
       r = None).
Proof.
  unfold check_existing_database, try_except. unfold bind at 1.
  rewrite notion_search_run. cbv zeta.
  destruct (notion_fault E (history w) (NotionSearch name)) as [e|] eqn:Hfault.
  { eexists _, _, [_; Call (NotionSearch name)]. split; [reflexivity |].
    cbn. split_and!; done. }
  match goal with
  | |- context [first_match name target name ?response ?w0] =>
      destruct (first_match_sound name target name response w0)
        as (r & lines & Hrun & Hsound & Huntitled)
  end.
  rewrite Hrun.
  assert (Hcalls : forall more,
             Forall printing more ->
             notion_calls (more ++ [Call (NotionSearch name)]) = [Call (NotionSearch name)]).
  { intros more Hmore. by rewrite notion_calls_printed. }
  assert (Hprinted : forall ls, Forall printing (rev (map Print ls))).
  { intros ls. apply Forall_forall. intros ev Hev.
    apply list_elem_of_In, List.in_rev, List.in_map_iff in Hev as (m & <- & _). done. }
  destruct r as [r|e].
  - eexists r, _, (rev (map Print lines) ++ [Call (NotionSearch name)]).
    split; [reflexivity |]. cbn. split_and!.
    + done.
    + by rewrite <- app_assoc.
    + by apply Hcalls.
    + intros id ->. destruct (Hsound id eq_refl) as (db & Hin & Hm & Hid).
      apply list_elem_of_In, List.filter_In in Hin as [Hin Hhit].
      exists db. split; [by apply list_elem_of_In |]. split; [done |]. split; [done |].
      unfold matches in Hm. destruct (db_parent db) as [p| |b]; try done.
      destruct (db_title db) as [|t ts]; [done |].
      apply andb_true_iff in Hm as [Hp Ht].
      apply bool_decide_eq_true in Hp, Ht. by subst.
    + by intros [e He].
    + intros before db after Hresp Hall Hp Ht.
      destruct (Huntitled before db after Hresp Hall Hp Ht) as (e & [=]).
  - eexists None, _, (_ :: rev (map Print lines) ++ [Call (NotionSearch name)]).
    split; [reflexivity |]. cbn. split_and!; try done.
    + by rewrite <- app_assoc.
    + apply (Hcalls (_ :: _)). constructor; [done | apply Hprinted].
Qed.

Lemma check_existing_database_reads_only_witness :
  exists w',
    check_existing_database ResolverDemo.healthy "Jane Doe" " target page ID" UploadDemo.world
    = (Ok (Some "db-1"), w') /\
    exists db, db ∈ databases (notion_store UploadDemo.world) /\
      db_id db = "db-1" /\ head (db_title db) = Some "Jane Doe".
Proof.
  destruct (check_existing_database_reads_only ResolverDemo.healthy "Jane Doe"
              " target page ID" UploadDemo.world)
    as (r & w' & new & Hrun & _ & _ & _ & Hsound & _).
  assert (Hr : r = Some "db-1").
  { vm_compute in Hrun. by injection Hrun as <- _. }
  subst r. exists w'. split; [exact Hrun |].
  destruct (Hsound "db-1" eq_refl) as (db & Hin & _ & Hid & _ & Htitle).
  exists db. split; [exact Hin |]. split; [exact Hid | exact Htitle].
Defined.

Section Healed.

Variable E : Env.

Lemma printed_lines_printing lines : Forall printing (rev (map Print lines)).
Proof.
  apply Forall_forall. intros ev Hev.
  apply list_elem_of_In, List.in_rev, List.in_map_iff in Hev as (m & <- & _). done.
Qed.

(** On a database that has every required property, or that cannot be
    retrieved, [ensure_database_properties] sends no update. *)
Lemma ensure_database_properties_nothing_missing database_id w :
  (forall db, find_database database_id (notion_store w) = Some db ->
     forall k s, (k, s) ∈ required_properties -> is_Some (db_properties db !! k)) ->
  exists w' new,
    ensure_database_properties E database_id w = (Ok tt, w') /\
    notion_store w' = notion_store w /\
    history w' = new ++ history w /\
    notion_calls new = [Call (DatabasesRetrieve database_id)].
Proof.
  intros Hcomplete.
  unfold ensure_database_properties, try_except. unfold bind at 1.
  rewrite notion_databases_retrieve_run. cbv zeta.
  set (c := Call (DatabasesRetrieve database_id)).
  destruct (notion_fault E (history w) (DatabasesRetrieve database_id)) as [e|].
  { eexists _, [_; c]. split; [reflexivity |]. by cbn. }
  destruct (find_database database_id (notion_store w)) as [db|] eqn:Hdb.
  2: { eexists _, [_; c]. split; [reflexivity |]. by cbn. }
  unfold bind at 1.
  match goal with
  | |- context [collect_missing required_properties ?ex ∅ ?w0] =>
      destruct (collect_missing_spec ex required_properties ∅ w0)
        as (payload & lines & Hrun & Hsound & _)
  end.
  rewrite Hrun.
  assert (payload = ∅) as ->.
  { apply map_empty. intros k. destruct (payload !! k) as [s|] eqn:Hk; [| done].
    destruct (Hsound k s Hk) as [H|[Hin Hnone]]; [by rewrite lookup_empty in H |].
    destruct (Hcomplete db eq_refl k s Hin) as [s0 Hs0]. congruence. }
  rewrite bool_decide_eq_false_2 by (by intros H; apply H).
  eexists _, (_ :: rev (map Print lines) ++ [c]). split; [reflexivity |].
  cbn. split_and!; [done | by rewrite <- app_assoc |].
  apply (notion_calls_printed (_ :: _)). constructor; [done | apply printed_lines_printing].
Qed.

Lemma find_database_app_new id dbs db pgs :
  List.find (fun d => bool_decide (db_id d = id)) dbs = None ->
  db_id db = id ->
  find_database id {| databases := dbs ++ [db]; pages := pgs |} = Some db.
Proof.
  intros Hnone Hid. unfold find_database. cbn. rewrite (find_app_None _ _ _ Hnone). cbn.
  by rewrite bool_decide_eq_true_2.
Qed.

End Healed.

(** X7.  [create_new_database] never raises and leaves the pages alone.
    When the create call goes through it returns the id the service gave and
    the store has one more database: under the target page, titled with the
    name, with the five required properties; when the call fails it returns
    [None] and the store is unchanged.  A database so created, if its id was
    not in use, lacks nothing: a later [ensure_database_properties] on it
    sends no update. *)
Theorem create_new_database_adds_complete_database (E : Env) (name : string) (w : World) :
  let schema : gmap string prop_schema := list_to_map required_properties in
  exists r w',
    create_new_database E name w = (Ok r, w') /\
    pages (notion_store w') = pages (notion_store w) /\
    match notion_fault E (history w) (DatabasesCreate (TARGET_PAGE_ID E) name schema) with
    | None =>
        r = Some (new_id E (history w)) /\
        databases (notion_store w') =
        databases (notion_store w) ++ [new_database E (new_id E (history w)) name]
    | Some _ => r = None /\ notion_store w' = notion_store w
    end /\
    (forall id,
       r = Some id -> find_database id (notion_store w) = None ->
       forall w2, notion_store w2 = notion_store w' ->
       exists w3 new,
         ensure_database_properties E id w2 = (Ok tt, w3) /\
         notion_store w3 = notion_store w2 /\
         history w3 = new ++ history w2 /\
         notion_calls new = [Call (DatabasesRetrieve id)]).
Proof.
  intros schema. unfold create_new_database, try_except. unfold bind at 1. unfold bind at 1.
  rewrite notion_databases_create_run. cbv zeta. fold schema.
  destruct (notion_fault E (history w) (DatabasesCreate (TARGET_PAGE_ID E) name schema))
    as [e|] eqn:Hfault.
  { eexists _, _. split; [reflexivity |]. cbn. split_and!; try done. }
  eexists _, _. split; [reflexivity |]. cbn. split_and!; try done.
  intros id [= <-] Hfresh w2 Hstore.
  apply ensure_database_properties_nothing_missing.
  intros db Hdb k s Hin. rewrite Hstore in Hdb.
  rewrite find_database_app_new in Hdb by done.
  injection Hdb as <-. cbn [new_database db_properties]. exists s.
  apply (elem_of_list_to_map_1 (M := gmap string)); [| done].
  apply (bool_decide_unpack _). vm_compute. exact I.
Qed.

Lemma create_new_database_adds_complete_database_witness :
  exists w' w3 new,
    create_new_database ResolverDemo.healthy "Jane Doe" ResolverDemo.empty_world
    = (Ok (Some "obj-0"), w') /\
    ensure_database_properties ResolverDemo.healthy "obj-0" w' = (Ok tt, w3) /\
    history w3 = new ++ history w' /\
    notion_calls new = [Call (DatabasesRetrieve "obj-0")].
Proof.
  destruct (create_new_database_adds_complete_database ResolverDemo.healthy "Jane Doe"
              ResolverDemo.empty_world) as (r & w' & Hrun & _ & [Hr _] & Hheal).
  cbn in Hr. subst r.
  destruct (Hheal "obj-0" eq_refl eq_refl w' eq_refl) as (w3 & new & H1 & _ & H2 & H3).
  exists w', w3, new. split; [exact Hrun |]. split; [exact H1 |]. split; [exact H2 | exact H3].
Defined.

(** X8.  Healing is idempotent.  After a run of [ensure_database_properties]
    in which the database was found and the retrieve and update calls went
    through, another run on the store it left changes nothing and sends no
    update: its one call to Notion is the retrieve. *)
Theorem ensure_database_properties_idempotent (E : Env) (database_id : string)
    (w w1 : World) :
  ensure_database_properties E database_id w = (Ok tt, w1) ->
  is_Some (find_database database_id (notion_store w)) ->
  notion_fault E (history w) (DatabasesRetrieve database_id) = None ->
  (forall h payload, notion_fault E h (DatabasesUpdate database_id payload) = None) ->
  forall w2,
    notion_store w2 = notion_store w1 ->
    exists w3 new,
      ensure_database_properties E database_id w2 = (Ok tt, w3) /\
      notion_store w3 = notion_store w2 /\
      history w3 = new ++ history w2 /\
      notion_calls new = [Call (DatabasesRetrieve database_id)].
Proof.
  intros Hrun [db Hdb] Hretrieve Hupdate w2 Hstore.
  destruct (ensure_database_properties_spec E database_id w)
    as (w1' & new & Hrun' & _ & _ & _ & _ & Hheal).
  rewrite Hrun in Hrun'. injection Hrun' as <-.
  destruct (Hheal db Hdb Hretrieve Hupdate) as (db' & Hdb' & Hall).
  apply ensure_database_properties_nothing_missing.
  intros db2 Hdb2 k s Hin. rewrite Hstore, Hdb' in Hdb2. injection Hdb2 as <-.
  by apply (Hall k s).
Qed.

Lemma ensure_database_properties_idempotent_witness :
  let E := Demo.env Demo.good_answer Demo.no_fault in
  let w := Demo.world_of "https://files.example/a.pdf" in
  let w1 := (ensure_database_properties E "main database ID" w).2 in
  exists w3 new,
    ensure_database_properties E "main database ID" w1 = (Ok tt, w3) /\
    notion_store w3 = notion_store w1 /\
    history w3 = new ++ history w1 /\
    notion_calls new = [Call (DatabasesRetrieve "main database ID")].
Proof.
  intros E w w1.
  exact (ensure_database_properties_idempotent E "main database ID" w w1 eq_refl
           ltac:(by eexists) eq_refl (fun _ _ => eq_refl) w1 eq_refl).
Defined.

(** ** More on the extraction loop *)

(** X9.  [analyze_pdf_content] stops at the first turn that does not raise:
    when the first attempt returns rows, these are the result and one request
    was sent, also when the rows are none (a header without lines is no
    failure and is not retried).  With [retries] zero or negative nothing is
    sent and the result is the empty list. *)
Theorem analyze_pdf_content_stops_at_first_success (E : Env) (pdf_content : string)
    (retries : Z) (w : World) :
  ((retries <= 0)%Z -> analyze_pdf_content E pdf_content retries w = (Ok [], w)) /\
  (forall data w1,
      (0 < retries)%Z ->
      attempt_once E (prompt_template pdf_content) w = (Ok data, w1) ->
      analyze_pdf_content E pdf_content retries w = (Ok data, w1) /\
      notion_store w1 = notion_store w /\
      history w1 = Call (ChatCompletionsCreate (prompt_template pdf_content)) :: history w).
Proof.
  unfold analyze_pdf_content. split.
  - intros Hle. by replace (Z.to_nat retries) with 0 by lia.
  - intros data w1 Hpos Hat.
    destruct (attempt_once_history E _ _ _ _ Hat) as [Hs Hh].
    split; [| done].
    destruct (Z.to_nat retries) as [|todo] eqn:Htodo; [lia |].
    cbn [attempts]. unfold bind at 1. unfold try_except. unfold bind at 1.
    by rewrite Hat.
Qed.

(** An answer with the header and no line: no row, one request, no retry. *)
Lemma analyze_pdf_content_stops_at_first_success_witness :
  let answer := "```" +:+ nl +:+ "Transaction Date,Product Name,Price,Category" +:+ nl +:+ "```" in
  let E := Demo.env answer Demo.no_fault in
  let w := Demo.world_of "https://files.example/a.pdf" in
  exists w1,
    analyze_pdf_content E "no transactions" 3 w = (Ok [], w1) /\
    history w1 = Call (ChatCompletionsCreate (prompt_template "no transactions")) :: history w.
Proof.
  intros answer E w.
  destruct (analyze_pdf_content_stops_at_first_success E "no transactions" 3 w)
    as [_ Hfirst].
  destruct (Hfirst [] (attempt_once E (prompt_template "no transactions") w).2
              ltac:(done) eq_refl) as (Hrun & _ & Hh).
  eexists. split; [exact Hrun | exact Hh].
Defined.

(** ** More on the uploader *)

Section Uploading.

Variable E : Env.

Lemma verdict_of_Write row properties :
  verdict_of E row = Write properties ->
  exists date formatted_date product price category number,
    dict_get "Transaction Date" "" row = Some date /\ date <> "" /\
    dateutil_parse E date = Ok formatted_date /\
    dict_get "Product Name" "" row = Some product /\ strip product <> "" /\
    dict_get "Price" "" row = Some price /\ strip price <> "" /\
    dict_get "Category" "" row = Some category /\ strip category <> "" /\
    float (sanitized price) = Ok number /\
    properties = row_properties formatted_date (strip product) number (strip category).
Proof.
  unfold verdict_of.
  destruct (dict_get "Transaction Date" "" row) as [date|] eqn:Hd; [| done].
  cbn [truthy]. case_bool_decide as Hdate; [done |]. cbn [negb].
  change (default "" (Some date)) with date.
  destruct (dateutil_parse E date) as [fd|e] eqn:Hp;
    [| by destruct (isinstance_ValueError e)].
  destruct (dict_get "Product Name" "" row) as [product|]; [| done].
  destruct (dict_get "Price" "" row) as [price|]; [| done].
  destruct (dict_get "Category" "" row) as [category|]; [| done].
  case_bool_decide as Hempty; [done |].
  fold (sanitized price). destruct (float (sanitized price)) as [number|e] eqn:Hf; [| done].
  intros [= <-]. exists date, fd, product, price, category, number.
  split_and!; try done; intros Hs; apply Hempty; auto.
Qed.

(** One row: the databases stay, and the pages gain at most one page, in
    the database named. *)
Lemma upload_row_frame row database_id w :
  exists o w1 added,
    upload_row E row database_id w = (Ok o, w1) /\
    databases (notion_store w1) = databases (notion_store w) /\
    pages (notion_store w1) = pages (notion_store w) ++ added /\
    Forall (fun p => pg_database p = database_id) added /\
    (o = RowSkipped -> added = []) /\
    (find_database database_id (notion_store w) = None -> o = RowSkipped).
Proof.
  rewrite upload_row_verdict. destruct (verdict_of E row) as [properties|lines].
  - rewrite notion_pages_create_run. cbv zeta.
    destruct (notion_fault E _ _).
    { eexists _, _, []. split; [reflexivity |]. cbn. rewrite app_nil_r. by split_and!. }
    destruct (find_database _ _).
    + eexists _, _, [_]. split; [reflexivity |]. cbn. split_and!; try done.
      by repeat constructor.
    + eexists _, _, []. split; [reflexivity |]. cbn. rewrite app_nil_r. by split_and!.
  - eexists _, _, []. split; [reflexivity |]. cbn. rewrite app_nil_r. by split_and!.
Qed.

Lemma upload_rows_frame data database_id : forall u s w,
  exists u' s' w' added,
    upload_rows E data database_id u s w = (Ok (u', s'), w') /\
    databases (notion_store w') = databases (notion_store w) /\
    pages (notion_store w') = pages (notion_store w) ++ added /\
    Forall (fun p => pg_database p = database_id) added /\
    (find_database database_id (notion_store w) = None ->
     added = [] /\ u' = u /\ s' = s + length data).
Proof.
  induction data as [|row rest IH]; intros u s w.
  - exists u, s, w, []. cbn. rewrite app_nil_r.
    split_and!; auto; try (intros _; split_and!; auto; lia).
  - destruct (upload_row_frame row database_id w)
      as (o & w1 & added1 & Hrow & Hdb & Hpg & Hall & Hskip & Hnone).
    assert (Hsame : find_database database_id (notion_store w1)
                    = find_database database_id (notion_store w)).
    { unfold find_database. by rewrite Hdb. }
    cbn [upload_rows]. unfold bind at 1. rewrite Hrow. destruct o.
    + destruct (IH (S u) s w1) as (u' & s' & w' & added & Hrun & Hdb' & Hpg' & Hall' & Hnone').
      exists u', s', w', (added1 ++ added). rewrite Hrun. split_and!.
      * done.
      * congruence.
      * by rewrite Hpg', Hpg, <- app_assoc.
      * by apply Forall_app.
      * intros Hn. by specialize (Hnone Hn).
    + destruct (IH u (S s) w1) as (u' & s' & w' & added & Hrun & Hdb' & Hpg' & Hall' & Hnone').
      exists u', s', w', (added1 ++ added). rewrite Hrun. split_and!.
      * done.
      * congruence.
      * by rewrite Hpg', Hpg, <- app_assoc.
      * by apply Forall_app.
      * intros Hn. rewrite Hskip by done. rewrite <- Hsame in Hn.
        destruct (Hnone' Hn) as (-> & -> & ->). cbn. split_and!; auto; lia.
Qed.

End Uploading.

(** X10.  A row counted as uploaded passed every check, and the page written
    holds its normalised fields: the date is not empty and parses; product,
    price and category are not empty once stripped; the price without commas
    and dollar signs reads as a number; the call went through to an existing
    database; and the store has exactly one more page, in that database, with
    the formatted date, the stripped product and category, and that number. *)
Theorem upload_row_writes_only_valid_rows (E : Env) (row : csv_row) (database_id : string)
    (w w' : World) :
  upload_row E row database_id w = (Ok RowUploaded, w') ->
  exists date formatted_date product price category number,
    dict_get "Transaction Date" "" row = Some date /\ date <> "" /\
    dateutil_parse E date = Ok formatted_date /\
    dict_get "Product Name" "" row = Some product /\ strip product <> "" /\
    dict_get "Price" "" row = Some price /\ strip price <> "" /\
    dict_get "Category" "" row = Some category /\ strip category <> "" /\
    float (sanitized price) = Ok number /\
    is_Some (find_database database_id (notion_store w)) /\
    databases (notion_store w') = databases (notion_store w) /\
    pages (notion_store w') =
    pages (notion_store w) ++
    [{| pg_id := new_id E (history w); pg_database := database_id;
        pg_properties :=
          row_properties formatted_date (strip product) number (strip category) |}].
Proof.
  rewrite upload_row_verdict. destruct (verdict_of E row) as [properties|lines] eqn:Hv;
    [| intros [=]].
  apply verdict_of_Write in Hv
    as (date & fd & product & price & category & number &
        H1 & H2 & H3 & H4 & H5 & H6 & H7 & H8 & H9 & H10 & ->).
  rewrite notion_pages_create_run. cbv zeta.
  destruct (notion_fault E _ _); [intros [=] |].
  destruct (find_database _ _) as [db|]; [| intros [=]].
  intros [= <-]. exists date, fd, product, price, category, number. cbn.
  split_and!; try done; by eexists.
Qed.

Lemma upload_row_writes_only_valid_rows_witness :
  exists number,
    float (sanitized "$1,234.50") = Ok number /\
    pages (notion_store (upload_row UploadDemo.E UploadDemo.coffee "db-1" UploadDemo.world).2)
    = [{| pg_id := "obj-0"; pg_database := "db-1";
          pg_properties := row_properties "2022-09-08" "Coffee" number "Groceries" |}].
Proof.
  destruct (upload_row_writes_only_valid_rows UploadDemo.E UploadDemo.coffee "db-1"
              UploadDemo.world
              (upload_row UploadDemo.E UploadDemo.coffee "db-1" UploadDemo.world).2 eq_refl)
    as (date & fd & product & price & category & number &
        H1 & _ & H3 & H4 & _ & H6 & _ & H8 & _ & H10 & _ & _ & Hpages).
  injection H1 as <-. injection H4 as <-. injection H6 as <-. injection H8 as <-.
  injection H3 as <-.
  exists number. split; [exact H10 | exact Hpages].
Defined.

(** X11.  The uploader only appends: the databases are as before, the pages
    that existed are all there, unchanged and in order, and every page added
    is in the database named.  When that database does not exist, nothing is
    added and every row is counted as skipped. *)
Theorem upload_transactions_to_notion_only_appends (E : Env) (data : list csv_row)
    (database_id : string) (w : World) :
  exists w' added,
    upload_transactions_to_notion E data database_id w = (Ok None, w') /\
    databases (notion_store w') = databases (notion_store w) /\
    pages (notion_store w') = pages (notion_store w) ++ added /\
    Forall (fun p => pg_database p = database_id) added /\
    (find_database database_id (notion_store w) = None ->
     added = [] /\
     exists earlier,
       history w' = Print (LogSkipped (length data)) :: Print (LogUploaded 0) :: earlier).
Proof.
  destruct (upload_rows_frame E data database_id 0 0 w)
    as (u & s & w1 & added & Hrun & Hdb & Hpg & Hall & Hnone).
  unfold upload_transactions_to_notion. unfold bind at 1. rewrite Hrun.
  eexists _, added. split; [reflexivity |]. cbn. split_and!; try done.
  intros Hn. destruct (Hnone Hn) as (-> & -> & ->). split; [done |]. by eexists.
Qed.

Lemma upload_transactions_to_notion_only_appends_witness :
  exists w' earlier,
    upload_transactions_to_notion UploadDemo.E [UploadDemo.coffee; UploadDemo.junk]
      "no such database" UploadDemo.world = (Ok None, w') /\
    pages (notion_store w') = [] /\
    history w' = Print (LogSkipped 2) :: Print (LogUploaded 0) :: earlier.
Proof.
  destruct (upload_transactions_to_notion_only_appends UploadDemo.E
              [UploadDemo.coffee; UploadDemo.junk] "no such database" UploadDemo.world)
    as (w' & added & Hrun & _ & Hpg & _ & Hnone).
  destruct (Hnone eq_refl) as (-> & earlier & Hh).
  exists w', earlier. split; [exact Hrun |]. split; [exact Hpg | exact Hh].
Defined.

(** ** Cleaning the extracted rows *)

Lemma cleaned_item_of_lookup item k :
  cleaned_item_of item !! k =
  if bool_decide (k ∈ expected_headers) then Some (dict_get k "" item) else None.
Proof.
  unfold cleaned_item_of, expected_headers. case_bool_decide as Hk.
  - repeat (apply elem_of_cons in Hk as [->|Hk]; [reflexivity |]).
    by apply not_elem_of_nil in Hk.
  - rewrite !lookup_insert_ne, lookup_singleton_ne; [done | ..];
      intros <-; apply Hk; repeat constructor.
Qed.

Lemma all_values_truthy_cleaned item :
  all_values_truthy (cleaned_item_of item) = complete item.
Proof.
  generalize (cleaned_item_of_lookup item). generalize (cleaned_item_of item).
  intros m Hm. apply eq_true_iff_eq. unfold all_values_truthy, complete.
  rewrite !forallb_forall. split.
  - intros Hall k Hk. apply (Hall (k, dict_get k "" item)).
    rewrite <- list_elem_of_In, elem_of_map_to_list, Hm.
    rewrite <- list_elem_of_In in Hk. by rewrite bool_decide_eq_true_2.
  - intros Hall [k v] Hin. rewrite <- list_elem_of_In, elem_of_map_to_list, Hm in Hin.
    case_bool_decide as Hk; [| done].
    injection Hin as <-. apply Hall. by rewrite <- list_elem_of_In.
Qed.

Lemma clean_data_run extracted : forall cleaned w,
  exists lines,
    clean_data extracted cleaned w =
    (Ok (cleaned ++ map cleaned_item_of (List.filter complete extracted)), printed lines w).
Proof.
  induction extracted as [|item rest IH]; intros cleaned w.
  - exists []. cbn. rewrite app_nil_r. by destruct w.
  - cbn [clean_data List.filter]. rewrite all_values_truthy_cleaned.
    destruct (complete item).
    + destruct (IH (cleaned ++ [cleaned_item_of item]) w) as (lines & ->).
      exists lines. cbn. by rewrite <- app_assoc.
    + unfold bind at 1. cbn [print emit].
      match goal with
      | |- context [clean_data rest cleaned ?w0] => destruct (IH cleaned w0) as (lines & ->)
      end.
      exists (LogText "Skipping incomplete data" :: lines). unfold printed. cbn.
      by rewrite <- app_assoc.
Qed.

(** X12.  Cleaning never raises and only prints.  It keeps, in order, the
    rows whose four fields are all present and not empty, and of each kept
    row only those four fields: every other column is dropped. *)
Theorem clean_data_keeps_complete_rows (extracted_data : list csv_row) (w : World) :
  exists lines,
    clean_data extracted_data [] w =
    (Ok (map cleaned_item_of (List.filter complete extracted_data)), printed lines w) /\
    forall item, item ∈ extracted_data -> complete item = true ->
      (forall k, k ∈ expected_headers ->
         exists s, cleaned_item_of item !! k = Some (Some s) /\ s <> "" /\
                   item !! k = Some (Some s)) /\
      (forall k, k ∉ expected_headers -> cleaned_item_of item !! k = None).
Proof.
  destruct (clean_data_run extracted_data [] w) as (lines & Hrun).
  exists lines. split; [exact Hrun |]. intros item _ Hcomplete. split.
  - intros k Hk. rewrite cleaned_item_of_lookup, bool_decide_eq_true_2 by done.
    unfold complete in Hcomplete. rewrite forallb_forall in Hcomplete.
    specialize (Hcomplete k ltac:(by apply list_elem_of_In)).
    unfold dict_get in *. destruct (item !! k) as [[s|]|]; try done.
    exists s. split_and!; try done. intros ->. done.
  - intros k Hk. by rewrite cleaned_item_of_lookup, bool_decide_eq_false_2.
Qed.

Lemma clean_data_keeps_complete_rows_witness :
  let item : csv_row := <[ "Note" := Some "paid by card" ]> UploadDemo.coffee in
  cleaned_item_of item !! "Price" = Some (Some "$1,234.50") /\
  cleaned_item_of item !! "Note" = None.
Proof.
  intros item.
  destruct (clean_data_keeps_complete_rows [item] UploadDemo.world) as (lines & _ & Hkept).
  destruct (Hkept item ltac:(by left) ltac:(vm_compute; reflexivity)) as [Hfields Hothers].
  split.
  - destruct (Hfields "Price" ltac:(by do 2 right; left)) as (s & -> & _ & Hitem).
    rewrite <- Hitem. vm_compute. reflexivity.
  - apply Hothers. apply (bool_decide_unpack _). vm_compute. exact I.
Defined.

(** ** More on the pipeline *)

Section Pipeline.

Variable E : Env.

Lemma upload_transactions_to_notion_returns data database_id w :
  exists w', upload_transactions_to_notion E data database_id w = (Ok None, w').
Proof.
  destruct (upload_rows_spec E data database_id 0 0 w) as (u & s & w1 & Hrun & _).
  unfold upload_transactions_to_notion. unfold bind at 1. rewrite Hrun. by eexists.
Qed.

Lemma upload_transactions_to_notion_history data database_id w r w' :
  upload_transactions_to_notion E data database_id w = (r, w') ->
  exists new, history w' = new ++ history w.
Proof.
  intros Hrun.
  destruct (upload_transactions_to_notion_monotone E data database_id _ _ _ Hrun)
    as (new & Hh & _). eauto.
Qed.

(** Past the extraction, when it gave rows: cleaning, uploading if a row is
    left, then marking. *)
Lemma process_pdf_entry_with_rows db entry w text w1 item data w2 :
  read_pdf E (pdf_url entry) (announced entry w) = (Ok text, w1) ->
  startswith "Error" text = false ->
  analyze_pdf_content E text 3 w1 = (Ok (item :: data), w2) ->
  exists w3 mid,
    history w3 = mid ++ history w2 /\
    process_pdf_entry E db entry w = mark_pdf_as_processed E (page_id entry) w3.
Proof.
  intros Hread Hstart Han.
  destruct (clean_data_run (item :: data) []
              {| notion_store := notion_store w2;
                 history := Print (LogExtracted (item :: data)) :: history w2 |})
    as (lines & Hclean).
  set (w20 := {| notion_store := notion_store w2;
                 history := Print (LogExtracted (item :: data)) :: history w2 |}) in *.
  assert (Hrest : exists w3 mid,
             history w3 = mid ++ history w2 /\
             match map cleaned_item_of (List.filter complete (item :: data)) with
             | _ :: _ =>
                 upload_transactions_to_notion E
                   (map cleaned_item_of (List.filter complete (item :: data))) db ;;; ret tt
             | [] => print (LogText "No valid data to upload.")
             end (printed lines w20) = (Ok tt, w3)).
  { destruct (map cleaned_item_of (List.filter complete (item :: data))) as [|c cs].
    - eexists _, (_ :: rev (map Print lines) ++ [_]). split; [| reflexivity].
      cbn. by rewrite <- app_assoc.
    - destruct (upload_transactions_to_notion_returns (c :: cs) db (printed lines w20))
        as (w3 & Hup).
      destruct (upload_transactions_to_notion_history _ _ _ _ _ Hup) as (new & Hh).
      exists w3, (new ++ rev (map Print lines) ++ [Print (LogExtracted (item :: data))]).
      split; [| unfold bind; by rewrite Hup].
      rewrite Hh. cbn. by rewrite <- !app_assoc. }
  destruct Hrest as (w3 & mid & Hh & Hrest).
  exists w3, mid. split; [exact Hh |].
  unfold process_pdf_entry, try_except.
  unfold bind at 1.
  change (print _ w) with (Ok tt, announced entry w). cbv beta iota.
  unfold bind at 1. rewrite Hread, Hstart.
  unfold bind at 1. rewrite Han.
  unfold bind at 1. cbn [print emit]. cbv beta iota. fold w20.
  unfold bind at 1. rewrite Hclean. cbn [app].
  unfold bind at 1. rewrite Hrest.
  destruct (mark_pdf_as_processed_run E (page_id entry) w3) as (line & Hmark).
  by rewrite Hmark.
Qed.

End Pipeline.

(** X13.  When every page of the main database is already marked, a run of
    [process_pdfs] changes nothing: it never raises, the store is as before,
    and its one call to Notion is the query. *)
Theorem process_pdfs_without_new_pdfs_writes_nothing (E : Env) (w : World) :
  (forall page, page ∈ pages (notion_store w) ->
     pg_database page = MAIN_DATABASE_ID E ->
     pg_properties page !! "Processed" = Some (PCheckbox true)) ->
  exists w' new,
    process_pdfs E w = (Ok tt, w') /\
    notion_store w' = notion_store w /\
    history w' = new ++ history w /\
    notion_calls new = [Call (DatabasesQuery (MAIN_DATABASE_ID E))].
Proof.
  intros Hmarked. unfold process_pdfs. unfold bind at 1. cbn [print emit]. cbv beta iota.
  unfold bind at 1.
  match goal with
  | |- context [get_pdf_entries E ?id ?w0] =>
      destruct (get_pdf_entries_run E id w0) as (lines & Hlines & Hrun)
  end.
  rewrite Hrun. clear Hrun. cbn [notion_store history].
  assert (Hnone : concat (map attachments
                    (take page_size
                       (List.filter (fun p => bool_decide (pg_database p = MAIN_DATABASE_ID E))
                                    (pages (notion_store w))))) = []).
  { apply List.concat_nil_Forall, List.Forall_map, List.Forall_forall. intros page Hin.
    apply list_elem_of_In, elem_of_take in Hin as (i & Hin & _).
    apply list_elem_of_lookup_2, list_elem_of_In, List.filter_In in Hin as [Hin Hdb].
    apply bool_decide_eq_true in Hdb. apply list_elem_of_In in Hin.
    unfold attachments, processed_of. rewrite (Hmarked page Hin Hdb).
    by destruct (pg_properties page !! "upload your bank statement") as [[]|]. }
  rewrite Hnone.
  eexists _, (_ :: lines ++ [Call (DatabasesQuery (MAIN_DATABASE_ID E)); _]).
  split.
  { destruct (notion_fault E _ _); [reflexivity |]. destruct (find_database _ _); reflexivity. }
  cbn. split_and!; [done | by rewrite <- app_assoc |].
  unfold notion_calls. cbn. rewrite List.filter_app. cbn.
  assert (List.filter is_notion_call lines = []) as ->; [| done].
  induction Hlines as [|ev evs Hev _ IH]; [done |]. cbn. by destruct ev.
Qed.

Lemma process_pdfs_without_new_pdfs_writes_nothing_witness :
  let E := Demo.env Demo.good_answer Demo.no_fault in
  let w := {| notion_store := {| databases := [Demo.main_db];
                                 pages := [ScannerDemo.marked_page] |};
              history := [] |} in
  exists w' new,
    process_pdfs E w = (Ok tt, w') /\
    notion_store w' = notion_store w /\
    history w' = new ++ history w /\
    notion_calls new = [Call (DatabasesQuery "main database ID")].
Proof.
  intros E w. apply (process_pdfs_without_new_pdfs_writes_nothing E w).
  intros page Hin _. apply list_elem_of_singleton in Hin. subst page. reflexivity.
Defined.

(** X14.  Once the extraction gave at least one row, the page is marked
    whatever happens to the rows: the processing of the PDF ends with the
    update that ticks the box of its page, also when every row was dropped by
    the cleaning or refused by Notion. *)
Theorem extracted_rows_always_lead_to_marking (E : Env) (db : string) (entry : pdf_entry)
    (w : World) (text : string) (w1 : World) (item : csv_row) (data : list csv_row)
    (w2 : World) :
  read_pdf E (pdf_url entry) (announced entry w) = (Ok text, w1) ->
  startswith "Error" text = false ->
  analyze_pdf_content E text 3 w1 = (Ok (item :: data), w2) ->
  exists w3 mid line w',
    process_pdf_entry E db entry w = (Ok tt, w') /\
    history w3 = mid ++ history w2 /\
    history w' = Print line
                 :: Call (PagesUpdate (page_id entry) {[ "Processed" := PCheckbox true ]})
                 :: history w3 /\
    (notion_fault E (history w3)
       (PagesUpdate (page_id entry) {[ "Processed" := PCheckbox true ]}) = None ->
     is_Some (find_page (page_id entry) (notion_store w3)) ->
     forall p, p ∈ pages (notion_store w') -> pg_id p = page_id entry ->
       pg_properties p !! "Processed" = Some (PCheckbox true)).
Proof.
  intros Hread Hstart Han.
  destruct (process_pdf_entry_with_rows E db entry w text w1 item data w2 Hread Hstart Han)
    as (w3 & mid & Hh & Hrun).
  destruct (mark_pdf_as_processed_run E (page_id entry) w3) as (line & Hmark).
  rewrite Hmark in Hrun. eexists w3, mid, line, _. split; [exact Hrun |].
  cbn. split_and!; try done.
  intros Hfault [p0 Hfind] p Hp Hid. rewrite Hfault, Hfind in Hp. cbn in Hp.
  apply list_elem_of_fmap in Hp as (p1 & -> & _).
  rewrite ticked_id in Hid. by apply ticked_processed.
Qed.

(** Rows come back, none survives the cleaning, and the page is marked. *)
Lemma extracted_rows_always_lead_to_marking_witness :
  let answer := "```" +:+ nl +:+ "Transaction Date,Product Name,Price,Category" +:+ nl +:+
                "2022-09-08,Coffee,,Groceries" +:+ nl +:+ "```" in
  let E := Demo.env answer Demo.no_fault in
  let w := Demo.world_of "https://files.example/a.pdf" in
  let entry := {| page_id := "page-1";
                  pdf_file := Demo.file_of "https://files.example/a.pdf";
                  pdf_url := "https://files.example/a.pdf";
                  respondent_name := "Jane Doe" |} in
  exists w',
    process_pdf_entry E "db" entry w = (Ok tt, w') /\
    pages (notion_store w') = map (ticked "page-1") (pages (notion_store w)).
Proof.
  intros answer E w entry.
  pose (w1 := (read_pdf E (pdf_url entry) (announced entry w)).2).
  pose (run := analyze_pdf_content E "08 Sep 2022 Coffee 3.50" 3 w1).
  pose (rows := match run.1 with Ok d => d | Raise _ => [] end).
  assert (Han : analyze_pdf_content E "08 Sep 2022 Coffee 3.50" 3 w1
                = (Ok (hd ∅ rows :: tl rows), run.2)) by (vm_compute; reflexivity).
  destruct (extracted_rows_always_lead_to_marking E "db" entry w "08 Sep 2022 Coffee 3.50"
              w1 (hd ∅ rows) (tl rows) run.2 eq_refl eq_refl Han)
    as (w3 & mid & line & w' & Hrun & _).
  exists w'. split; [exact Hrun |].
  vm_compute in Hrun. injection Hrun as <-. vm_compute. reflexivity.
Defined.

(** X15.  [main] never raises, whatever Notion, the download and the model
    do: healing ends, then [process_pdfs] runs on the world healing left and
    ends too. *)
Theorem main_never_raises (E : Env) (w : World) :
  exists w1 w',
    ensure_database_properties E (MAIN_DATABASE_ID E) w = (Ok tt, w1) /\
    process_pdfs E w1 = (Ok tt, w') /\
    main E w = (Ok tt, w').
Proof.
  destruct (total_unit _ w (ensure_database_properties_total E (MAIN_DATABASE_ID E)))
    as (w1 & H1).
  destruct (total_unit _ w1 (process_pdfs_total E)) as (w' & H2).
  exists w1, w'. split; [exact H1 |]. split; [exact H2 |].
  unfold main. unfold bind at 1. by rewrite H1.
Qed.

(** All a lookup does: the search, then printed lines; the store is as
    before. *)
Lemma check_existing_database_lookup (E : Env) name target w r w' :
  check_existing_database E name target w = (r, w') ->
  notion_store w' = notion_store w /\
  exists lines,
    Forall printing lines /\
    history w' = lines ++ Call (NotionSearch name) :: history w.
Proof.
  unfold check_existing_database, try_except. unfold bind at 1.
  rewrite notion_search_run. cbv zeta.
  destruct (notion_fault E _ _) as [e|].
  { intros [= <- <-]. split; [done |]. eexists [_]. split; [| reflexivity].
    by repeat constructor. }
  match goal with
  | |- context [first_match name target name ?response ?w0] =>
      destruct (first_match_sound name target name response w0) as (r0 & lines & -> & _)
  end.
  destruct r0 as [id|e]; intros [= <- <-]; (split; [done |]).
  - exists (rev (map Print lines)). split; [apply printed_lines_printing | done].
  - exists (Print (LogError "Error checking existing database" (exn_str e))
              :: rev (map Print lines)).
    split; [| done]. constructor; [done | apply printed_lines_printing].
Qed.

(** X16.  When the lookup of a respondent finds nothing and the creation of
    the database fails, the respondent is given up for this run and the loop
    goes on with the next respondent.  From the start of the respondent to
    that point the store is unchanged, and the events are: the line that
    announces the respondent, the search, the failed create, and printed
    lines; so nothing is downloaded, the model is not asked, nothing is
    written and no page is marked. *)
Theorem failed_resolution_skips_respondent (E : Env) (respondent : string)
    (pdfs : list pdf_entry) (rest : list (string * list pdf_entry)) (w w1 : World) (e : exn) :
  let create := DatabasesCreate (TARGET_PAGE_ID E) respondent
                  (list_to_map required_properties) in
  check_existing_database E respondent (TARGET_PAGE_ID E)
    (printed [LogText ("Processing Respondent: " +:+ respondent)] w) = (Ok None, w1) ->
  notion_fault E (history w1) create = Some e ->
  exists w2 during after,
    process_respondents E ((respondent, pdfs) :: rest) w = process_respondents E rest w2 /\
    notion_store w2 = notion_store w /\
    history w2 = after ++ Call create :: history w1 /\
    history w1 = during ++ Call (NotionSearch respondent)
                   :: Print (LogText ("Processing Respondent: " +:+ respondent))
                   :: history w /\
    Forall printing after /\ Forall printing during.
Proof.
  intros create Hcheck Hfault.
  destruct (check_existing_database_lookup E _ _ _ _ _ Hcheck)
    as (Hstore & during & Hduring & Hhistory).
  cbn [process_respondents].
  unfold bind at 1. cbn [print emit]. cbv beta iota.
  change {| notion_store := notion_store w;
            history := Print (LogText ("Processing Respondent: " +:+ respondent)) :: history w |}
    with (printed [LogText ("Processing Respondent: " +:+ respondent)] w).
  unfold bind at 1. unfold bind at 1. unfold resolve_database. unfold bind at 1.
  rewrite Hcheck. cbn [falsy_id truthy negb]. cbv beta iota.
  unfold bind at 1. unfold create_new_database, try_except. unfold bind at 1.
  rewrite notion_databases_create_run. cbv zeta. fold create. rewrite Hfault.
  cbv beta iota. unfold bind at 1. cbn [print emit ret]. cbv beta iota.
  cbn [falsy_id truthy negb]. cbv beta iota.
  unfold bind at 1. cbn [print emit ret]. cbv beta iota.
  eexists _, during, [_; _]. split; [reflexivity |]. cbn [notion_store history].
  split_and!; [exact Hstore | reflexivity | exact Hhistory | by repeat constructor
              | exact Hduring].
Qed.

Lemma failed_resolution_skips_respondent_witness :
  let create_fails := fun (h : list event) (c : api_call) =>
        match c with
        | DatabasesCreate _ _ _ => Some (Exn APIResponseError "validation error")
        | _ => None
        end in
  let E := Demo.env Demo.good_answer create_fails in
  let entry := {| page_id := "page-1";
                  pdf_file := Demo.file_of "https://files.example/a.pdf";
                  pdf_url := "https://files.example/a.pdf";
                  respondent_name := "Jane Doe" |} in
  exists w2,
    process_respondents E [("Jane Doe", [entry])] ResolverDemo.empty_world
    = process_respondents E [] w2 /\
    notion_store w2 = notion_store ResolverDemo.empty_world /\
    List.filter (fun ev => match ev with Call _ => true | Print _ => false end)
                (history w2) =
    [Call (DatabasesCreate (TARGET_PAGE_ID E) "Jane Doe" (list_to_map required_properties));
     Call (NotionSearch "Jane Doe")].
Proof.
  intros create_fails E entry.
  destruct (failed_resolution_skips_respondent E "Jane Doe" [entry] []
              ResolverDemo.empty_world
              (check_existing_database E "Jane Doe" (TARGET_PAGE_ID E)
                 (printed [LogText "Processing Respondent: Jane Doe"]
                    ResolverDemo.empty_world)).2
              (Exn APIResponseError "validation error") eq_refl eq_refl)
    as (w2 & during & after & Hrun & Hs & _).
  exists w2. split; [exact Hrun |]. split; [exact Hs |].
  vm_compute in Hrun. injection Hrun as <-. reflexivity.
Defined.

(** ** The fenced block of an answer *)

Section Fenced.

Lemma append_cons (x : ascii) (a b : string) : String x a +:+ b = String x (a +:+ b).
Proof. reflexivity. Qed.

Lemma append_assoc (a b c : string) : (a +:+ b) +:+ c = a +:+ (b +:+ c).
Proof. induction a as [|x a IH]; [done |]. rewrite !append_cons. by rewrite IH. Qed.

Lemma length_append (a b : string) :
  String.length (a +:+ b) = String.length a + String.length b.
Proof.
  induction a as [|x a IH]; [done |]. rewrite append_cons. cbn [String.length].
  by rewrite IH.
Qed.

Lemma prefix_append (p t : string) : String.prefix p (p +:+ t) = true.
Proof.
  induction p as [|x p IH]; [by destruct t |]. rewrite append_cons.
  change (String.prefix (String x p) (String x (p +:+ t)))
    with (if ascii_dec x x then String.prefix p (p +:+ t) else false).
  by destruct (ascii_dec x x).
Qed.

Lemma index_cons_S (n : nat) (s : string) (c : ascii) (t : string) :
  String.index (S n) s (String c t) = S <$> String.index n s t.
Proof. reflexivity. Qed.

Lemma index_skip (p : string) : forall n s t,
  String.index (String.length p + n) s (p +:+ t)
  = (fun i => String.length p + i) <$> String.index n s t.
Proof.
  induction p as [|x p IH]; intros n s t.
  - change ("" +:+ t) with t. cbn [String.length Nat.add].
    by destruct (String.index n s t).
  - rewrite append_cons. cbn [String.length Nat.add]. rewrite index_cons_S, IH.
    by destruct (String.index n s t).
Qed.

Lemma index_cons_O (pat : string) (c : ascii) (t : string) :
  String.index 0 pat (String c t) =
  if String.prefix pat (String c t) then Some 0 else S <$> String.index 0 pat t.
Proof. reflexivity. Qed.

Lemma index_no_char (c : ascii) (pat pre : string) : forall t,
  has_char c pre = false ->
  String.index 0 (String c pat) (pre +:+ t)
  = (fun i => String.length pre + i) <$> String.index 0 (String c pat) t.
Proof.
  induction pre as [|b pre IH]; intros t Hno.
  - change ("" +:+ t) with t. cbn [String.length Nat.add].
    by destruct (String.index 0 (String c pat) t).
  - cbn [has_char] in Hno. apply orb_false_iff in Hno as [Hcb Hno].
    apply Ascii.eqb_neq in Hcb.
    rewrite append_cons, index_cons_O.
    change (String.prefix (String c pat) (String b (pre +:+ t)))
      with (if ascii_dec c b then String.prefix pat (pre +:+ t) else false).
    destruct (ascii_dec c b) as [->|_]; [done |].
    rewrite (IH t Hno). cbn [String.length Nat.add].
    by destruct (String.index 0 (String c pat) t).
Qed.

Lemma index_here (pat t : string) :
  pat <> "" -> String.index 0 pat (pat +:+ t) = Some 0.
Proof.
  destruct pat as [|c pat]; [done |]. intros _.
  rewrite append_cons, index_cons_O, <- append_cons. by rewrite prefix_append.
Qed.

Lemma substring_skip (p : string) : forall m t,
  String.substring (String.length p) m (p +:+ t) = String.substring 0 m t.
Proof.
  induction p as [|x p IH]; intros m t; [done |]. rewrite append_cons.
  cbn [String.length String.substring]. apply IH.
Qed.

Lemma substring_take (b t : string) :
  String.substring 0 (String.length b) (b +:+ t) = b.
Proof.
  induction b as [|x b IH]; [by destruct t |]. rewrite append_cons.
  cbn [String.length String.substring]. by rewrite IH.
Qed.

End Fenced.

(** X17.  When the answer holds a block opened by three backticks and a line
    feed and closed by three backticks, and there is no backtick before the
    block or inside it, the CSV handed to the parser is the inside of the
    block, stripped: the prose before and after the block is left out. *)
Theorem csv_block_takes_fenced_block (pre body post : string) :
  has_char "`" pre = false ->
  has_char "`" body = false ->
  csv_block (pre +:+ "```" +:+ nl +:+ body +:+ "```" +:+ post) = strip body.
Proof.
  intros Hpre Hbody.
  set (fence := String "`" (String "`" (String "`" (String "010" "")))).
  set (rest := body +:+ "```" +:+ post).
  change (pre +:+ "```" +:+ nl +:+ rest) with (pre +:+ fence +:+ rest).
  assert (Hstart : find ("```" +:+ nl) 0 (pre +:+ fence +:+ rest)
                   = Z.of_nat (String.length pre)).
  { unfold find. change ("```" +:+ nl) with fence. change (Z.to_nat 0) with 0.
    unfold fence at 1. rewrite index_no_char by done. fold fence.
    rewrite index_here by done. cbn. by rewrite Nat.add_0_r. }
  assert (Hrest : String.index 0 "```" rest = Some (String.length body)).
  { unfold rest. change "```" with (String "`" "``") at 1.
    rewrite index_no_char by done.
    change (String "`" "``") with "```". rewrite index_here by done.
    cbn. by rewrite Nat.add_0_r. }
  assert (Hend : find "```" (Z.of_nat (String.length pre) + 4) (pre +:+ fence +:+ rest)
                 = Z.of_nat (String.length pre + 4 + String.length body)).
  { unfold find. rewrite <- append_assoc.
    replace (Z.to_nat (Z.of_nat (String.length pre) + 4))
      with (String.length (pre +:+ fence) + 0) by (rewrite length_append; cbn; lia).
    rewrite index_skip, Hrest. cbn. rewrite length_append. cbn. done. }
  unfold csv_block. rewrite Hstart, Hend.
  rewrite bool_decide_eq_true_2 by lia. f_equal.
  unfold slice. rewrite <- append_assoc.
  replace (Z.to_nat (Z.of_nat (String.length pre) + 4)) with (String.length (pre +:+ fence))
    by (rewrite length_append; cbn; lia).
  replace (Z.to_nat _) with (String.length body) by lia.
  rewrite substring_skip. unfold rest. apply substring_take.
Qed.

Lemma csv_block_takes_fenced_block_witness :
  csv_block Demo.good_answer =
  "Transaction Date,Product Name,Price,Category" +:+ nl +:+
  "2022-09-08,Coffee,$3.50,Groceries" +:+ nl +:+
  "2022-09-09,Power bill,200.50,Utilities".
Proof.
  exact (csv_block_takes_fenced_block ("Here you are:" +:+ nl)
           ("Transaction Date,Product Name,Price,Category" +:+ nl +:+
            "2022-09-08,Coffee,$3.50,Groceries" +:+ nl +:+
            "2022-09-09,Power bill,200.50,Utilities" +:+ nl) "" eq_refl eq_refl).
Defined.

(** ** What a run leaves of the store *)

Section Growth.

Variable E : Env.

Lemma grows_refl s : grows s s.
Proof.
  split; [exists []; by rewrite app_nil_r |].
  exists (pages s), []. rewrite app_nil_r. split; [done |].
  apply Forall_Forall2_diag, Forall_forall. intros p _. apply page_kept_refl.
Qed.

Lemma grows_trans s1 s2 s3 : grows s1 s2 -> grows s2 s3 -> grows s1 s3.
Proof.
  intros [[d1 Hd1] (k1 & a1 & Hp1 & Hk1)] [[d2 Hd2] (k2 & a2 & Hp2 & Hk2)]. split.
  - exists (d1 ++ d2). by rewrite Hd2, Hd1, <- app_assoc.
  - rewrite Hp1 in Hk2. apply Forall2_app_inv_l in Hk2 as (k21 & k22 & Hk21 & Hk22 & ->).
    exists k21, (k22 ++ a2). split; [by rewrite Hp2, <- app_assoc |].
    eapply Forall2_trans; [| exact Hk1 | exact Hk21].
    intros p q r. apply page_kept_trans.
Qed.

Lemma keeps_store_grows {A} (m : M A) : keeps_store m -> store_grows m.
Proof. intros Hm w r w' Hr. rewrite (Hm _ _ _ Hr). apply grows_refl. Qed.

Lemma store_grows_bind {A B} (m : M A) (k : A -> M B) :
  store_grows m -> (forall a, store_grows (k a)) -> store_grows (bind m k).
Proof.
  intros Hm Hk w r w'. unfold bind.
  destruct (m w) as [[a|e] w1] eqn:Ha; intros Hr.
  - eapply grows_trans; [by eapply Hm | by eapply Hk].
  - injection Hr as <- <-. by eapply Hm.
Qed.

Lemma store_grows_try_except {A} (m : M A) (h : exn -> M A) :
  store_grows m -> (forall e, store_grows (h e)) -> store_grows (try_except m h).
Proof.
  intros Hm Hh w r w'. unfold try_except.
  destruct (m w) as [[a|e] w1] eqn:Ha; intros Hr.
  - injection Hr as <- <-. by eapply Hm.
  - eapply grows_trans; [by eapply Hm | by eapply Hh].
Qed.

Lemma store_grows_print {A} (line : log_msg) (k : M A) :
  store_grows k -> store_grows (print line ;;; k).
Proof.
  intros Hk. apply store_grows_bind; [| done].
  apply keeps_store_grows, keeps_store_print.
Qed.

Lemma check_existing_database_keeps_store name target :
  keeps_store (check_existing_database E name target).
Proof.
  intros w r w'. unfold check_existing_database, try_except. unfold bind at 1.
  rewrite notion_search_run. cbv zeta.
  destruct (notion_fault E _ _); [by intros [= <- <-] |].
  match goal with
  | |- context [first_match name target name ?response ?w0] =>
      destruct (first_match_sound name target name response w0) as (r0 & lines & -> & _)
  end.
  destruct r0; by intros [= <- <-].
Qed.

Lemma create_new_database_grows name : store_grows (create_new_database E name).
Proof.
  intros w r w'. unfold create_new_database, try_except. unfold bind at 1. unfold bind at 1.
  rewrite notion_databases_create_run. cbv zeta.
  destruct (notion_fault E _ _); intros [= <- <-]; [apply grows_refl |].
  cbn. split; [by eexists |]. exists (pages (notion_store w)), []. rewrite app_nil_r.
  split; [done |]. apply Forall_Forall2_diag, Forall_forall. intros p _. apply page_kept_refl.
Qed.

Lemma resolve_database_grows name : store_grows (resolve_database E name).
Proof.
  unfold resolve_database. apply store_grows_bind.
  { apply keeps_store_grows, check_existing_database_keeps_store. }
  intros id. destruct (falsy_id id).
  - apply store_grows_bind; [apply create_new_database_grows |].
    intros id2. apply keeps_store_grows. destruct (falsy_id id2); script.
  - apply keeps_store_grows. script.
Qed.

Lemma upload_transactions_to_notion_grows data database_id :
  store_grows (upload_transactions_to_notion E data database_id).
Proof.
  intros w r w'. unfold upload_transactions_to_notion. unfold bind at 1.
  destruct (upload_rows_frame E data database_id 0 0 w)
    as (u & s & w1 & added & -> & Hdb & Hpg & _).
  intros [= <- <-]. cbn. split; [exists []; by rewrite app_nil_r |].
  exists (pages (notion_store w)), added. split; [done |].
  apply Forall_Forall2_diag, Forall_forall. intros p _. apply page_kept_refl.
Qed.

Lemma mark_pdf_as_processed_grows page_id : store_grows (mark_pdf_as_processed E page_id).
Proof.
  intros w r w'. destruct (mark_pdf_as_processed_run E page_id w) as (line & ->).
  intros [= <- <-]. cbn.
  destruct (notion_fault E _ _); [apply grows_refl |].
  destruct (find_page _ _) as [p0|]; [| apply grows_refl].
  split; [exists []; by rewrite app_nil_r |].
  exists (map (ticked page_id) (pages (notion_store w))), []. rewrite app_nil_r.
  split; [done |]. apply Forall2_fmap_r, Forall_Forall2_diag, Forall_forall.
  intros q _. apply page_kept_ticked.
Qed.

Lemma clean_data_keeps_store extracted cleaned : keeps_store (clean_data extracted cleaned).
Proof.
  intros w r w'. destruct (clean_data_run extracted cleaned w) as (lines & ->).
  by intros [= <- <-].
Qed.

Lemma process_pdf_entry_grows db entry : store_grows (process_pdf_entry E db entry).
Proof.
  unfold process_pdf_entry. apply store_grows_try_except.
  2: { intros e. apply keeps_store_grows. script. }
  apply store_grows_print. apply store_grows_bind.
  { apply keeps_store_grows, read_pdf_keeps_store. }
  intros text. destruct (startswith "Error" text).
  { apply keeps_store_grows. script. }
  apply store_grows_bind.
  { apply keeps_store_grows, analyze_pdf_content_keeps_store. }
  intros data. apply store_grows_print. destruct data as [|item data].
  { apply keeps_store_grows. script. }
  apply store_grows_bind.
  { apply keeps_store_grows, clean_data_keeps_store. }
  intros cleaned. apply store_grows_bind; [| intros _; apply mark_pdf_as_processed_grows].
  destruct cleaned.
  - apply keeps_store_grows. script.
  - apply store_grows_bind; [apply upload_transactions_to_notion_grows |].
    intros _. apply keeps_store_grows. script.
Qed.

Lemma process_pdf_entries_grows db pdfs : store_grows (process_pdf_entries E db pdfs).
Proof.
  induction pdfs as [|entry rest IH]; cbn [process_pdf_entries].
  - apply keeps_store_grows. script.
  - apply store_grows_bind; [apply process_pdf_entry_grows | done].
Qed.

Lemma process_respondents_grows groups : store_grows (process_respondents E groups).
Proof.
  induction groups as [|[respondent pdfs] rest IH]; cbn [process_respondents].
  - apply keeps_store_grows. script.
  - apply store_grows_print. apply store_grows_bind; [apply resolve_database_grows |].
    intros id. apply store_grows_bind; [| done].
    destruct id; [apply process_pdf_entries_grows | apply keeps_store_grows; script].
Qed.

Lemma get_pdf_entries_keeps_store database_id : keeps_store (get_pdf_entries E database_id).
Proof.
  intros w r w'. destruct (get_pdf_entries_run E database_id w) as (lines & _ & ->).
  by intros [= <- <-].
Qed.

Lemma process_pdfs_grows : store_grows (process_pdfs E).
Proof.
  unfold process_pdfs. apply store_grows_print. apply store_grows_bind.
  { apply keeps_store_grows, get_pdf_entries_keeps_store. }
  intros entries. destruct entries; [apply keeps_store_grows; script |].
  apply process_respondents_grows.
Qed.

End Growth.

(** X18.  A run of [process_pdfs] deletes nothing and rewrites nothing: it
    never raises; afterwards the databases that existed are all there,
    unchanged and in order, followed by those it created; the pages that
    existed are all there in order, each with its id, its database and its
    properties as before, except that its [Processed] box may now be ticked,
    followed by the pages it added. *)
Theorem process_pdfs_only_adds_and_ticks (E : Env) (w : World) :
  exists w' new_databases kept new_pages,
    process_pdfs E w = (Ok tt, w') /\
    databases (notion_store w') = databases (notion_store w) ++ new_databases /\
    pages (notion_store w') = kept ++ new_pages /\
    Forall2 page_kept (pages (notion_store w)) kept.
Proof.
  destruct (total_unit _ w (process_pdfs_total E)) as (w' & Hrun).
  destruct (process_pdfs_grows E _ _ _ Hrun) as [[dbs Hdbs] (kept & added & Hpages & Hkept)].
  by exists w', dbs, kept, added.
Qed.

(** ** What a run asks of Notion *)

Section Requests.

Variable E : Env.

Lemma notion_call_emits {A} (P : event -> Prop) c
    (serve : list event -> Store -> result A * Store) :
  P (Call c) -> emits P (notion_call E c serve).
Proof.
  intros HP. unfold notion_call.
  apply emits_bind; [apply emits_get_history | intros h].
  apply emits_bind; [by apply emits_emit | intros _].
  destruct (notion_fault E h c); [apply emits_raise |].
  apply emits_bind; [apply emits_get_store | intros s].
  destruct (serve h s) as [r s'].
  apply emits_bind; [apply emits_put_store | intros _]. apply emits_lift.
Qed.

Lemma ticks_only_mono allowed allowed' ev :
  allowed ⊆ allowed' -> ticks_only allowed ev -> ticks_only allowed' ev.
Proof.
  intros Hsub. destruct ev as [[]|]; cbn; try done. intros [Hin ->]. split; [| done].
  by apply Hsub.
Qed.

Lemma offline_ticks_only allowed ev : offline ev -> ticks_only allowed ev.
Proof. by destruct ev as [[]|]. Qed.

Lemma check_existing_database_requests allowed name target :
  emits (ticks_only allowed) (check_existing_database E name target).
Proof.
  unfold check_existing_database. cbv zeta. apply emits_try_except; [| intros e; script].
  apply emits_bind; [by apply notion_call_emits | intros response].
  induction response as [|db rest IH]; cbn [first_match]; script.
Qed.

Lemma create_new_database_requests allowed name :
  emits (ticks_only allowed) (create_new_database E name).
Proof.
  unfold create_new_database. cbv zeta. apply emits_try_except; [| intros e; script].
  apply emits_bind; [by apply notion_call_emits | intros db]. script.
Qed.

Lemma resolve_database_requests allowed name :
  emits (ticks_only allowed) (resolve_database E name).
Proof.
  unfold resolve_database.
  apply emits_bind; [apply check_existing_database_requests | intros id].
  destruct (falsy_id id); [| script].
  apply emits_bind; [apply create_new_database_requests | intros id2].
  destruct (falsy_id id2); script.
Qed.

Lemma upload_row_requests allowed row database_id :
  emits (ticks_only allowed) (upload_row E row database_id).
Proof.
  unfold upload_row, try_except_ValueError, method_strip.
  assert (forall properties,
             emits (ticks_only allowed) (notion_pages_create E database_id properties))
    by (intros; by apply notion_call_emits).
  script.
Qed.

Lemma upload_transactions_to_notion_requests allowed data database_id :
  emits (ticks_only allowed) (upload_transactions_to_notion E data database_id).
Proof.
  unfold upload_transactions_to_notion.
  apply emits_bind; [| intros [u s]; script].
  generalize 0 at 1. generalize 0.
  induction data as [|row rest IH]; intros s u; cbn [upload_rows]; [script |].
  apply emits_bind; [apply upload_row_requests |]. intros []; apply IH.
Qed.

Lemma mark_pdf_as_processed_requests page_id :
  emits (ticks_only [page_id]) (mark_pdf_as_processed E page_id).
Proof.
  unfold mark_pdf_as_processed. apply emits_try_except; [| intros e; script].
  apply emits_bind; [| intros _; script].
  apply notion_call_emits. split; [by left | done].
Qed.

Lemma process_pdf_entry_requests db entry :
  emits (ticks_only [page_id entry]) (process_pdf_entry E db entry).
Proof.
  unfold process_pdf_entry. cbv zeta. apply emits_try_except; [| intros e; script].
  apply emits_bind; [script | intros _].
  apply emits_bind.
  { eapply emits_weaken; [apply offline_ticks_only | apply read_pdf_offline]. }
  intros text. destruct (startswith "Error" text); [script |].
  apply emits_bind.
  { eapply emits_weaken; [apply offline_ticks_only | apply analyze_pdf_content_offline]. }
  intros data. apply emits_bind; [script | intros _].
  destruct data as [|item data]; [script |].
  apply emits_bind.
  { generalize (@nil csv_row). generalize (item :: data). intros extracted.
    induction extracted as [|it rest IH]; intros cleaned; cbn [clean_data]; script. }
  intros cleaned. apply emits_bind; [| intros _; apply mark_pdf_as_processed_requests].
  destruct cleaned; [script |].
  apply emits_bind; [apply upload_transactions_to_notion_requests | intros _; script].
Qed.

Lemma process_pdf_entries_requests db pdfs :
  emits (ticks_only (map page_id pdfs)) (process_pdf_entries E db pdfs).
Proof.
  induction pdfs as [|entry rest IH]; cbn [process_pdf_entries]; [script |].
  apply emits_bind.
  - eapply emits_weaken; [| apply process_pdf_entry_requests].
    intros ev. apply ticks_only_mono. intros id ->%list_elem_of_singleton. by left.
  - intros _. eapply emits_weaken; [| exact IH].
    intros ev. apply ticks_only_mono. intros id Hid. by right.
Qed.

Lemma process_respondents_requests groups :
  emits (ticks_only (map page_id (concat (map snd groups)))) (process_respondents E groups).
Proof.
  induction groups as [|[respondent pdfs] rest IH]; cbn [process_respondents]; [script |].
  apply emits_bind; [script | intros _].
  apply emits_bind; [apply resolve_database_requests | intros id].
  apply emits_bind.
  - destruct id; [| script].
    eapply emits_weaken; [| apply process_pdf_entries_requests].
    intros ev. apply ticks_only_mono. cbn [map concat snd]. rewrite List.map_app.
    intros i Hi. apply elem_of_app. by left.
  - intros _. eapply emits_weaken; [| exact IH].
    intros ev. apply ticks_only_mono. cbn [map concat snd]. rewrite List.map_app.
    intros i Hi. apply elem_of_app. by right.
Qed.

End Requests.

(** Every entry of a group is one of the entries that were grouped. *)
Lemma group_by_respondent_members pdf_entries entry :
  entry ∈ concat (map snd (group_by_respondent pdf_entries)) -> entry ∈ pdf_entries.
Proof.
  intros Hin. apply list_elem_of_In, List.in_concat in Hin as (pdfs & Hpdfs & Hin).
  apply List.in_map_iff in Hpdfs as ([respondent pdfs'] & <- & Hgroup).
  destruct (group_fold_spec pdf_entries [] [] ltac:(constructor) ltac:(done))
    as [Hnd Hspec].
  apply list_elem_of_In, (elem_of_list_to_map (M := gmap string)) in Hgroup; [| exact Hnd].
  unfold group_by_respondent in Hgroup. rewrite Hspec in Hgroup. cbn [app snd] in *.
  destruct (List.filter _ pdf_entries) as [|e l] eqn:Hf; [done |].
  injection Hgroup as <-. rewrite <- Hf in Hin.
  apply List.filter_In in Hin as [Hin _]. by apply list_elem_of_In.
Qed.

(** X19.  What [process_pdfs] never asks of Notion: it never retrieves or
    updates a database schema, and every page update it sends ticks the
    [Processed] box, and nothing else, of a page of the main database that
    was not marked when the run began. *)
Theorem process_pdfs_updates_only_tick_scanned_pages (E : Env) (w : World) :
  exists w' new,
    process_pdfs E w = (Ok tt, w') /\
    history w' = new ++ history w /\
    Forall (fun ev =>
              match ev with
              | Call (PagesUpdate id properties) =>
                  properties = {[ "Processed" := PCheckbox true ]} /\
                  exists page, page ∈ pages (notion_store w) /\
                    pg_database page = MAIN_DATABASE_ID E /\ pg_id page = id /\
                    pg_properties page !! "Processed" <> Some (PCheckbox true)
              | Call (DatabasesUpdate _ _) | Call (DatabasesRetrieve _) => False
              | _ => True
              end) new.
Proof.
  destruct (total_unit _ w (process_pdfs_total E)) as (w' & Hrun). exists w'.
  assert (Hrun0 := Hrun). revert Hrun0.
  unfold process_pdfs. unfold bind at 1. cbn [print emit]. cbv beta iota.
  unfold bind at 1.
  match goal with
  | |- context [get_pdf_entries E ?id ?w0] =>
      destruct (get_pdf_entries_run E id w0) as (lines & Hlines & Hscan)
  end.
  rewrite Hscan. clear Hscan. cbn [notion_store history].
  match goal with
  | |- context [group_by_respondent ?l] => set (entries := l)
  end.
  assert (Hentries : forall entry, entry ∈ entries ->
            exists page, page ∈ pages (notion_store w) /\
              pg_database page = MAIN_DATABASE_ID E /\ pg_id page = page_id entry /\
              pg_properties page !! "Processed" <> Some (PCheckbox true)).
  { intros entry Hin. subst entries.
    destruct (notion_fault E _ _); [by apply not_elem_of_nil in Hin |].
    destruct (find_database _ _); [| by apply not_elem_of_nil in Hin].
    apply list_elem_of_In, List.in_concat in Hin as (l & Hl & Hin).
    apply List.in_map_iff in Hl as (page & <- & Hpage).
    apply list_elem_of_In, elem_of_take in Hpage as (i & Hpage & _).
    apply list_elem_of_lookup_2, list_elem_of_In, List.filter_In in Hpage as [Hpage Hdb].
    apply list_elem_of_In, attachments_unmarked in Hin as [Hid Hun].
    exists page. split_and!; [by apply list_elem_of_In | by apply bool_decide_eq_true in Hdb | done |].
    unfold processed_of in Hun. intros Heq. by rewrite Heq in Hun. }
  clearbody entries. intros Hrun0.
  assert (Hrest : exists new, history w' = new ++ lines ++
                    Call (DatabasesQuery (MAIN_DATABASE_ID E)) ::
                    Print (LogText "Fetching PDF entries from Notion database...") ::
                    history w /\
                    Forall (ticks_only (map page_id entries)) new).
  { destruct entries as [|entry entries].
    - eapply (emits_print (ticks_only _)) in Hrun0 as (new & -> & Hnew); [| exact I].
      by exists new.
    - apply process_respondents_requests in Hrun0 as (new & -> & Hnew).
      exists new. split; [done |]. eapply Forall_impl; [exact Hnew |].
      intros ev. apply ticks_only_mono. intros id Hid.
      apply list_elem_of_fmap in Hid as (e & -> & He).
      apply list_elem_of_fmap. exists e. split; [done |].
      by apply group_by_respondent_members. }
  destruct Hrest as (new & Hhist & Hnew).
  exists (new ++ lines ++ [Call (DatabasesQuery (MAIN_DATABASE_ID E));
                           Print (LogText "Fetching PDF entries from Notion database...")]).
  split; [done |]. split.
  { rewrite Hhist. by rewrite <- !app_assoc. }
  rewrite !Forall_app. split_and!.
  - eapply Forall_impl; [exact Hnew |]. intros [[]|]; cbn; try done.
    intros [(e & -> & He)%list_elem_of_fmap ->]. split; [done |].
    destruct (Hentries e He) as (page & ? & ? & ? & ?). by exists page.
  - eapply Forall_impl; [exact Hlines |]. by intros [[]|].
  - by repeat constructor.
Qed.
